(** * sstp-client route module (sstp-route.c): a shallow embedding

    The route module talks to the kernel routing table either over an
    rtnetlink socket (HAVE_NETLINK) or by running the "ip route" command.
    This development embeds both backends and proves properties of
    - the receive loop [sstp_route_recv] and [sstp_route_talk],
    - the message builder [sstp_route_addattr] / [sstp_route_newmsg],
    - the query [sstp_route_get] (request and response decoding),
    - the life cycle [sstp_route_init] / [sstp_route_done],
    - the shell fallback,
    - the unit test [main] of both builds.

    Conventions.  The session buffer [char buf[1024]] is a [list Z] of bytes;
    structure fields are read and written at their byte offsets in host
    (little-endian) order, as the casts of the C code do on Linux.  C
    integers are [Z] with the wrap-around written out ([to_u8], [to_u16],
    [to_u32], [wrap_i32]).  The constants and macros of <linux/netlink.h>
    and <linux/rtnetlink.h> are given with their Linux values. *)

From stdpp Require Import base tactics option list gmap sets strings.
From Stdlib Require Import ZArith Lia Ascii.

Local Open Scope Z_scope.

(** ** Outcome of a call *)

(** A call either returns ([Done]), never returns because it waits in
    [recv] for input that the scripted environment does not deliver
    ([Blocked]), or leaves the defined behaviour of C, e.g. by an access
    outside an object or through a released pointer ([Undefined]). *)
Inductive run (A : Type) : Type :=
  | Done (a : A)
  | Blocked
  | Undefined.
Arguments Done {A} a.
Arguments Blocked {A}.
Arguments Undefined {A}.

Definition run_bind {A B} (f : A → run B) (m : run A) : run B :=
  match m with
  | Done a => f a
  | Blocked => Blocked
  | Undefined => Undefined
  end.
Global Instance run_mbind : MBind run := @run_bind.
Global Instance run_mret : MRet run := @Done.

(** An access that is checked: [None] becomes undefined behaviour. *)
Definition checked {A} (o : option A) : run A :=
  match o with Some a => Done a | None => Undefined end.

(** ** Machine integers and bytes *)

Definition to_u8 (x : Z) : Z := x mod 256.
Definition to_u16 (x : Z) : Z := x mod 65536.
Definition to_u32 (x : Z) : Z := x mod 4294967296.
Definition wrap_i32 (x : Z) : Z := (x + 2147483648) mod 4294967296 - 2147483648.

(** Little-endian encoding of [x] on [n] bytes, and decoding. *)
Fixpoint le_encode (n : nat) (x : Z) : list Z :=
  match n with
  | O => []
  | S n' => to_u8 x :: le_encode n' (x / 256)
  end.

Fixpoint le_decode (bs : list Z) : Z :=
  match bs with
  | [] => 0
  | b :: bs' => b + 256 * le_decode bs'
  end.

Definition is_byte (b : Z) : Prop := 0 ≤ b < 256.
Definition bytes_ok (bs : list Z) : Prop := Forall is_byte bs.

(** ** Byte buffers *)

(** Reads are total: a read behind the end of the list sees zero bytes.
    Every read of the C code that is modelled by a total read is inside
    the 1024 bytes of the session buffer. *)
Definition get_bytes (buf : list Z) (off : Z) (n : nat) : list Z :=
  take n (drop (Z.to_nat off) buf).
Definition get_u8 (buf : list Z) (off : Z) : Z :=
  default 0 (buf !! Z.to_nat off).
Definition get_u16 (buf : list Z) (off : Z) : Z :=
  get_u8 buf off + 256 * get_u8 buf (off + 1).
Definition get_u32 (buf : list Z) (off : Z) : Z :=
  get_u16 buf off + 65536 * get_u16 buf (off + 2).
Definition get_i32 (buf : list Z) (off : Z) : Z := wrap_i32 (get_u32 buf off).

(** In-place write of [bs] at [off] (memcpy into an array that is known to
    be large enough). *)
Definition put_bytes (buf : list Z) (off : Z) (bs : list Z) : list Z :=
  list_inserts (Z.to_nat off) bs buf.
Definition put_u8 (buf : list Z) (off v : Z) : list Z :=
  put_bytes buf off (le_encode 1 v).
Definition put_u16 (buf : list Z) (off v : Z) : list Z :=
  put_bytes buf off (le_encode 2 v).
Definition put_u32 (buf : list Z) (off v : Z) : list Z :=
  put_bytes buf off (le_encode 4 v).

(** Bounds-checked write: a write that leaves the object is undefined. *)
Definition in_bounds (buf : list Z) (off : Z) (n : nat) : bool :=
  bool_decide (0 ≤ off ∧ off + Z.of_nat n ≤ Z.of_nat (length buf)).
Definition store (buf : list Z) (off : Z) (bs : list Z) : option (list Z) :=
  if in_bounds buf off (length bs) then Some (put_bytes buf off bs) else None.

(** ** Constants and macros of the netlink headers *)

Definition AF_INET : Z := 2.
Definition AF_INET6 : Z := 10.
Definition EINTR : Z := 4.
Definition EAGAIN : Z := 11.

Definition NLMSG_ERROR : Z := 2.
Definition NLMSG_DONE : Z := 3.
Definition NLM_F_REQUEST : Z := 1.
Definition NLM_F_MULTI : Z := 2.
Definition NLM_F_ACK : Z := 4.
Definition NLM_F_REPLACE : Z := 256.
Definition NLM_F_CREATE : Z := 1024.

Definition RTM_NEWROUTE : Z := 24.
Definition RTM_DELROUTE : Z := 25.
Definition RTM_GETROUTE : Z := 26.
Definition RT_TABLE_MAIN : Z := 254.
Definition RT_SCOPE_UNIVERSE : Z := 0.
Definition RT_SCOPE_LINK : Z := 253.
Definition RTPROT_BOOT : Z := 3.
Definition RTN_UNICAST : Z := 1.
Definition RTA_DST : Z := 1.
Definition RTA_OIF : Z := 4.
Definition RTA_GATEWAY : Z := 5.
Definition RTA_PREFSRC : Z := 7.

(** sizeof(struct nlmsghdr), sizeof(struct rtmsg), sizeof(struct rtattr) *)
Definition sizeof_nlmsghdr : Z := 16.
Definition sizeof_rtmsg : Z := 12.
Definition sizeof_rtattr : Z := 4.

(** [((len) + 4 - 1) & ~(4 - 1)].  The macros compute in unsigned int; in
    every run that is defined their operands stay far below 2^31, where
    this arithmetic does not wrap. *)
Definition NLMSG_ALIGN (len : Z) : Z := Z.land (len + 3) (Z.lnot 3).
Definition NLMSG_HDRLEN : Z := NLMSG_ALIGN sizeof_nlmsghdr.
Definition NLMSG_LENGTH (len : Z) : Z := len + NLMSG_HDRLEN.
Definition NLMSG_SPACE (len : Z) : Z := NLMSG_ALIGN (NLMSG_LENGTH len).
Definition RTA_ALIGN (len : Z) : Z := Z.land (len + 3) (Z.lnot 3).
Definition RTA_LENGTH (len : Z) : Z := RTA_ALIGN sizeof_rtattr + len.
Definition RTA_SPACE (len : Z) : Z := RTA_ALIGN (RTA_LENGTH len).

(** Field offsets.  struct nlmsghdr { u32 nlmsg_len; u16 nlmsg_type;
    u16 nlmsg_flags; u32 nlmsg_seq; u32 nlmsg_pid; } at offset 0. *)
Definition nlmsg_len (buf : list Z) : Z := get_u32 buf 0.
Definition nlmsg_type (buf : list Z) : Z := get_u16 buf 4.
Definition nlmsg_flags (buf : list Z) : Z := get_u16 buf 6.
Definition nlmsg_seq (buf : list Z) : Z := get_u32 buf 8.
Definition nlmsg_pid (buf : list Z) : Z := get_u32 buf 12.

(** NLMSG_DATA(nlh): the payload starts behind the aligned header. *)
Definition NLMSG_DATA : Z := NLMSG_LENGTH 0.

(** struct nlmsgerr { int error; struct nlmsghdr msg; } at NLMSG_DATA. *)
Definition nlmsgerr_error (buf : list Z) : Z := get_i32 buf NLMSG_DATA.

(** struct rtmsg { u8 rtm_family, rtm_dst_len, rtm_src_len, rtm_tos,
    rtm_table, rtm_protocol, rtm_scope, rtm_type; u32 rtm_flags; } at
    NLMSG_DATA. *)
Definition rtm_family (buf : list Z) : Z := get_u8 buf (NLMSG_DATA + 0).
Definition rtm_dst_len (buf : list Z) : Z := get_u8 buf (NLMSG_DATA + 1).
Definition rtm_src_len (buf : list Z) : Z := get_u8 buf (NLMSG_DATA + 2).
Definition rtm_tos (buf : list Z) : Z := get_u8 buf (NLMSG_DATA + 3).
Definition rtm_table (buf : list Z) : Z := get_u8 buf (NLMSG_DATA + 4).
Definition rtm_protocol (buf : list Z) : Z := get_u8 buf (NLMSG_DATA + 5).
Definition rtm_scope (buf : list Z) : Z := get_u8 buf (NLMSG_DATA + 6).
Definition rtm_type (buf : list Z) : Z := get_u8 buf (NLMSG_DATA + 7).
Definition rtm_flags (buf : list Z) : Z := get_u32 buf (NLMSG_DATA + 8).

(** RTM_RTA(rtm) and RTM_PAYLOAD(nlh); the latter is computed in unsigned
    arithmetic and stored in an int. *)
Definition RTM_RTA : Z := NLMSG_DATA + NLMSG_ALIGN sizeof_rtmsg.
Definition RTM_PAYLOAD (buf : list Z) : Z :=
  wrap_i32 (to_u32 (nlmsg_len buf - NLMSG_SPACE sizeof_rtmsg)).

(** struct rtattr { u16 rta_len; u16 rta_type; } at offset [rta]. *)
Definition rta_len (buf : list Z) (rta : Z) : Z := get_u16 buf rta.
Definition rta_type (buf : list Z) (rta : Z) : Z := get_u16 buf (rta + 2).
Definition RTA_DATA (rta : Z) : Z := rta + RTA_LENGTH 0.
Definition RTA_PAYLOAD (buf : list Z) (rta : Z) : Z := rta_len buf rta - RTA_LENGTH 0.

(** NLMSG_OK(nlh, len) *)
Definition NLMSG_OK (buf : list Z) (len : Z) : bool :=
  (sizeof_nlmsghdr <=? len) && (sizeof_nlmsghdr <=? nlmsg_len buf)
  && (nlmsg_len buf <=? len).

(** RTA_OK(rta, len) *)
Definition RTA_OK (buf : list Z) (rta len : Z) : bool :=
  (sizeof_rtattr <=? len) && (sizeof_rtattr <=? rta_len buf rta)
  && (rta_len buf rta <=? len).

(** NLMSG_TAIL(n), the macro of sstp-route.c *)
Definition NLMSG_TAIL (buf : list Z) : Z := NLMSG_ALIGN (nlmsg_len buf).

(** ** The route context *)

Definition sizeof_buf : Z := 1024.

Record sstp_route_ctx : Type := mk_ctx {
  ctx_sock : Z;        (* int sock *)
  ctx_seq : Z;         (* int seq *)
  ctx_len : Z;         (* int len *)
  ctx_buf : list Z     (* char buf[1024] *)
}.

Definition set_len (c : sstp_route_ctx) (l : Z) : sstp_route_ctx :=
  mk_ctx (ctx_sock c) (ctx_seq c) l (ctx_buf c).
Definition set_buf (c : sstp_route_ctx) (b : list Z) : sstp_route_ctx :=
  mk_ctx (ctx_sock c) (ctx_seq c) (ctx_len c) b.
Definition set_seq (c : sstp_route_ctx) (s : Z) : sstp_route_ctx :=
  mk_ctx (ctx_sock c) s (ctx_len c) (ctx_buf c).
Definition set_sock (c : sstp_route_ctx) (s : Z) : sstp_route_ctx :=
  mk_ctx s (ctx_seq c) (ctx_len c) (ctx_buf c).

Definition ctx_wf (c : sstp_route_ctx) : Prop :=
  length (ctx_buf c) = Z.to_nat sizeof_buf.

(** ** The socket as seen by the module *)

(** What one call of recv(2) delivers: a failure with its errno, or a
    datagram (the empty datagram is a read of length zero). *)
Inductive recv_event : Type :=
  | RecvFail (errno : Z)
  | RecvData (data : list Z).

(** The mutable part of the environment: errno, the datagrams that the
    socket will deliver in order, and the datagrams handed to send(2). *)
Record io : Type := mk_io {
  io_errno : Z;
  io_inbox : list recv_event;
  io_sent : list (list Z)
}.

(** How one pass through the body of the do-while loop ends. *)
Inductive flow : Type :=
  | Return (v : Z)    (* return v *)
  | Break             (* break *)
  | Next.             (* continue, or the end of the body: test the condition *)

(** ** Session transport: sstp_route_recv and sstp_route_talk *)

Section Transport.

(** The value of getpid(), and the answer of the system call send(2) for
    a datagram: the number of bytes that it takes, or, when it fails, the
    negated error number. *)
Variable getpid : Z.
Variable send : list Z → Z.

(** recv(ctx->sock, ctx->buf + ctx->len, sizeof(ctx->buf) - ctx->len, 0):
    a datagram is cut to the room that is left and stored at offset
    [ctx->len]; the call returns the number of bytes stored. *)
Definition recv_into (c : sstp_route_ctx) (data : list Z) : Z * sstp_route_ctx :=
  let got := take (Z.to_nat (sizeof_buf - ctx_len c)) data in
  (Z.of_nat (length got), set_buf c (put_bytes (ctx_buf c) (ctx_len c) got)).

(** The body of the do-while loop of sstp_route_recv.  The header [nlh]
    is the start of the buffer throughout. *)
Definition recv_body (c : sstp_route_ctx) (errno : Z) (ev : recv_event)
  : flow * sstp_route_ctx * Z :=
  match ev with
  | RecvFail e =>
      (* len == -1 *)
      if (e =? EAGAIN) || (e =? EINTR) then (Next, c, e)
      else (Return (-1), c, e)
  | RecvData data =>
      let '(len, c1) := recv_into c data in
      let nlh := ctx_buf c1 in
      if len =? 0 then (Return (-1), c1, errno)
      else if negb (NLMSG_OK nlh len) then (Return (-1), c1, errno)
      else if (nlmsg_type nlh =? NLMSG_ERROR) && negb (nlmsgerr_error nlh =? 0)
      then (Return (-1), c1, wrap_i32 (- nlmsgerr_error nlh))
      else if negb (nlmsg_seq nlh =? to_u32 (ctx_seq c1)) then (Next, c1, errno)
      else if negb (nlmsg_pid nlh =? to_u32 getpid) then (Next, c1, errno)
      else
        let c2 := set_len c1 len in
        if nlmsg_type nlh =? NLMSG_DONE then (Break, c2, errno)
        else if Z.land (nlmsg_flags nlh) NLM_F_MULTI =? 0 then (Break, c2, errno)
        else (Next, c2, errno)
  end.

(** The loop condition [nlh->nlmsg_len > ctx->len], an unsigned
    comparison. *)
Definition recv_again (c : sstp_route_ctx) : bool :=
  to_u32 (ctx_len c) <? nlmsg_len (ctx_buf c).

(** do { body } while (cond); return ctx->len.  One datagram or failure
    of the inbox is consumed per pass; with the inbox empty recv blocks. *)
Fixpoint recv_loop (inbox : list recv_event) (c : sstp_route_ctx) (errno : Z)
    (sent : list (list Z)) : run (Z * sstp_route_ctx * io) :=
  match inbox with
  | [] => Blocked
  | ev :: rest =>
      let '(fl, c', errno') := recv_body c errno ev in
      match fl with
      | Return v => Done (v, c', mk_io errno' rest sent)
      | Break => Done (ctx_len c', c', mk_io errno' rest sent)
      | Next =>
          if recv_again c' then recv_loop rest c' errno' sent
          else Done (ctx_len c', c', mk_io errno' rest sent)
      end
  end.

Definition sstp_route_recv (c : sstp_route_ctx) (w : io)
  : run (Z * sstp_route_ctx * io) :=
  recv_loop (io_inbox w) (set_len c 0) (io_errno w) (io_sent w).

(** len = send(ctx->sock, data, size, 0): the library function returns
    the count of the system call, or -1 with errno set when the call
    fails. *)
Definition send_len (r : Z) : Z := if r <? 0 then -1 else r.
Definition send_errno (r : Z) (errno : Z) : Z := if r <? 0 then - r else errno.

(** sstp_route_talk(ctx, data, size): [data] is the start of the session
    buffer at both call sites. *)
Definition sstp_route_talk (c : sstp_route_ctx) (data : list Z) (size : Z) (w : io)
  : run (Z * sstp_route_ctx * io) :=
  let dgram := take (Z.to_nat size) data in
  let r := send dgram in
  let len := send_len r in
  let w1 := mk_io (send_errno r (io_errno w)) (io_inbox w) (io_sent w ++ [dgram]) in
  if negb (len =? size) then Done (len, c, w1)
  else sstp_route_recv c w1.

End Transport.

(** ** Routes *)

(** Modelled from the spec: the declaration of sstp_route_st (sstp-route.h)
    is not part of the sources at hand.  The fields are the ones that
    sstp-route.c uses: the presence flags [have.{src,dst,gwy,oif}], the
    address family, the address length [rt_blen], the three addresses (raw
    bytes, room for an IPv6 address), the output interface index and the
    interface name. *)
Record route_have : Type := mk_have {
  have_src : bool;
  have_dst : bool;
  have_gwy : bool;
  have_oif : bool
}.

Record sstp_route_st : Type := mk_route {
  rt_have : route_have;
  rt_family : Z;       (* int family *)
  rt_blen : Z;         (* int rt_blen *)
  rt_dst : list Z;     (* address bytes *)
  rt_src : list Z;
  rt_gwy : list Z;
  rt_oif : Z;          (* int oif *)
  rt_ifname : string   (* char ifname[] *)
}.

(** Room of an address field, and sizeof(route->oif). *)
Definition sizeof_addr : nat := 16.
Definition sizeof_oif : Z := 4.

(** The invariant of the data model: the address length follows the family
    and the address fields have their full room. *)
Definition route_valid (r : sstp_route_st) : Prop :=
  ((rt_family r = AF_INET ∧ rt_blen r = 4) ∨ (rt_family r = AF_INET6 ∧ rt_blen r = 16))
  ∧ length (rt_dst r) = sizeof_addr ∧ length (rt_src r) = sizeof_addr
  ∧ length (rt_gwy r) = sizeof_addr
  ∧ bytes_ok (rt_dst r) ∧ bytes_ok (rt_src r) ∧ bytes_ok (rt_gwy r)
  ∧ -2147483648 ≤ rt_oif r < 2147483648.

(** Reading the first [n] bytes of an object, and copying bytes to the
    start of an object (memcpy source and destination); both are checked
    against the size of the object. *)
Definition read_obj (obj : list Z) (n : Z) : option (list Z) :=
  if bool_decide (0 ≤ n ≤ Z.of_nat (length obj)) then Some (take (Z.to_nat n) obj)
  else None.
Definition copy_into (obj : list Z) (src : list Z) : option (list Z) :=
  store obj 0 src.
Definition load (buf : list Z) (off : Z) (n : nat) : option (list Z) :=
  if in_bounds buf off n then Some (get_bytes buf off n) else None.

(** ** Message builder: sstp_route_addattr and sstp_route_newmsg *)

(** sstp_route_addattr(nlh, type, len, value); [value] is the object that
    the pointer refers to. *)
Definition sstp_route_addattr (nlh : list Z) (type len : Z) (value : list Z)
  : run (list Z) :=
  let rta := NLMSG_TAIL nlh in
  b1 ← checked (store nlh (rta + 2) (le_encode 2 type));
  b2 ← checked (store b1 rta (le_encode 2 (RTA_LENGTH len)));
  let b3 := put_u32 b2 0 (NLMSG_ALIGN (nlmsg_len b2) + RTA_SPACE len) in
  src ← checked (read_obj value len);
  checked (store b3 (RTA_DATA rta) src).

(** The netlink header that newmsg and get set up in the zeroed buffer. *)
Definition nlmsg_header (type flags seq pid : Z) : list Z :=
  let b := replicate (Z.to_nat sizeof_buf) 0 in
  let b := put_u32 b 0 (NLMSG_LENGTH sizeof_rtmsg) in
  let b := put_u16 b 4 type in
  let b := put_u16 b 6 flags in
  let b := put_u32 b 8 seq in
  put_u32 b 12 pid.

(** if (route->have.x) { sstp_route_addattr(nlh, type, len, value); after } *)
Definition opt_attr (present : bool) (nlh : list Z) (type len : Z) (value : list Z)
    (after : list Z → list Z) : run (list Z) :=
  if present then b ← sstp_route_addattr nlh type len value; Done (after b)
  else Done nlh.

Section Builder.

Variable getpid : Z.

Definition sstp_route_newmsg (c : sstp_route_ctx) (route : sstp_route_st)
    (cmd flags : Z) : run (Z * sstp_route_ctx) :=
  let seq := wrap_i32 (ctx_seq c + 1) in
  let b := nlmsg_header cmd (Z.lor (Z.lor NLM_F_REQUEST NLM_F_ACK) flags) seq getpid in
  (* the route message *)
  let b := put_u8 b (NLMSG_DATA + 4) RT_TABLE_MAIN in
  let b := put_u8 b (NLMSG_DATA + 0) (rt_family route) in
  let b := put_u8 b (NLMSG_DATA + 6)
             (if have_gwy (rt_have route) then RT_SCOPE_UNIVERSE else RT_SCOPE_LINK) in
  let b := if negb (cmd =? RTM_DELROUTE)
           then put_u8 (put_u8 b (NLMSG_DATA + 5) RTPROT_BOOT) (NLMSG_DATA + 7) RTN_UNICAST
           else b in
  (* destination, source, gateway, output interface *)
  b ← opt_attr (have_dst (rt_have route)) b RTA_DST (rt_blen route) (rt_dst route)
        (λ b, put_u8 b (NLMSG_DATA + 1) (Z.shiftl (rt_blen route) 3));
  b ← opt_attr (have_src (rt_have route)) b RTA_PREFSRC (rt_blen route) (rt_src route)
        (λ b, put_u8 b (NLMSG_DATA + 2) (Z.shiftl (rt_blen route) 3));
  b ← opt_attr (have_gwy (rt_have route)) b RTA_GATEWAY (rt_blen route) (rt_gwy route) id;
  b ← opt_attr (have_oif (rt_have route)) b RTA_OIF sizeof_oif
        (le_encode 4 (rt_oif route)) id;
  Done (wrap_i32 (nlmsg_len b), set_buf (set_seq c seq) b).

End Builder.

(** ** Walking the attributes of a message *)

(** for ( ; RTA_OK(rta, rtl); rta = RTA_NEXT(rta, rtl)): the offsets of the
    attributes that the loop visits.  Every step takes at least four bytes
    off [rtl], so [Z.to_nat rtl] steps are always enough
    (lemma [rta_walk_fuel]). *)
Fixpoint rta_walk (fuel : nat) (buf : list Z) (rta rtl : Z) : list Z :=
  match fuel with
  | O => []
  | S k =>
      if RTA_OK buf rta rtl
      then rta :: rta_walk k buf (rta + RTA_ALIGN (rta_len buf rta))
                                 (rtl - RTA_ALIGN (rta_len buf rta))
      else []
  end.

Definition rta_offsets (buf : list Z) (rta rtl : Z) : list Z :=
  rta_walk (Z.to_nat rtl) buf rta rtl.

(** An attribute as (type, payload bytes). *)
Definition attr_at (buf : list Z) (rta : Z) : Z * list Z :=
  (rta_type buf rta, get_bytes buf (RTA_DATA rta) (Z.to_nat (RTA_PAYLOAD buf rta))).

(** The attributes of the route message in [buf]. *)
Definition parse_attrs (buf : list Z) : list (Z * list Z) :=
  attr_at buf <$> rta_offsets buf RTM_RTA (RTM_PAYLOAD buf).

(** ** Route operations of the netlink backend *)

(** struct sockaddr as the module uses it: the family and the bytes of the
    address member of the family's structure (sin_addr or sin6_addr). *)
Record sockaddr : Type := mk_sockaddr {
  sa_family : Z;
  sa_addr : list Z
}.

Definition set_have (r : sstp_route_st) (h : route_have) : sstp_route_st :=
  mk_route h (rt_family r) (rt_blen r) (rt_dst r) (rt_src r) (rt_gwy r)
    (rt_oif r) (rt_ifname r).
Definition set_dst (r : sstp_route_st) (a : list Z) : sstp_route_st :=
  mk_route (rt_have r) (rt_family r) (rt_blen r) a (rt_src r) (rt_gwy r)
    (rt_oif r) (rt_ifname r).
Definition set_src (r : sstp_route_st) (a : list Z) : sstp_route_st :=
  mk_route (rt_have r) (rt_family r) (rt_blen r) (rt_dst r) a (rt_gwy r)
    (rt_oif r) (rt_ifname r).
Definition set_gwy (r : sstp_route_st) (a : list Z) : sstp_route_st :=
  mk_route (rt_have r) (rt_family r) (rt_blen r) (rt_dst r) (rt_src r) a
    (rt_oif r) (rt_ifname r).
Definition set_oif (r : sstp_route_st) (i : Z) : sstp_route_st :=
  mk_route (rt_have r) (rt_family r) (rt_blen r) (rt_dst r) (rt_src r) (rt_gwy r)
    i (rt_ifname r).
Definition set_ifname (r : sstp_route_st) (n : string) : sstp_route_st :=
  mk_route (rt_have r) (rt_family r) (rt_blen r) (rt_dst r) (rt_src r) (rt_gwy r)
    (rt_oif r) n.

Definition mark_src (h : route_have) : route_have :=
  mk_have true (have_dst h) (have_gwy h) (have_oif h).
Definition mark_dst (h : route_have) : route_have :=
  mk_have (have_src h) true (have_gwy h) (have_oif h).
Definition mark_gwy (h : route_have) : route_have :=
  mk_have (have_src h) (have_dst h) true (have_oif h).
Definition mark_oif (h : route_have) : route_have :=
  mk_have (have_src h) (have_dst h) (have_gwy h) true.

Section Operations.

Variable getpid : Z.
Variable send : list Z → Z.
(** if_indextoname(index, name): the name of the interface, or failure
    (the error number of a failure is not followed: no operation reads
    it). *)
Variable if_indextoname : Z → option string.

(** int sstp_route_replace(ctx, route) *)
Definition sstp_route_replace (c : sstp_route_ctx) (route : sstp_route_st) (w : io)
  : run (Z * sstp_route_ctx * io) :=
  '(len, c1) ← sstp_route_newmsg getpid c route RTM_NEWROUTE
                 (Z.lor NLM_F_CREATE NLM_F_REPLACE);
  if len <? 0 then Done (-1, c1, w)
  else
    '(len, c2, w2) ← sstp_route_talk getpid send c1 (ctx_buf c1) len w;
    if len <? 0 then Done (-1, c2, w2) else Done (0, c2, w2).

(** int sstp_route_delete(ctx, route) *)
Definition sstp_route_delete (c : sstp_route_ctx) (route : sstp_route_st) (w : io)
  : run (Z * sstp_route_ctx * io) :=
  '(len, c1) ← sstp_route_newmsg getpid c route RTM_DELROUTE 0;
  if len <? 0 then Done (-1, c1, w)
  else
    '(len, c2, w2) ← sstp_route_talk getpid send c1 (ctx_buf c1) len w;
    if len <? 0 then Done (-1, c2, w2) else Done (0, c2, w2).

(** The request of sstp_route_get: the buffer when sstp_route_talk is
    called. *)
Definition get_request (c : sstp_route_ctx) (dst : sockaddr) : run sstp_route_ctx :=
  let seq := wrap_i32 (ctx_seq c + 1) in
  let b := nlmsg_header RTM_GETROUTE NLM_F_REQUEST seq getpid in
  let b := put_u8 b (NLMSG_DATA + 0) (sa_family dst) in
  let b := put_u8 b (NLMSG_DATA + 4) RT_TABLE_MAIN in
  b ← (if sa_family dst =? AF_INET then
         b ← sstp_route_addattr b RTA_DST 4 (sa_addr dst);
         Done (put_u8 b (NLMSG_DATA + 1) 32)
       else if sa_family dst =? AF_INET6 then
         b ← sstp_route_addattr b RTA_DST 16 (sa_addr dst);
         Done (put_u8 b (NLMSG_DATA + 1) 128)
       else Done b);
  Done (set_buf (set_seq c seq) b).

(** The body of the switch on rta->rta_type. *)
Definition decode_attr (buf : list Z) (route : sstp_route_st) (rta : Z)
  : run sstp_route_st :=
  let t := rta_type buf rta in
  let payload := get_bytes buf (RTA_DATA rta) (Z.to_nat (RTA_PAYLOAD buf rta)) in
  if t =? RTA_OIF then
    idx ← checked (load buf (RTA_DATA rta) 4);
    let route := match if_indextoname (le_decode idx) with
                 | Some name => set_ifname route name
                 | None => route
                 end in
    oif ← checked (copy_into (le_encode 4 (rt_oif route)) payload);
    Done (set_have (set_oif route (wrap_i32 (le_decode oif)))
            (mark_oif (rt_have route)))
  else if t =? RTA_GATEWAY then
    a ← checked (copy_into (rt_gwy route) payload);
    Done (set_have (set_gwy route a) (mark_gwy (rt_have route)))
  else if t =? RTA_PREFSRC then
    a ← checked (copy_into (rt_src route) payload);
    Done (set_have (set_src route a) (mark_src (rt_have route)))
  else if t =? RTA_DST then
    a ← checked (copy_into (rt_dst route) payload);
    Done (set_have (set_dst route a) (mark_dst (rt_have route)))
  else Done route.

(** The for loop over the attributes. *)
Fixpoint decode_attrs (buf : list Z) (route : sstp_route_st) (rtas : list Z)
  : run sstp_route_st :=
  match rtas with
  | [] => Done route
  | rta :: rest => route' ← decode_attr buf route rta; decode_attrs buf route' rest
  end.

(** The route that the decoder starts from: zeroed, with the family and
    the address length of the response. *)
Definition route_init (family : Z) : sstp_route_st :=
  mk_route (mk_have false false false false) family
    (if family =? AF_INET6 then 16 else 4)
    (replicate sizeof_addr 0) (replicate sizeof_addr 0) (replicate sizeof_addr 0)
    0 "".

(** int sstp_route_get(ctx, dst, route) *)
Definition sstp_route_get (c : sstp_route_ctx) (dst : sockaddr)
    (route : sstp_route_st) (w : io)
  : run (Z * sstp_route_ctx * sstp_route_st * io) :=
  c1 ← get_request c dst;
  '(len, c2, w2) ← sstp_route_talk getpid send c1 (ctx_buf c1)
                     (wrap_i32 (nlmsg_len (ctx_buf c1))) w;
  let nlh := ctx_buf c2 in
  if len <? 0 then Done (-1, c2, route, w2)
  else if negb (NLMSG_OK nlh len) then Done (-1, c2, route, w2)
  else if negb (rtm_family nlh =? AF_INET) && negb (rtm_family nlh =? AF_INET6)
  then Done (-1, c2, route, w2)
  else
    route' ← decode_attrs nlh (route_init (rtm_family nlh))
               (rta_offsets nlh RTM_RTA (RTM_PAYLOAD nlh));
    Done (0, c2, route', w2).

End Operations.

(** ** Life cycle: sstp_route_init and sstp_route_done *)

(** The resources of the process: the live blocks of the allocator, the
    open descriptors, and the arguments of the calls of close(2) so far.
    A handle is an address of the heap, or NULL ([None]). *)
Record os : Type := mk_os {
  os_heap : gmap nat sstp_route_ctx;
  os_fds : gset Z;
  os_closed : list Z
}.

(** close(fd); closing a descriptor that is not open fails and changes
    nothing. *)
Definition os_close (fd : Z) (s : os) : os :=
  mk_os (os_heap s) (os_fds s ∖ {[fd]}) (os_closed s ++ [fd]).
Definition os_update (a : nat) (c : sstp_route_ctx) (s : os) : os :=
  mk_os (<[a := c]> (os_heap s)) (os_fds s) (os_closed s).
(** free(p) *)
Definition os_free (a : nat) (s : os) : os :=
  mk_os (delete a (os_heap s)) (os_fds s) (os_closed s).
(** The descriptor that a successful socket(2) hands out is open. *)
Definition os_open (fd : Z) (s : os) : os :=
  mk_os (os_heap s) ({[fd]} ∪ os_fds s) (os_closed s).

(** The block that calloc(1, sizeof(sstp_route_ctx_st)) returns. *)
Definition ctx_zero : sstp_route_ctx :=
  mk_ctx 0 0 0 (replicate (Z.to_nat sizeof_buf) 0).

Section LifeCycle.

(** Whether calloc finds memory, and what socket(2) returns given the
    open descriptors: a new descriptor, or -1. *)
Variable calloc_ok : bool.
Variable socket : gset Z → Z.

(** int sstp_route_init(sstp_route_ctx_st **ctx); [pctx] is the value of
    [*ctx] at the call, the result carries its value at the return. *)
Definition sstp_route_init (pctx : option nat) (s : os) : Z * option nat * os :=
  if negb calloc_ok then (-1, pctx, s)
  else
    let r := fresh (dom (os_heap s)) in
    let fd := socket (os_fds s) in
    let s1 := os_update r (set_sock ctx_zero fd) s in
    if fd <? 0 then
      (* done: r is not NULL *)
      let s2 := if negb (fd =? 0) then os_close fd s1 else s1 in
      (-1, pctx, os_free r s2)
    else (0, Some r, os_open fd s1).

(** void sstp_route_done(sstp_route_ctx_st *ctx); reading or releasing a
    block that is not live is undefined. *)
Definition sstp_route_done (ctx : option nat) (s : os) : run os :=
  match ctx with
  | None => Done s
  | Some a =>
      match os_heap s !! a with
      | None => Undefined
      | Some c =>
          let s1 := if 0 <? ctx_sock c
                    then os_update a (set_sock c 0) (os_close (ctx_sock c) s)
                    else s in
          Done (os_free a s1)
      end
  end.

End LifeCycle.

(** ** The shell fallback (HAVE_NETLINK not defined) *)

Module Shell.

(** Modelled from the spec: the declaration of sstp_route_st
    (sstp-route.h) is not part of the sources at hand; without netlink
    the route is the text of the "ip route" specification, [ipcmd]. *)
Record sstp_route_st : Type := mk_route { ipcmd : string }.

(** What a call of an int function hands to its caller: the operand of
    the return statement, or nothing when control reaches the closing
    brace of the function. *)
Inductive retval : Type :=
  | Value (v : Z)
  | NoValue.

(** snprintf(cmd, size, "...%s", arg): the text cut to size - 1
    characters. *)
Definition snprintf (size : nat) (text : string) : string :=
  String.substring 0 (size - 1) text.

(** fgets(s, size, stream) on a stream with the content [out]: the first
    line, at most size - 1 characters; NULL at the end of the file. *)
Fixpoint first_line (n : nat) (out : string) : string :=
  match n, out with
  | S k, String ch rest =>
      if Ascii.eqb ch "010"%char then String ch EmptyString
      else String ch (first_line k rest)
  | _, _ => EmptyString
  end.
Definition fgets (size : Z) (out : string) : option string :=
  if size <=? 0 then None
  else if size =? 1 then Some EmptyString
  else match out with
       | EmptyString => None
       | _ => Some (first_line (Z.to_nat (size - 1)) out)
       end.

Definition INET6_ADDRSTRLEN : Z := 46.

Section Fallback.

(** popen(cmd, "r"): the standard output of the child, or failure. *)
Variable popen : string → option string.
(** inet_ntop(af, src, dst, size): the text of the address, or failure. *)
Variable inet_ntop : Z → list Z → Z → option string.
(** sizeof(route->ipcmd) *)
Variable sizeof_ipcmd : Z.

(** const char *sstp_ipaddr(addr, buf, len) *)
Definition sstp_ipaddr (addr : sockaddr) (len : Z) : option string :=
  if sa_family addr =? AF_INET then inet_ntop AF_INET (sa_addr addr) len
  else if sa_family addr =? AF_INET6 then inet_ntop AF_INET6 (sa_addr addr) len
  else None.

(** The operations return their value and the commands that they ran. *)
Definition sstp_route_replace (route : sstp_route_st) : retval * list string :=
  let cmd := snprintf 255 ("ip route replace " +:+ ipcmd route) in
  match popen cmd with
  | None => (Value (-1), [])
  | Some _ => (NoValue, [cmd])
  end.

Definition sstp_route_delete (route : sstp_route_st) : retval * list string :=
  let cmd := snprintf 255 ("ip route delete " +:+ ipcmd route) in
  match popen cmd with
  | None => (Value (-1), [])
  | Some _ => (NoValue, [cmd])
  end.

Definition sstp_route_get (dst : sockaddr) (route : sstp_route_st)
  : retval * sstp_route_st * list string :=
  match sstp_ipaddr dst INET6_ADDRSTRLEN with
  | None => (Value (-1), route, [])
  | Some ip =>
      let cmd := snprintf 255 ("ip route get " +:+ ip) in
      match popen cmd with
      | None => (Value (-1), route, [])
      | Some out =>
          match fgets sizeof_ipcmd out with
          | None => (Value (-1), route, [cmd])
          | Some line => (Value 0, mk_route line, [cmd])
          end
      end
  end.

(** int sstp_route_init(ctx) and void sstp_route_done(ctx): no private
    context. *)
Definition sstp_route_init : retval := Value 0.
Definition sstp_route_done : unit := tt.

End Fallback.

End Shell.


(** ** The unit test: main (__SSTP_UNIT_TEST_ROUTE) *)

Definition EXIT_SUCCESS : Z := 0.
Definition EXIT_FAILURE : Z := 1.

(** What main prints: the fixed messages of the failures, and the three
    reports, which carry the addresses that inet_ntop(AF_INET, ...) reads
    (the first four bytes of the address field) and the interface name. *)
Inductive report : Type :=
  | CouldNotInit
  | CouldNotGet
  | CouldNotAdd
  | CouldNotDel
  | GotRoute (dst src gwy : list Z) (ifname : string)
  | AddedRoute (dst : list Z) (ifname : string)
  | DeletedRoute (dst : list Z) (ifname : string).

Section UnitTest.

Variable getpid : Z.
Variable send : list Z → Z.
Variable if_indextoname : Z → option string.
Variable calloc_ok : bool.
Variable socket : gset Z → Z.
(** getuid() *)
Variable getuid : Z.

(** done: sstp_route_done(ctx); return retval; *)
Definition main_done (retval : Z) (ctx : option nat) (s : os) (w : io)
    (out : list report) : run (Z * os * io * list report) :=
  s' ← sstp_route_done ctx s; Done (retval, s', w, out).

(** The session behind the handle that main passes to an operation: the
    handle is dereferenced, so it has to be a live block. *)
Definition session (ctx : option nat) (s : os) : run (nat * sstp_route_ctx) :=
  a ← checked ctx; c ← checked (os_heap s !! a); Done (a, c).

(** int main(argc, argv) of the netlink build.  [route0] is the content
    of the local [route], which is not initialised; the destination is
    4.4.2.2.  The operations work on the block of the session in place:
    the block holds the session that each of them leaves. *)
Definition main (route0 : sstp_route_st) (s : os) (w : io)
  : run (Z * os * io * list report) :=
  let dst := mk_sockaddr AF_INET [4; 4; 2; 2] in
  let '(r, ctx, s) := sstp_route_init calloc_ok socket None s in
  if negb (r =? 0) then main_done EXIT_FAILURE ctx s w [CouldNotInit]
  else
    '(a, c) ← session ctx s;
    '(r, c, route, w) ← sstp_route_get getpid send if_indextoname c dst route0 w;
    let s := os_update a c s in
    if negb (r =? 0) then main_done EXIT_FAILURE ctx s w [CouldNotGet]
    else
      let dst_ip := take 4 (rt_dst route) in
      let out := [GotRoute dst_ip (take 4 (rt_src route)) (take 4 (rt_gwy route))
                    (rt_ifname route)] in
      if getuid =? 0 then
        '(r, c, w) ← sstp_route_replace getpid send c route w;
        let s := os_update a c s in
        if negb (r =? 0) then main_done EXIT_FAILURE ctx s w (out ++ [CouldNotAdd])
        else
          let out := out ++ [AddedRoute dst_ip (rt_ifname route)] in
          '(r, c, w) ← sstp_route_delete getpid send c route w;
          let s := os_update a c s in
          if negb (r =? 0) then main_done EXIT_FAILURE ctx s w (out ++ [CouldNotDel])
          else main_done EXIT_SUCCESS ctx s w
                 (out ++ [DeletedRoute dst_ip (rt_ifname route)])
      else main_done EXIT_SUCCESS ctx s w out.

End UnitTest.

(** main of the build without netlink.  The value of a call is used in
    the condition of an if: using the value of a call that ended without
    a return statement is undefined. *)
Module ShellTest.

Definition value (r : Shell.retval) : run Z :=
  match r with
  | Shell.Value v => Done v
  | Shell.NoValue => Undefined
  end.

Section Main.

Variable popen : string → option string.
Variable inet_ntop : Z → list Z → Z → option string.
Variable sizeof_ipcmd : Z.
Variable getuid : Z.

(** The result carries the exit status, the commands run and what was
    printed (the reports of the routes belong to the netlink build). *)
Definition main (route0 : Shell.sstp_route_st) : run (Z * list string * list report) :=
  let dst := mk_sockaddr AF_INET [4; 4; 2; 2] in
  r ← value Shell.sstp_route_init;
  if negb (r =? 0) then Done (EXIT_FAILURE, [], [CouldNotInit])
  else
    let '(r, route, cmds) := Shell.sstp_route_get popen inet_ntop sizeof_ipcmd dst route0 in
    r ← value r;
    if negb (r =? 0) then Done (EXIT_FAILURE, cmds, [CouldNotGet])
    else if getuid =? 0 then
      let '(r, cmds1) := Shell.sstp_route_replace popen route in
      r ← value r;
      if negb (r =? 0) then Done (EXIT_FAILURE, cmds ++ cmds1, [CouldNotAdd])
      else
        let '(r, cmds2) := Shell.sstp_route_delete popen route in
        r ← value r;
        if negb (r =? 0) then Done (EXIT_FAILURE, cmds ++ cmds1 ++ cmds2, [CouldNotDel])
        else Done (EXIT_SUCCESS, cmds ++ cmds1 ++ cmds2, [])
    else Done (EXIT_SUCCESS, cmds, []).

End Main.

End ShellTest.

(** ** Vocabulary of the statements *)

(** The count that recv returns for a datagram and the context after the
    read. *)
Definition recv_len (c : sstp_route_ctx) (data : list Z) : Z := (recv_into c data).1.
Definition recv_ctx (c : sstp_route_ctx) (data : list Z) : sstp_route_ctx :=
  (recv_into c data).2.

(** A datagram that starts with a well-formed netlink message: the length
    of the header is at least the size of a header and at most the bytes
    that a read delivers. *)
Definition msg_ok (data : list Z) : Prop :=
  16 ≤ nlmsg_len data ≤ Z.min (Z.of_nat (length data)) sizeof_buf.

(** The message answers the request of the session: sequence number and
    process identifier match. *)
Definition correlated (getpid : Z) (c : sstp_route_ctx) (data : list Z) : Prop :=
  nlmsg_seq data = to_u32 (ctx_seq c) ∧ nlmsg_pid data = to_u32 getpid.

(** An error frame that carries its error code, and a message that is not
    an error frame with a code other than zero. *)
Definition error_frame (data : list Z) (code : Z) : Prop :=
  nlmsg_type data = NLMSG_ERROR ∧ 20 ≤ Z.of_nat (length data)
  ∧ nlmsgerr_error data = code.
Definition no_error (data : list Z) : Prop :=
  nlmsg_type data ≠ NLMSG_ERROR ∨ error_frame data 0.

(** What the loop passes over while it waits for the answer to the request
    with sequence number [seq]: a read that fails with EAGAIN or EINTR, and
    a well-formed message of another exchange that is not an error frame
    with a code. *)
Definition skipped (getpid seq : Z) (ev : recv_event) : Prop :=
  match ev with
  | RecvFail e => e = EAGAIN ∨ e = EINTR
  | RecvData data =>
      msg_ok data ∧ no_error data
      ∧ (nlmsg_seq data ≠ to_u32 seq ∨ nlmsg_pid data ≠ to_u32 getpid)
  end.

(** A socket that takes every datagram whole. *)
Definition send_all (send : list Z → Z) : Prop :=
  ∀ d, send d = Z.of_nat (length d).

(** Two buffers with the same bytes at the offsets [lo] to [hi - 1]. *)
Definition same_on (b1 b2 : list Z) (lo hi : Z) : Prop :=
  ∀ i, lo ≤ i < hi → b1 !! Z.to_nat i = b2 !! Z.to_nat i.

(** The attributes that a route asks for, in the words of the
    specification: destination, source, gateway and output interface, each
    one only if its presence flag is set, with the address bytes of the
    route's address length and the four bytes of the interface index. *)
Definition route_attrs (r : sstp_route_st) : list (Z * list Z) :=
  (if have_dst (rt_have r) then [(RTA_DST, take (Z.to_nat (rt_blen r)) (rt_dst r))] else [])
  ++ (if have_src (rt_have r) then [(RTA_PREFSRC, take (Z.to_nat (rt_blen r)) (rt_src r))] else [])
  ++ (if have_gwy (rt_have r) then [(RTA_GATEWAY, take (Z.to_nat (rt_blen r)) (rt_gwy r))] else [])
  ++ (if have_oif (rt_have r) then [(RTA_OIF, le_encode 4 (rt_oif r))] else []).

(** The room that attributes take in a message: the sum of their padded
    sizes. *)
Definition attrs_space (attrs : list (Z * list Z)) : Z :=
  foldr (λ a acc, RTA_SPACE (Z.of_nat (length a.2)) + acc) 0 attrs.

(** The buffer holds the attributes [attrs] one after the other from
    offset [off] on: each with its declared length (attribute header plus
    payload), its type and its payload bytes. *)
Fixpoint encodes (buf : list Z) (off : Z) (attrs : list (Z * list Z)) : Prop :=
  match attrs with
  | [] => True
  | a :: rest =>
      rta_len buf off = sizeof_rtattr + Z.of_nat (length a.2)
      ∧ rta_type buf off = a.1
      ∧ get_bytes buf (RTA_DATA off) (length a.2) = a.2
      ∧ encodes buf (off + RTA_SPACE (Z.of_nat (length a.2))) rest
  end.

(** The buffer holds a route message with exactly the attributes [attrs]:
    the declared length of the message is header plus route message plus
    the padded sizes of the attributes, which follow the route message. *)
Definition built (buf : list Z) (attrs : list (Z * list Z)) : Prop :=
  length buf = Z.to_nat sizeof_buf
  ∧ nlmsg_len buf = sizeof_nlmsghdr + sizeof_rtmsg + attrs_space attrs
  ∧ encodes buf RTM_RTA attrs.

(** What the statement after an optional attribute may touch: bytes of the
    route message only. *)
Definition body_only (after : list Z → list Z) : Prop :=
  ∀ b, length (after b) = length b
       ∧ same_on (after b) b 0 4 ∧ same_on (after b) b 19 sizeof_buf.

(** A destination of family IPv4 or IPv6 with the address of its family. *)
Definition dst_valid (dst : sockaddr) : Prop :=
  (sa_family dst = AF_INET ∧ length (sa_addr dst) = 4%nat)
  ∨ (sa_family dst = AF_INET6 ∧ length (sa_addr dst) = 16%nat).

(** ** Sample data *)

(** A netlink message: header fields and payload bytes. *)
Definition nl_msg (len type flags seq pid : Z) (payload : list Z) : list Z :=
  le_encode 4 len ++ le_encode 2 type ++ le_encode 2 flags
  ++ le_encode 4 seq ++ le_encode 4 pid ++ payload.

(** A session of process 100 whose last request had sequence number 1. *)
Definition ex_pid : Z := 100.
Definition ex_ctx : sstp_route_ctx := mk_ctx 3 1 0 (replicate (Z.to_nat sizeof_buf) 0).

(** A two-part answer to that request and its closing NLMSG_DONE message,
    all three flagged NLM_F_MULTI. *)
Definition ex_part1 : list Z :=
  nl_msg 28 RTM_NEWROUTE NLM_F_MULTI 1 ex_pid [2; 32; 0; 0; 254; 3; 0; 1; 0; 0; 0; 0].
Definition ex_part2 : list Z :=
  nl_msg 28 RTM_NEWROUTE NLM_F_MULTI 1 ex_pid [2; 24; 0; 0; 254; 3; 0; 1; 0; 0; 0; 0].
Definition ex_done : list Z :=
  nl_msg 20 NLMSG_DONE NLM_F_MULTI 1 ex_pid [0; 0; 0; 0].

(** A single answer to that request, not flagged NLM_F_MULTI. *)
Definition ex_reply : list Z :=
  nl_msg 28 RTM_NEWROUTE 0 1 ex_pid [2; 32; 0; 0; 254; 3; 0; 1; 0; 0; 0; 0].

(** An error frame with the code -17 (EEXIST) for the request 999 of
    another exchange, and one for the request of the session. *)
Definition ex_stray_error : list Z :=
  nl_msg 36 NLMSG_ERROR 0 999 ex_pid (le_encode 4 (-17) ++ replicate 16 0).
Definition ex_error : list Z :=
  nl_msg 36 NLMSG_ERROR 0 1 ex_pid (le_encode 4 (-17) ++ replicate 16 0).
(** The same for the next request of the session, number 2. *)
Definition ex_get_error : list Z :=
  nl_msg 36 NLMSG_ERROR 0 2 ex_pid (le_encode 4 (-17) ++ replicate 16 0).

(** A route to 10.0.0.0 via 10.0.0.1 from 10.0.0.5 on interface 2. *)
Definition ex_route : sstp_route_st :=
  mk_route (mk_have true true true true) AF_INET 4
    ([10; 0; 0; 0] ++ replicate 12 0) ([10; 0; 0; 5] ++ replicate 12 0)
    ([10; 0; 0; 1] ++ replicate 12 0) 2 "".

(** The destination 4.4.2.2. *)
Definition ex_dst : sockaddr := mk_sockaddr AF_INET [4; 4; 2; 2].

(** A socket that takes every datagram whole. *)
Definition ex_send (d : list Z) : Z := Z.of_nat (length d).

(** ** Decoded attributes *)

(** The effect of one attribute, given as type and payload, on a route:
    what the switch of sstp_route_get stores when the payload fits the
    field (and, for the output interface, is the int that is read as the
    interface index). *)
Definition apply_attr (if_indextoname : Z → option string)
    (r : sstp_route_st) (a : Z * list Z) : sstp_route_st :=
  if a.1 =? RTA_OIF then
    let r1 := match if_indextoname (le_decode a.2) with
              | Some name => set_ifname r name
              | None => r
              end in
    set_have (set_oif r1 (wrap_i32 (le_decode (put_bytes (le_encode 4 (rt_oif r1)) 0 a.2))))
      (mark_oif (rt_have r1))
  else if a.1 =? RTA_GATEWAY then
    set_have (set_gwy r (put_bytes (rt_gwy r) 0 a.2)) (mark_gwy (rt_have r))
  else if a.1 =? RTA_PREFSRC then
    set_have (set_src r (put_bytes (rt_src r) 0 a.2)) (mark_src (rt_have r))
  else if a.1 =? RTA_DST then
    set_have (set_dst r (put_bytes (rt_dst r) 0 a.2)) (mark_dst (rt_have r))
  else r.

(** The attribute types that the decoder knows. *)
Definition known_type (t : Z) : bool :=
  (t =? RTA_OIF) || (t =? RTA_GATEWAY) || (t =? RTA_PREFSRC) || (t =? RTA_DST).

(** Payloads that fit: four bytes for the interface index, at most the
    room of an address for the addresses. *)
Definition attr_fits (a : Z * list Z) : Prop :=
  (a.1 = RTA_OIF → length a.2 = 4%nat)
  ∧ (a.1 = RTA_GATEWAY ∨ a.1 = RTA_PREFSRC ∨ a.1 = RTA_DST
     → (length a.2 ≤ sizeof_addr)%nat).

(** [attrs] has exactly one attribute of type [t], with payload [p]. *)
Definition only_attr (t : Z) (p : list Z) (attrs : list (Z * list Z)) : Prop :=
  ∃ l1 l2, attrs = l1 ++ (t, p) :: l2 ∧ (t ∉ l1.*1) ∧ (t ∉ l2.*1).

(** A payload at the start of a zeroed address field. *)
Definition padded (p : list Z) : list Z :=
  p ++ replicate (sizeof_addr - length p) 0.

(** The response of the kernel to the request of sstp_route_get: a route
    message (header and struct rtmsg at least) that is well-formed, is not
    an error frame with a code, and carries the sequence number of the
    request, which is the counter of the session plus one. *)
Definition route_response (getpid : Z) (c : sstp_route_ctx) (resp : list Z) : Prop :=
  msg_ok resp ∧ no_error resp ∧ 28 ≤ nlmsg_len resp
  ∧ nlmsg_seq resp = to_u32 (wrap_i32 (ctx_seq c + 1))
  ∧ nlmsg_pid resp = to_u32 getpid.

(** The addresses of a route have their room. *)
Definition route_sized (r : sstp_route_st) : Prop :=
  length (rt_dst r) = sizeof_addr ∧ length (rt_src r) = sizeof_addr
  ∧ length (rt_gwy r) = sizeof_addr.

(** A response to the request with sequence number 2: a route to 4.4.2.2
    via 10.0.0.1 from 10.0.0.5 on interface 2, with an attribute of a type
    that the decoder does not know (15, the routing table) in between. *)
Definition ex_response : list Z :=
  nl_msg 68 RTM_NEWROUTE 0 2 ex_pid
    ([2; 32; 0; 0; 254; 3; 0; 1; 0; 0; 0; 0]
     ++ [8; 0; 1; 0; 4; 4; 2; 2] ++ [8; 0; 5; 0; 10; 0; 0; 1]
     ++ [8; 0; 15; 0; 254; 0; 0; 0]
     ++ [8; 0; 7; 0; 10; 0; 0; 5] ++ [8; 0; 4; 0; 2; 0; 0; 0]).

(** A socket that fails every send, and a host without interface names. *)
Definition ex_send_fails (d : list Z) : Z := -1.
Definition ex_no_ifname (index : Z) : option string := None.

(** ** Further sample data *)

(** The session of [ex_ctx] with the request number 1 still in its
    buffer. *)
Definition ex_ctx_pending : sstp_route_ctx :=
  mk_ctx 3 1 0
    (nl_msg 28 RTM_GETROUTE NLM_F_REQUEST 1 ex_pid [2; 32; 0; 0; 254; 0; 0; 0; 0; 0; 0; 0]
     ++ replicate 996 0).

(** A bare header of type NLMSG_ERROR for the request 999 of another
    exchange: sixteen bytes, no error field. *)
Definition ex_stray_header : list Z := nl_msg 16 NLMSG_ERROR 0 999 ex_pid [].

(** The first ten bytes of a datagram. *)
Definition ex_truncated : list Z := take 10 ex_reply.

(** Acknowledgements (error frames with the code 0) of the requests 2
    and 3. *)
Definition ex_ack : list Z :=
  nl_msg 36 NLMSG_ERROR 0 2 ex_pid (le_encode 4 0 ++ replicate 16 0).
Definition ex_ack3 : list Z :=
  nl_msg 36 NLMSG_ERROR 0 3 ex_pid (le_encode 4 0 ++ replicate 16 0).

(** The kernel refusing the request number 1 with the code -17. *)
Definition ex_get_error_1 : list Z := ex_error.

(** A socket that takes all but the last byte of a datagram, and a
    descriptor that is no socket: send fails with EBADF (9). *)
Definition ex_send_short (d : list Z) : Z := Z.of_nat (length d) - 1.
Definition ex_send_ebadf (d : list Z) : Z := -9.

(** A bare header of type NLMSG_ERROR that answers the request 2. *)
Definition ex_header_error : list Z := nl_msg 16 NLMSG_ERROR 0 2 ex_pid [].

(** The attributes of [ex_response], and the response with the first two
    of them exchanged. *)
Definition ex_attrs : list (Z * list Z) :=
  [(RTA_DST, [4; 4; 2; 2]); (RTA_GATEWAY, [10; 0; 0; 1]); (15, [254; 0; 0; 0]);
   (RTA_PREFSRC, [10; 0; 0; 5]); (RTA_OIF, [2; 0; 0; 0])].
Definition ex_response_swapped : list Z :=
  nl_msg 68 RTM_NEWROUTE 0 2 ex_pid
    ([2; 32; 0; 0; 254; 3; 0; 1; 0; 0; 0; 0]
     ++ [8; 0; 5; 0; 10; 0; 0; 1] ++ [8; 0; 1; 0; 4; 4; 2; 2]
     ++ [8; 0; 15; 0; 254; 0; 0; 0]
     ++ [8; 0; 7; 0; 10; 0; 0; 5] ++ [8; 0; 4; 0; 2; 0; 0; 0]).

(** A response followed by bytes that are no attribute (a declared
    length of 1). *)
Definition ex_response_trailing : list Z := ex_response ++ [1; 0; 0; 0; 9; 9; 9; 9].


(** A process without blocks and descriptors, and one with a session on
    descriptor 3 at the address 0. *)
Definition ex_os : os := mk_os ∅ ∅ [].
Definition ex_os_session : os := mk_os {[0%nat := ex_ctx]} {[3]} [].

(** The output of "ip route get": two lines. *)
Definition ex_ip_output : string :=
  "4.4.2.2 via 10.0.0.1 dev eth0" +:+ String "010"%char "    cache".
Definition ex_popen (cmd : string) : option string := Some ex_ip_output.
Definition ex_inet_ntop (af : Z) (addr : list Z) (size : Z) : option string :=
  Some "4.4.2.2"%string.

(** A response to the request number 2 whose gateway attribute carries
    twenty bytes. *)
Definition ex_response_oversized : list Z :=
  nl_msg 52 RTM_NEWROUTE 0 2 ex_pid
    ([2; 32; 0; 0; 254; 3; 0; 1; 0; 0; 0; 0] ++ [24; 0; 5; 0] ++ replicate 20 7).

(** A bare netlink header that answers the request number 2. *)
Definition ex_header_only : list Z := nl_msg 16 NLMSG_DONE 0 2 ex_pid [].
(** * Properties *)

(** ** Alignment and machine integers *)

(** Linear arithmetic with division and remainder by constants. *)
Ltac dlia := Z.div_mod_to_equations; lia.

Lemma align_div n : Z.land (n + 3) (Z.lnot 3) = 4 * ((n + 3) / 4).
Proof.
  rewrite <- Z.ldiff_land. change 3 with (Z.ones 2) at 2.
  rewrite Z.ldiff_ones_r by lia.
  rewrite Z.shiftr_div_pow2, Z.shiftl_mul_pow2 by lia.
  change (2 ^ 2) with 4. lia.
Qed.

Lemma NLMSG_ALIGN_div n : NLMSG_ALIGN n = 4 * ((n + 3) / 4).
Proof. apply align_div. Qed.

Lemma RTA_ALIGN_div n : RTA_ALIGN n = 4 * ((n + 3) / 4).
Proof. apply align_div. Qed.

Lemma NLMSG_ALIGN_aligned n : n mod 4 = 0 → NLMSG_ALIGN n = n.
Proof. intros. rewrite NLMSG_ALIGN_div. dlia. Qed.

Lemma RTA_ALIGN_bounds n : n ≤ RTA_ALIGN n < n + 4 ∧ RTA_ALIGN n mod 4 = 0.
Proof. rewrite RTA_ALIGN_div. dlia. Qed.

Lemma RTA_SPACE_bounds n :
  4 + n ≤ RTA_SPACE n < 8 + n ∧ RTA_SPACE n mod 4 = 0.
Proof.
  unfold RTA_SPACE, RTA_LENGTH. change (RTA_ALIGN sizeof_rtattr) with 4.
  pose proof (RTA_ALIGN_bounds (4 + n)). lia.
Qed.

Lemma to_u32_small x : 0 ≤ x < 4294967296 → to_u32 x = x.
Proof. intros. unfold to_u32. by rewrite Z.mod_small. Qed.

Lemma wrap_i32_small x : -2147483648 ≤ x < 2147483648 → wrap_i32 x = x.
Proof. intros. unfold wrap_i32. rewrite Z.mod_small; lia. Qed.

(** ** Little-endian encoding *)

Lemma length_le_encode n x : length (le_encode n x) = n.
Proof. revert x. induction n as [|n IH]; intros x; simpl; [done|]. by rewrite IH. Qed.

(** ** Buffers: reading what was written *)

Lemma length_put_bytes buf off bs : length (put_bytes buf off bs) = length buf.
Proof. apply length_inserts. Qed.

Lemma get_u8_put_in buf off bs i :
  0 ≤ off → off ≤ i < off + Z.of_nat (length bs) → i < Z.of_nat (length buf) →
  get_u8 (put_bytes buf off bs) i = get_u8 bs (i - off).
Proof.
  intros. unfold get_u8, put_bytes.
  rewrite list_lookup_inserts by lia. do 2 f_equal. lia.
Qed.

Lemma get_u8_put_out buf off bs i :
  0 ≤ off → 0 ≤ i → i < off ∨ off + Z.of_nat (length bs) ≤ i →
  get_u8 (put_bytes buf off bs) i = get_u8 buf i.
Proof.
  intros ? ? [?|?]; unfold get_u8, put_bytes.
  - by rewrite list_lookup_inserts_lt by lia.
  - by rewrite list_lookup_inserts_ge by lia.
Qed.

Lemma get_u8_take n bs i :
  0 ≤ i < Z.of_nat n → get_u8 (take n bs) i = get_u8 bs i.
Proof. intros. unfold get_u8. by rewrite lookup_take_lt by lia. Qed.

Lemma get_u8_ext b1 b2 i : b1 !! Z.to_nat i = b2 !! Z.to_nat i → get_u8 b1 i = get_u8 b2 i.
Proof. unfold get_u8. by intros ->. Qed.

Lemma get_u8_zeros n i : get_u8 (replicate n 0) i = 0.
Proof.
  unfold get_u8. destruct (replicate n 0 !! Z.to_nat i) as [x|] eqn:E; [|done].
  by apply lookup_replicate in E as [-> _].
Qed.

Lemma get_bytes_put_in buf off bs :
  0 ≤ off → off + Z.of_nat (length bs) ≤ Z.of_nat (length buf) →
  get_bytes (put_bytes buf off bs) off (length bs) = bs.
Proof.
  intros. unfold get_bytes, put_bytes. apply list_eq. intros i.
  destruct (decide (i < length bs)%nat).
  - rewrite lookup_take_lt, lookup_drop by lia.
    rewrite list_lookup_inserts by lia. f_equal. lia.
  - rewrite lookup_take_ge by lia. symmetry. apply lookup_ge_None. lia.
Qed.

Lemma get_bytes_ext b1 b2 off n :
  0 ≤ off →
  (∀ i, off ≤ i < off + Z.of_nat n → b1 !! Z.to_nat i = b2 !! Z.to_nat i) →
  get_bytes b1 off n = get_bytes b2 off n.
Proof.
  intros Hoff H. unfold get_bytes. apply list_eq. intros i.
  destruct (decide (i < n)%nat).
  - rewrite !lookup_take_lt, !lookup_drop by lia.
    replace (Z.to_nat off + i)%nat with (Z.to_nat (off + Z.of_nat i)) by lia.
    apply H. lia.
  - by rewrite !lookup_take_ge by lia.
Qed.

Lemma lookup_put_out buf off bs i :
  0 ≤ off → 0 ≤ i → i < off ∨ off + Z.of_nat (length bs) ≤ i →
  put_bytes buf off bs !! Z.to_nat i = buf !! Z.to_nat i.
Proof.
  intros ? ? [?|?]; unfold put_bytes.
  - by rewrite list_lookup_inserts_lt by lia.
  - by rewrite list_lookup_inserts_ge by lia.
Qed.

Lemma store_Some buf off bs :
  0 ≤ off → off + Z.of_nat (length bs) ≤ Z.of_nat (length buf) →
  store buf off bs = Some (put_bytes buf off bs).
Proof.
  intros. unfold store, in_bounds. by rewrite bool_decide_eq_true_2.
Qed.

Lemma store_inv buf off bs buf' :
  store buf off bs = Some buf' →
  buf' = put_bytes buf off bs ∧ 0 ≤ off
  ∧ off + Z.of_nat (length bs) ≤ Z.of_nat (length buf).
Proof.
  unfold store, in_bounds. case_bool_decide; [|done]. intros [= <-]. tauto.
Qed.

(** Fields that agree byte by byte. *)
Lemma get_u16_bytewise b1 b2 i :
  (∀ j, i ≤ j < i + 2 → get_u8 b1 j = get_u8 b2 j) → get_u16 b1 i = get_u16 b2 i.
Proof. intros H. unfold get_u16. by rewrite !H by lia. Qed.

Lemma get_u32_bytewise b1 b2 i :
  (∀ j, i ≤ j < i + 4 → get_u8 b1 j = get_u8 b2 j) → get_u32 b1 i = get_u32 b2 i.
Proof.
  intros H. unfold get_u32. f_equal; [|f_equal]; apply get_u16_bytewise; intros; apply H; lia.
Qed.

(** ** The receive loop *)

Section TransportFacts.

Variable getpid : Z.

Lemma NLMSG_OK_true buf len :
  NLMSG_OK buf len = true ↔ 16 ≤ len ∧ 16 ≤ nlmsg_len buf ∧ nlmsg_len buf ≤ len.
Proof.
  unfold NLMSG_OK, sizeof_nlmsghdr. rewrite !andb_true_iff, !Z.leb_le. tauto.
Qed.

Local Ltac side := first [assumption | unfold msg_ok, sizeof_buf in *; lia].

Lemma recv_into_eq c data : recv_into c data = (recv_len c data, recv_ctx c data).
Proof. reflexivity. Qed.

Lemma recv_len_eq c data :
  ctx_len c = 0 → recv_len c data = Z.min (Z.of_nat (length data)) sizeof_buf.
Proof.
  intros Hl. unfold recv_len, recv_into. cbn [fst]. rewrite Hl, length_take.
  unfold sizeof_buf. lia.
Qed.

Lemma recv_ctx_wf c data : ctx_wf c → ctx_wf (recv_ctx c data).
Proof. unfold ctx_wf, recv_ctx, recv_into. cbn. by rewrite length_put_bytes. Qed.

(** With nothing accumulated the bytes of the datagram are at the start
    of the buffer, where the loop reads the header. *)
Lemma received_u8 c data i :
  ctx_wf c → ctx_len c = 0 →
  0 ≤ i < Z.min (Z.of_nat (length data)) sizeof_buf →
  get_u8 (ctx_buf (recv_ctx c data)) i = get_u8 data i.
Proof.
  unfold ctx_wf, sizeof_buf. intros Hwf Hl Hi. unfold recv_ctx, recv_into. cbn.
  rewrite Hl. change (sizeof_buf - 0) with 1024.
  rewrite get_u8_put_in; rewrite ?length_take; try lia.
  replace (i - 0) with i by lia. apply get_u8_take. lia.
Qed.

Lemma received_u16 c data i :
  ctx_wf c → ctx_len c = 0 →
  0 ≤ i → i + 2 ≤ Z.min (Z.of_nat (length data)) sizeof_buf →
  get_u16 (ctx_buf (recv_ctx c data)) i = get_u16 data i.
Proof. intros. unfold get_u16. rewrite !received_u8 by side. done. Qed.

Lemma received_u32 c data i :
  ctx_wf c → ctx_len c = 0 →
  0 ≤ i → i + 4 ≤ Z.min (Z.of_nat (length data)) sizeof_buf →
  get_u32 (ctx_buf (recv_ctx c data)) i = get_u32 data i.
Proof. intros. unfold get_u32. rewrite !received_u16 by side. done. Qed.

Lemma received_header c data :
  ctx_wf c → ctx_len c = 0 → msg_ok data →
  let buf := ctx_buf (recv_ctx c data) in
  nlmsg_len buf = nlmsg_len data ∧ nlmsg_type buf = nlmsg_type data
  ∧ nlmsg_flags buf = nlmsg_flags data ∧ nlmsg_seq buf = nlmsg_seq data
  ∧ nlmsg_pid buf = nlmsg_pid data.
Proof.
  intros Hwf Hl Hok. unfold msg_ok, sizeof_buf in Hok. cbv zeta.
  unfold nlmsg_len, nlmsg_type, nlmsg_flags, nlmsg_seq, nlmsg_pid.
  rewrite !received_u32, !received_u16 by side. done.
Qed.

Lemma received_error c data :
  ctx_wf c → ctx_len c = 0 → 20 ≤ Z.of_nat (length data) →
  nlmsgerr_error (ctx_buf (recv_ctx c data)) = nlmsgerr_error data.
Proof.
  intros. unfold nlmsgerr_error, get_i32. change NLMSG_DATA with 16.
  rewrite received_u32 by side. done.
Qed.

Lemma received_ok c data :
  ctx_wf c → ctx_len c = 0 → msg_ok data →
  NLMSG_OK (ctx_buf (recv_ctx c data)) (recv_len c data) = true.
Proof.
  intros Hwf Hl Hok. apply NLMSG_OK_true.
  destruct (received_header c data Hwf Hl Hok) as (-> & _).
  rewrite recv_len_eq by done. unfold msg_ok in Hok. lia.
Qed.

(** The error test of the loop does not fire on a message without an
    error. *)
Lemma received_no_error c data :
  ctx_wf c → ctx_len c = 0 → msg_ok data → no_error data →
  (nlmsg_type (ctx_buf (recv_ctx c data)) =? NLMSG_ERROR)
  && negb (nlmsgerr_error (ctx_buf (recv_ctx c data)) =? 0) = false.
Proof.
  intros Hwf Hl Hok Hne.
  destruct (received_header c data Hwf Hl Hok) as (_ & -> & _).
  destruct Hne as [Hne | (Ht & Hlen & Hcode)].
  - by apply Z.eqb_neq in Hne as ->.
  - rewrite received_error, Hcode by done. by rewrite andb_false_r.
Qed.

(** One pass over an uncorrelated message. *)
Lemma recv_body_uncorrelated c errno data :
  ctx_wf c → ctx_len c = 0 → msg_ok data → no_error data →
  ¬ correlated getpid c data →
  recv_body getpid c errno (RecvData data) = (Next, recv_ctx c data, errno).
Proof.
  intros Hwf Hl Hok Hne Hnc. unfold recv_body. rewrite recv_into_eq.
  pose proof (received_ok c data Hwf Hl Hok) as Hnl.
  apply NLMSG_OK_true in Hnl as Hlen.
  destruct (Z.eqb_spec (recv_len c data) 0) as [?|_]; [lia|].
  rewrite Hnl, received_no_error by done. cbn [negb].
  destruct (received_header c data Hwf Hl Hok) as (_ & _ & _ & -> & ->).
  change (ctx_seq (recv_ctx c data)) with (ctx_seq c).
  destruct (Z.eqb_spec (nlmsg_seq data) (to_u32 (ctx_seq c))); [|done].
  destruct (Z.eqb_spec (nlmsg_pid data) (to_u32 getpid)); [|done].
  by destruct Hnc.
Qed.

(** One pass over a correlated message: accepted, with [ctx->len] the
    count of the read; the loop condition is false afterwards. *)
Lemma recv_body_correlated c errno data :
  ctx_wf c → ctx_len c = 0 → msg_ok data → no_error data →
  correlated getpid c data →
  ∃ fl, recv_body getpid c errno (RecvData data)
        = (fl, set_len (recv_ctx c data) (recv_len c data), errno)
        ∧ (fl = Break ∨ fl = Next)
        ∧ recv_again (set_len (recv_ctx c data) (recv_len c data)) = false.
Proof.
  intros Hwf Hl Hok Hne [Hs Hp]. unfold recv_body. rewrite recv_into_eq.
  pose proof (received_ok c data Hwf Hl Hok) as Hnl.
  apply NLMSG_OK_true in Hnl as Hlen.
  destruct (Z.eqb_spec (recv_len c data) 0) as [?|_]; [lia|].
  rewrite Hnl, received_no_error by done. cbn [negb].
  destruct (received_header c data Hwf Hl Hok) as (_ & _ & _ & Hs' & Hp').
  rewrite Hs', Hp'. change (ctx_seq (recv_ctx c data)) with (ctx_seq c).
  rewrite <- Hs, <- Hp, !Z.eqb_refl. cbn [negb].
  assert (recv_again (set_len (recv_ctx c data) (recv_len c data)) = false) as Hag.
  { unfold recv_again. cbn [ctx_len ctx_buf set_len]. apply Z.ltb_ge.
    rewrite recv_len_eq in * by done. unfold sizeof_buf in *.
    rewrite to_u32_small by lia. lia. }
  destruct (_ =? NLMSG_DONE); [eauto|]. destruct (_ =? 0); eauto.
Qed.

Lemma recv_loop_uncorrelated c errno sent data rest :
  ctx_wf c → ctx_len c = 0 → msg_ok data → no_error data →
  ¬ correlated getpid c data →
  recv_loop getpid (RecvData data :: rest) c errno sent
  = recv_loop getpid rest (recv_ctx c data) errno sent.
Proof.
  intros Hwf Hl Hok Hne Hnc. cbn [recv_loop].
  rewrite recv_body_uncorrelated by done.
  assert (recv_again (recv_ctx c data) = true) as ->; [|done].
  unfold recv_again. change (ctx_len (recv_ctx c data)) with (ctx_len c).
  rewrite Hl. apply Z.ltb_lt.
  destruct (received_header c data Hwf Hl Hok) as (-> & _).
  unfold msg_ok in Hok. change (to_u32 0) with 0. lia.
Qed.

(** The loop passes over reads that are to be retried and over the
    messages of other exchanges; the state stays one from which it passes
    over more of them. *)
Lemma recv_loop_skips pre inbox c errno sent :
  ctx_wf c → ctx_len c = 0 → 0 < nlmsg_len (ctx_buf c) →
  Forall (skipped getpid (ctx_seq c)) pre →
  ∃ c' errno',
    recv_loop getpid (pre ++ inbox) c errno sent = recv_loop getpid inbox c' errno' sent
    ∧ ctx_wf c' ∧ ctx_len c' = 0 ∧ ctx_seq c' = ctx_seq c ∧ 0 < nlmsg_len (ctx_buf c')
    ∧ (pre = [] → errno' = errno).
Proof.
  intros Hwf Hl Hn Hall. revert c errno Hwf Hl Hn Hall.
  induction pre as [|ev pre IH]; intros c errno Hwf Hl Hn Hall.
  - by exists c, errno.
  - apply Forall_cons in Hall as [Hev Hall]. destruct ev as [e|data]; cbn in Hev.
    + destruct (IH c e Hwf Hl Hn Hall) as (c' & errno' & Heq & ? & ? & ? & ? & _).
      exists c', errno'. split; [|done].
      rewrite <- Heq. cbn [app recv_loop recv_body].
      assert ((e =? EAGAIN) || (e =? EINTR) = true) as ->
        by (destruct Hev as [-> | ->]; done).
      unfold recv_again. rewrite Hl. change (to_u32 0) with 0.
      by destruct (Z.ltb_spec 0 (nlmsg_len (ctx_buf c))); [|lia].
    + destruct Hev as (Hok & Hne & Hmis).
      destruct (received_header c data Hwf Hl Hok) as (Hlen & _).
      destruct (IH (recv_ctx c data) errno) as (c' & errno' & Heq & ? & ? & ? & ? & _);
        [by apply recv_ctx_wf|done|rewrite Hlen; unfold msg_ok in Hok; lia|done|].
      exists c', errno'. split; [|done].
      rewrite <- Heq. cbn [app]. apply recv_loop_uncorrelated; try done.
      intros [? ?]; tauto.
Qed.

(** The loop returns at the first correlated message, whatever its type
    and flags. *)
Lemma recv_loop_correlated c errno sent data rest :
  ctx_wf c → ctx_len c = 0 → msg_ok data → no_error data →
  correlated getpid c data →
  recv_loop getpid (RecvData data :: rest) c errno sent
  = Done (recv_len c data, set_len (recv_ctx c data) (recv_len c data),
          mk_io errno rest sent).
Proof.
  intros Hwf Hl Hok Hne Hc. cbn [recv_loop].
  destruct (recv_body_correlated c errno data Hwf Hl Hok Hne Hc)
    as (fl & -> & [-> | ->] & Hag); [done|]. by rewrite Hag.
Qed.

(** An error frame with a code ends the loop with -1 and the code
    (negated) in errno. *)
Lemma recv_loop_error c errno sent data rest code :
  ctx_wf c → ctx_len c = 0 → msg_ok data → error_frame data code → code ≠ 0 →
  recv_loop getpid (RecvData data :: rest) c errno sent
  = Done (-1, recv_ctx c data, mk_io (wrap_i32 (- code)) rest sent).
Proof.
  intros Hwf Hl Hok (Ht & Hlen & Hcode) Hnz. cbn [recv_loop]. unfold recv_body.
  rewrite recv_into_eq.
  pose proof (received_ok c data Hwf Hl Hok) as Hnl.
  apply NLMSG_OK_true in Hnl as Hlen'.
  destruct (Z.eqb_spec (recv_len c data) 0) as [?|_]; [lia|].
  rewrite Hnl. cbn [negb].
  destruct (received_header c data Hwf Hl Hok) as (_ & -> & _).
  rewrite received_error, Ht, Hcode, Z.eqb_refl by done.
  by apply Z.eqb_neq in Hnz as ->.
Qed.

(** The bytes of the buffer behind a datagram stay as they were. *)
Lemma received_rest c data i :
  ctx_len c = 0 → Z.of_nat (length data) ≤ i →
  get_u8 (ctx_buf (recv_ctx c data)) i = get_u8 (ctx_buf c) i.
Proof.
  intros Hl Hi. unfold recv_ctx, recv_into. cbn [snd ctx_buf set_buf]. rewrite Hl.
  apply get_u8_put_out; [lia|lia|]. right. rewrite length_take. lia.
Qed.

(** One pass over a well-formed message, by the tests of the loop: on
    the header of the message, and on the error field as the loop reads
    it, at its place in the buffer. *)
Lemma recv_body_msg c errno data :
  ctx_wf c → ctx_len c = 0 → msg_ok data →
  recv_body getpid c errno (RecvData data)
  = let c1 := recv_ctx c data in
    let code := nlmsgerr_error (ctx_buf c1) in
    if (nlmsg_type data =? NLMSG_ERROR) && negb (code =? 0)
    then (Return (-1), c1, wrap_i32 (- code))
    else if negb (nlmsg_seq data =? to_u32 (ctx_seq c)) then (Next, c1, errno)
    else if negb (nlmsg_pid data =? to_u32 getpid) then (Next, c1, errno)
    else
      let c2 := set_len c1 (recv_len c data) in
      if nlmsg_type data =? NLMSG_DONE then (Break, c2, errno)
      else if Z.land (nlmsg_flags data) NLM_F_MULTI =? 0 then (Break, c2, errno)
      else (Next, c2, errno).
Proof.
  intros Hwf Hl Hok. unfold recv_body. rewrite recv_into_eq.
  pose proof (received_ok c data Hwf Hl Hok) as Hnl.
  apply NLMSG_OK_true in Hnl as Hlen.
  destruct (Z.eqb_spec (recv_len c data) 0) as [?|_]; [lia|].
  rewrite Hnl. cbn [negb].
  destruct (received_header c data Hwf Hl Hok) as (_ & -> & -> & -> & ->).
  done.
Qed.

(** The loop condition after a message that was not accepted. *)
Lemma recv_again_received c data :
  ctx_wf c → ctx_len c = 0 → msg_ok data → recv_again (recv_ctx c data) = true.
Proof.
  intros Hwf Hl Hok. unfold recv_again.
  change (ctx_len (recv_ctx c data)) with (ctx_len c). rewrite Hl. apply Z.ltb_lt.
  destruct (received_header c data Hwf Hl Hok) as (-> & _).
  unfold msg_ok in Hok. change (to_u32 0) with 0. lia.
Qed.

(** A message of type NLMSG_ERROR whose error field, as read in the
    buffer, is not zero ends the loop. *)
Lemma recv_loop_error_read c errno sent data rest :
  ctx_wf c → ctx_len c = 0 → msg_ok data →
  nlmsg_type data = NLMSG_ERROR →
  nlmsgerr_error (ctx_buf (recv_ctx c data)) ≠ 0 →
  recv_loop getpid (RecvData data :: rest) c errno sent
  = Done (-1, recv_ctx c data,
          mk_io (wrap_i32 (- nlmsgerr_error (ctx_buf (recv_ctx c data)))) rest sent).
Proof.
  intros Hwf Hl Hok Ht Hnz. cbn [recv_loop]. rewrite recv_body_msg by done. cbv zeta.
  rewrite Ht, Z.eqb_refl. by apply Z.eqb_neq in Hnz as ->.
Qed.

(** Any other message of another exchange is passed over. *)
Lemma recv_loop_passes c errno sent data rest :
  ctx_wf c → ctx_len c = 0 → msg_ok data →
  nlmsg_type data ≠ NLMSG_ERROR ∨ nlmsgerr_error (ctx_buf (recv_ctx c data)) = 0 →
  ¬ correlated getpid c data →
  recv_loop getpid (RecvData data :: rest) c errno sent
  = recv_loop getpid rest (recv_ctx c data) errno sent.
Proof.
  intros Hwf Hl Hok Hne Hnc. cbn [recv_loop]. rewrite recv_body_msg by done. cbv zeta.
  assert ((nlmsg_type data =? NLMSG_ERROR)
          && negb (nlmsgerr_error (ctx_buf (recv_ctx c data)) =? 0) = false) as ->.
  { destruct Hne as [Hne|Hz]; [by apply Z.eqb_neq in Hne as ->|].
    rewrite Hz. by rewrite andb_false_r. }
  destruct (Z.eqb_spec (nlmsg_seq data) (to_u32 (ctx_seq c))) as [Hs|_]; cbn [negb];
    [|by rewrite recv_again_received].
  destruct (Z.eqb_spec (nlmsg_pid data) (to_u32 getpid)) as [Hp|_]; cbn [negb];
    [|by rewrite recv_again_received].
  by destruct Hnc.
Qed.

(** And one of the exchange of the session is accepted. *)
Lemma recv_loop_accepts c errno sent data rest :
  ctx_wf c → ctx_len c = 0 → msg_ok data →
  nlmsg_type data ≠ NLMSG_ERROR ∨ nlmsgerr_error (ctx_buf (recv_ctx c data)) = 0 →
  correlated getpid c data →
  recv_loop getpid (RecvData data :: rest) c errno sent
  = Done (recv_len c data, set_len (recv_ctx c data) (recv_len c data),
          mk_io errno rest sent).
Proof.
  intros Hwf Hl Hok Hne [Hs Hp]. cbn [recv_loop]. rewrite recv_body_msg by done. cbv zeta.
  assert ((nlmsg_type data =? NLMSG_ERROR)
          && negb (nlmsgerr_error (ctx_buf (recv_ctx c data)) =? 0) = false) as ->.
  { destruct Hne as [Hne|Hz]; [by apply Z.eqb_neq in Hne as ->|].
    rewrite Hz. by rewrite andb_false_r. }
  rewrite Hs, Hp, !Z.eqb_refl. cbn [negb].
  assert (recv_again (set_len (recv_ctx c data) (recv_len c data)) = false) as Hag.
  { unfold recv_again. cbn [ctx_len ctx_buf set_len]. apply Z.ltb_ge.
    destruct (received_header c data Hwf Hl Hok) as (-> & _).
    rewrite recv_len_eq by done. unfold msg_ok, sizeof_buf in *.
    rewrite to_u32_small by lia. lia. }
  destruct (nlmsg_type data =? NLMSG_DONE); [done|].
  destruct (Z.land (nlmsg_flags data) NLM_F_MULTI =? 0); [done|]. by rewrite Hag.
Qed.

End TransportFacts.

(** ** Buffers that agree on a range *)

Lemma same_on_refl b lo hi : same_on b b lo hi.
Proof. by intros i _. Qed.

Lemma same_on_trans b1 b2 b3 lo hi :
  same_on b1 b2 lo hi → same_on b2 b3 lo hi → same_on b1 b3 lo hi.
Proof. intros H1 H2 i Hi. by rewrite H1, H2. Qed.

Lemma same_on_sub b1 b2 lo hi lo' hi' :
  same_on b1 b2 lo hi → lo ≤ lo' → hi' ≤ hi → same_on b1 b2 lo' hi'.
Proof. intros H ? ? i Hi. apply H. lia. Qed.

Lemma same_on_put buf off bs lo hi :
  0 ≤ off → 0 ≤ lo → hi ≤ off ∨ off + Z.of_nat (length bs) ≤ lo →
  same_on (put_bytes buf off bs) buf lo hi.
Proof. intros ? ? ? i Hi. apply lookup_put_out; lia. Qed.

Lemma same_on_u8 b1 b2 lo hi i :
  same_on b1 b2 lo hi → lo ≤ i < hi → get_u8 b1 i = get_u8 b2 i.
Proof. intros H ?. apply get_u8_ext, H. lia. Qed.

Lemma same_on_u16 b1 b2 lo hi i :
  same_on b1 b2 lo hi → lo ≤ i → i + 2 ≤ hi → get_u16 b1 i = get_u16 b2 i.
Proof. intros H ? ?. unfold get_u16. by rewrite !(same_on_u8 b1 b2 lo hi) by (done || lia). Qed.

Lemma same_on_u32 b1 b2 lo hi i :
  same_on b1 b2 lo hi → lo ≤ i → i + 4 ≤ hi → get_u32 b1 i = get_u32 b2 i.
Proof. intros H ? ?. unfold get_u32. by rewrite !(same_on_u16 b1 b2 lo hi) by (done || lia). Qed.

Lemma same_on_bytes b1 b2 lo hi off n :
  same_on b1 b2 lo hi → 0 ≤ off → lo ≤ off → off + Z.of_nat n ≤ hi →
  get_bytes b1 off n = get_bytes b2 off n.
Proof. intros H ? ? ?. apply get_bytes_ext; [done|]. intros i Hi. apply H. lia. Qed.

(** ** Fields that were just written *)

Lemma get_u16_bytes b0 b1 bs : get_u16 (b0 :: b1 :: bs) 0 = b0 + 256 * b1.
Proof. reflexivity. Qed.

Lemma get_u32_bytes b0 b1 b2 b3 bs :
  get_u32 (b0 :: b1 :: b2 :: b3 :: bs) 0 = (b0 + 256 * b1) + 65536 * (b2 + 256 * b3).
Proof. reflexivity. Qed.

Lemma get_u16_le_encode x : get_u16 (le_encode 2 x) 0 = to_u16 x.
Proof. cbn [le_encode]. rewrite get_u16_bytes. unfold to_u8, to_u16. dlia. Qed.

Lemma get_u32_le_encode x : get_u32 (le_encode 4 x) 0 = to_u32 x.
Proof. cbn [le_encode]. rewrite get_u32_bytes. unfold to_u8, to_u32. dlia. Qed.

Lemma get_u8_put_u8 buf off v :
  0 ≤ off < Z.of_nat (length buf) → get_u8 (put_u8 buf off v) off = to_u8 v.
Proof.
  intros. unfold put_u8. rewrite get_u8_put_in by (cbn; lia).
  by rewrite Z.sub_diag.
Qed.

Lemma get_u16_put_u16 buf off v :
  0 ≤ off → off + 2 ≤ Z.of_nat (length buf) →
  get_u16 (put_u16 buf off v) off = to_u16 v.
Proof.
  intros. rewrite <- get_u16_le_encode. unfold get_u16, put_u16.
  rewrite !get_u8_put_in by (cbn; lia). do 3 f_equal; lia.
Qed.

Lemma get_u32_put_u32 buf off v :
  0 ≤ off → off + 4 ≤ Z.of_nat (length buf) →
  get_u32 (put_u32 buf off v) off = to_u32 v.
Proof.
  intros. rewrite <- get_u32_le_encode. unfold get_u32, get_u16, put_u32.
  rewrite !get_u8_put_in by (cbn; lia). repeat f_equal; lia.
Qed.

Lemma length_put_u8 buf off v : length (put_u8 buf off v) = length buf.
Proof. apply length_put_bytes. Qed.
Lemma length_put_u16 buf off v : length (put_u16 buf off v) = length buf.
Proof. apply length_put_bytes. Qed.
Lemma length_put_u32 buf off v : length (put_u32 buf off v) = length buf.
Proof. apply length_put_bytes. Qed.

Lemma same_on_put_u8 buf off v lo hi :
  0 ≤ off → 0 ≤ lo → hi ≤ off ∨ off + 1 ≤ lo → same_on (put_u8 buf off v) buf lo hi.
Proof. intros. apply same_on_put; cbn; lia. Qed.
Lemma same_on_put_u16 buf off v lo hi :
  0 ≤ off → 0 ≤ lo → hi ≤ off ∨ off + 2 ≤ lo → same_on (put_u16 buf off v) buf lo hi.
Proof. intros. apply same_on_put; cbn; lia. Qed.
Lemma same_on_put_u32 buf off v lo hi :
  0 ≤ off → 0 ≤ lo → hi ≤ off ∨ off + 4 ≤ lo → same_on (put_u32 buf off v) buf lo hi.
Proof. intros. apply same_on_put; cbn; lia. Qed.

(** ** sstp_route_addattr *)

Lemma read_obj_inv obj n v :
  read_obj obj n = Some v →
  v = take (Z.to_nat n) obj ∧ 0 ≤ n ≤ Z.of_nat (length obj) ∧ Z.of_nat (length v) = n.
Proof.
  unfold read_obj. case_bool_decide; [|done]. intros [= <-].
  rewrite length_take. repeat split; lia.
Qed.

Lemma read_obj_Some obj n :
  0 ≤ n ≤ Z.of_nat (length obj) → read_obj obj n = Some (take (Z.to_nat n) obj).
Proof. intros. unfold read_obj. by rewrite bool_decide_eq_true_2. Qed.

Lemma run_bind_Done {A B} (f : A → run B) a : (Done a ≫= f) = f a.
Proof. reflexivity. Qed.

Lemma run_bind_inv {A B} (f : A → run B) m b :
  (m ≫= f) = Done b → ∃ a, m = Done a ∧ f a = Done b.
Proof. destruct m; [eauto|done..]. Qed.

Lemma checked_inv {A} (o : option A) a : checked o = Done a → o = Some a.
Proof. destruct o; [by intros [= ->]|done]. Qed.

(** Appending to a message whose length [n] is aligned and which has room
    left: the attribute lands at offset [n]. *)
Lemma addattr_ok buf type len value v n :
  length buf = Z.to_nat sizeof_buf → nlmsg_len buf = n → 28 ≤ n → n mod 4 = 0 →
  read_obj value len = Some v → n + RTA_SPACE len ≤ sizeof_buf →
  ∃ buf', sstp_route_addattr buf type len value = Done buf'
    ∧ length buf' = Z.to_nat sizeof_buf
    ∧ nlmsg_len buf' = n + RTA_SPACE len
    ∧ same_on buf' buf 4 n
    ∧ rta_len buf' n = to_u16 (RTA_LENGTH len)
    ∧ rta_type buf' n = to_u16 type
    ∧ get_bytes buf' (RTA_DATA n) (length v) = v.
Proof.
  unfold sizeof_buf. intros Hlen Hn Hlo Hal Hrd Hroom.
  apply read_obj_inv in Hrd as Hv. destruct Hv as (_ & Hlv & Hvl).
  pose proof (RTA_SPACE_bounds len) as Hsp.
  unfold sstp_route_addattr, NLMSG_TAIL. rewrite Hn, (NLMSG_ALIGN_aligned n Hal).
  unfold RTA_DATA. change (RTA_LENGTH 0) with 4.
  rewrite store_Some by (rewrite ?length_le_encode; lia). cbn [checked].
  rewrite run_bind_Done.
  rewrite store_Some by (rewrite ?length_put_bytes, ?length_le_encode; lia).
  cbn [checked]. rewrite run_bind_Done. rewrite Hrd. cbn [checked].
  rewrite run_bind_Done.
  set (b1 := put_bytes buf (n + 2) (le_encode 2 type)).
  set (b2 := put_bytes b1 n (le_encode 2 (RTA_LENGTH len))).
  assert (length b1 = 1024%nat) as Hl1 by (unfold b1; by rewrite length_put_bytes).
  assert (length b2 = 1024%nat) as Hl2 by (unfold b2; by rewrite length_put_bytes).
  assert (nlmsg_len b2 = n) as ->.
  { rewrite <- Hn. unfold nlmsg_len.
    rewrite (same_on_u32 b2 b1 0 4), (same_on_u32 b1 buf 0 4); try lia; try done;
      apply same_on_put; rewrite ?length_le_encode; lia. }
  rewrite (NLMSG_ALIGN_aligned n Hal).
  set (b3 := put_u32 b2 0 (n + RTA_SPACE len)).
  assert (length b3 = 1024%nat) as Hl3 by (unfold b3; by rewrite length_put_u32).
  rewrite store_Some by lia. cbn [checked].
  set (b4 := put_bytes b3 (n + 4) v).
  assert (same_on b4 b3 0 (n + 4)) as H43 by (apply same_on_put; lia).
  assert (same_on b3 b2 4 sizeof_buf) as H32 by (apply same_on_put_u32; lia).
  exists b4. split; [done|]. split; [unfold b4; by rewrite length_put_bytes|].
  split; [|split; [|split; [|split]]].
  - unfold nlmsg_len. rewrite (same_on_u32 b4 b3 0 (n + 4)) by (done || lia).
    unfold b3. rewrite get_u32_put_u32 by lia. apply to_u32_small. lia.
  - apply (same_on_trans _ b3); [eapply same_on_sub; [apply H43|lia..]|].
    apply (same_on_trans _ b2); [eapply same_on_sub; [apply H32|unfold sizeof_buf; lia..]|].
    apply (same_on_trans _ b1); apply same_on_put; rewrite ?length_le_encode; lia.
  - unfold rta_len. rewrite (same_on_u16 b4 b3 0 (n + 4)) by (done || lia).
    rewrite (same_on_u16 b3 b2 4 sizeof_buf) by (done || unfold sizeof_buf; lia).
    apply get_u16_put_u16; lia.
  - unfold rta_type. rewrite (same_on_u16 b4 b3 0 (n + 4)) by (done || lia).
    rewrite (same_on_u16 b3 b2 4 sizeof_buf) by (done || unfold sizeof_buf; lia).
    rewrite (same_on_u16 b2 b1 (n + 2) (n + 4));
      [|apply same_on_put; rewrite ?length_le_encode; lia|lia..].
    apply get_u16_put_u16; lia.
  - apply get_bytes_put_in; lia.
Qed.

(** Any call that returns leaves the bytes 4 to 27 (the rest of the header
    and the route message) alone, provided the message had at least its
    header and route message before. *)
Lemma addattr_frame buf type len value buf' :
  sstp_route_addattr buf type len value = Done buf' →
  length buf = Z.to_nat sizeof_buf → 28 ≤ nlmsg_len buf →
  length buf' = Z.to_nat sizeof_buf ∧ same_on buf' buf 4 28 ∧ 28 ≤ nlmsg_len buf'.
Proof.
  unfold sizeof_buf. intros Hrun Hlen Hlo.
  pose proof (NLMSG_ALIGN_div (nlmsg_len buf)) as Hal.
  assert (nlmsg_len buf ≤ NLMSG_ALIGN (nlmsg_len buf)) as Hge by dlia.
  unfold sstp_route_addattr, NLMSG_TAIL, RTA_DATA in Hrun.
  change (RTA_LENGTH 0) with 4 in Hrun.
  set (rta := NLMSG_ALIGN (nlmsg_len buf)) in *.
  apply run_bind_inv in Hrun as (b1 & Hb1 & Hrun).
  apply checked_inv, store_inv in Hb1 as (-> & _ & Hin1).
  rewrite length_le_encode in Hin1.
  apply run_bind_inv in Hrun as (b2 & Hb2 & Hrun).
  apply checked_inv, store_inv in Hb2 as (-> & _ & _).
  apply run_bind_inv in Hrun as (v & Hv & Hrun).
  apply checked_inv, read_obj_inv in Hv as (_ & Hlv & Hvl).
  apply checked_inv, store_inv in Hrun as (-> & _ & Hin4).
  unfold put_u32 in Hin4. rewrite !length_put_bytes in Hin4.
  set (b1 := put_bytes buf (rta + 2) (le_encode 2 type)) in *.
  set (b2 := put_bytes b1 rta (le_encode 2 (RTA_LENGTH len))) in *.
  assert (nlmsg_len b2 = nlmsg_len buf) as Hn2.
  { unfold nlmsg_len.
    rewrite (same_on_u32 b2 b1 0 4), (same_on_u32 b1 buf 0 4); try lia; try done;
      apply same_on_put; rewrite ?length_le_encode; lia. }
  rewrite Hn2. fold rta.
  set (b3 := put_u32 b2 0 (rta + RTA_SPACE len)).
  pose proof (RTA_SPACE_bounds len) as Hsp.
  split; [unfold b3, b2, b1, put_u32; by rewrite !length_put_bytes|]. split.
  - apply (same_on_trans _ b3); [apply same_on_put; lia|].
    apply (same_on_trans _ b2); [apply same_on_put_u32; lia|].
    apply (same_on_trans _ b1); apply same_on_put; rewrite ?length_le_encode; lia.
  - unfold nlmsg_len. rewrite (same_on_u32 _ b3 0 4); [|apply same_on_put; lia|lia..].
    unfold b3. rewrite get_u32_put_u32 by (unfold b2, b1; rewrite ?length_put_bytes; lia).
    rewrite to_u32_small; lia.
Qed.

(** ** Attributes in a buffer *)

Lemma attrs_space_nonneg attrs : 0 ≤ attrs_space attrs.
Proof.
  induction attrs as [|a attrs IH]; [done|]. cbn [attrs_space foldr].
  fold (attrs_space attrs). pose proof (RTA_SPACE_bounds (Z.of_nat (length a.2))). lia.
Qed.

Lemma attrs_space_cons a attrs :
  attrs_space (a :: attrs) = RTA_SPACE (Z.of_nat (length a.2)) + attrs_space attrs.
Proof. reflexivity. Qed.

Lemma attrs_space_app a1 a2 : attrs_space (a1 ++ a2) = attrs_space a1 + attrs_space a2.
Proof.
  induction a1 as [|a a1 IH]; [done|].
  rewrite <- app_comm_cons, !attrs_space_cons, IH. lia.
Qed.

Lemma attrs_space_mod attrs : attrs_space attrs mod 4 = 0.
Proof.
  induction attrs as [|a attrs IH]; [done|]. rewrite attrs_space_cons.
  pose proof (RTA_SPACE_bounds (Z.of_nat (length a.2))). dlia.
Qed.

Lemma attrs_space_length attrs : 4 * Z.of_nat (length attrs) ≤ attrs_space attrs.
Proof.
  induction attrs as [|a attrs IH]; [done|]. rewrite attrs_space_cons.
  pose proof (RTA_SPACE_bounds (Z.of_nat (length a.2))). cbn [length]. lia.
Qed.

Lemma encodes_same b1 b2 off attrs :
  0 ≤ off → same_on b1 b2 off (off + attrs_space attrs) →
  encodes b2 off attrs → encodes b1 off attrs.
Proof.
  revert off. induction attrs as [|a attrs IH]; intros off Hoff Hs; [done|].
  rewrite attrs_space_cons in Hs.
  pose proof (RTA_SPACE_bounds (Z.of_nat (length a.2))) as Hsp.
  pose proof (attrs_space_nonneg attrs) as Hnn.
  cbn [encodes]. unfold rta_len, rta_type, RTA_DATA. change (RTA_LENGTH 0) with 4.
  intros (H1 & H2 & H3 & H4).
  rewrite !(same_on_u16 b1 b2 _ _ _ Hs) by lia.
  rewrite (same_on_bytes b1 b2 _ _ _ _ Hs) by lia.
  repeat split; try done. apply IH; [lia| |done].
  eapply same_on_sub; [apply Hs|lia..].
Qed.

Lemma encodes_app buf off a1 a2 :
  encodes buf off (a1 ++ a2) ↔ encodes buf off a1 ∧ encodes buf (off + attrs_space a1) a2.
Proof.
  revert off. induction a1 as [|a a1 IH]; intros off.
  - cbn. rewrite Z.add_0_r. tauto.
  - rewrite <- app_comm_cons, attrs_space_cons. cbn [encodes]. rewrite IH.
    rewrite Z.add_assoc. tauto.
Qed.

(** The walk never stops for lack of fuel: any two amounts of fuel that
    are at least [rtl] give the same offsets. *)
Lemma rta_walk_fuel f1 f2 buf rta rtl :
  (Z.to_nat rtl ≤ f1)%nat → (Z.to_nat rtl ≤ f2)%nat →
  rta_walk f1 buf rta rtl = rta_walk f2 buf rta rtl.
Proof.
  revert f2 rta rtl. induction f1 as [|f1 IH]; intros f2 rta rtl H1 H2.
  - destruct f2 as [|f2]; [done|]. cbn [rta_walk]. unfold RTA_OK, sizeof_rtattr.
    destruct (Z.leb_spec 4 rtl); [lia|done].
  - destruct f2 as [|f2]; cbn [rta_walk]; unfold RTA_OK, sizeof_rtattr.
    + destruct (Z.leb_spec 4 rtl); [lia|done].
    + destruct (Z.leb_spec 4 rtl); [|done].
      destruct (Z.leb_spec 4 (rta_len buf rta)); [|done].
      destruct (Z.leb_spec (rta_len buf rta) rtl); [|done]. cbn [andb].
      pose proof (RTA_ALIGN_bounds (rta_len buf rta)).
      f_equal. apply IH; lia.
Qed.

(** Walking a region that holds [attrs] visits exactly these attributes. *)
Lemma rta_walk_encodes fuel buf off attrs :
  (length attrs ≤ fuel)%nat → encodes buf off attrs →
  attr_at buf <$> rta_walk fuel buf off (attrs_space attrs) = attrs.
Proof.
  revert fuel off. induction attrs as [|a attrs IH]; intros fuel off Hf Henc.
  - destruct fuel; [done|]. cbn [rta_walk]. by unfold RTA_OK, sizeof_rtattr.
  - destruct fuel as [|fuel]; [cbn in Hf; lia|].
    destruct Henc as (Hl & Ht & Hb & Hrest). unfold sizeof_rtattr in Hl.
    rewrite attrs_space_cons.
    pose proof (RTA_SPACE_bounds (Z.of_nat (length a.2))) as Hsp.
    pose proof (attrs_space_nonneg attrs) as Hnn.
    cbn [rta_walk]. unfold RTA_OK, sizeof_rtattr. rewrite Hl.
    assert (RTA_ALIGN (4 + Z.of_nat (length a.2)) = RTA_SPACE (Z.of_nat (length a.2)))
      as -> by done.
    destruct (Z.leb_spec 4 (RTA_SPACE (Z.of_nat (length a.2)) + attrs_space attrs)); [|lia].
    destruct (Z.leb_spec 4 (4 + Z.of_nat (length a.2))); [|lia].
    destruct (Z.leb_spec (4 + Z.of_nat (length a.2))
                (RTA_SPACE (Z.of_nat (length a.2)) + attrs_space attrs)); [|lia].
    cbn [andb fmap list_fmap]. f_equal.
    + unfold attr_at, RTA_PAYLOAD. rewrite Ht, Hl. change (RTA_LENGTH 0) with 4.
      replace (Z.to_nat (4 + Z.of_nat (length a.2) - 4)) with (length a.2) by lia.
      rewrite Hb. by destruct a.
    + replace (RTA_SPACE (Z.of_nat (length a.2)) + attrs_space attrs
               - RTA_SPACE (Z.of_nat (length a.2))) with (attrs_space attrs) by lia.
      apply IH; [cbn in Hf; lia|done].
Qed.

(** ** Messages under construction *)

Lemma nlmsg_len_put buf off bs :
  4 ≤ off → nlmsg_len (put_bytes buf off bs) = nlmsg_len buf.
Proof.
  intros. unfold nlmsg_len. apply (same_on_u32 _ _ 0 4); [|lia..].
  apply same_on_put; lia.
Qed.

Lemma length_nlmsg_header type flags seq pid :
  length (nlmsg_header type flags seq pid) = Z.to_nat sizeof_buf.
Proof.
  unfold nlmsg_header, put_u16, put_u32.
  by rewrite !length_put_bytes, length_replicate.
Qed.

Lemma nlmsg_len_header type flags seq pid :
  nlmsg_len (nlmsg_header type flags seq pid) = 28.
Proof.
  unfold nlmsg_header, put_u16. unfold put_u32 at 1 2.
  by rewrite !nlmsg_len_put by lia.
Qed.

(** The bytes of the route message are zero in a fresh header. *)
Lemma nlmsg_header_body type flags seq pid i :
  16 ≤ i → get_u8 (nlmsg_header type flags seq pid) i = 0.
Proof.
  intros. unfold nlmsg_header, put_u16, put_u32.
  rewrite !get_u8_put_out by (rewrite ?length_le_encode; lia).
  apply get_u8_zeros.
Qed.

Lemma built_parse buf attrs :
  built buf attrs → attrs_space attrs < 2147483648 → parse_attrs buf = attrs.
Proof.
  intros (_ & Hn & Henc) Hsmall. unfold parse_attrs, rta_offsets, RTM_PAYLOAD.
  pose proof (attrs_space_nonneg attrs). pose proof (attrs_space_length attrs).
  rewrite Hn. change (NLMSG_SPACE sizeof_rtmsg) with 28.
  unfold sizeof_nlmsghdr, sizeof_rtmsg.
  replace (16 + 12 + attrs_space attrs - 28) with (attrs_space attrs) by lia.
  rewrite to_u32_small, wrap_i32_small by lia.
  apply rta_walk_encodes; [lia|done].
Qed.

Lemma body_only_id : body_only id.
Proof. intros b. repeat split; apply same_on_refl. Qed.

Lemma body_only_put_u8 off v : 4 ≤ off < 19 → body_only (λ b, put_u8 b off v).
Proof.
  intros ? b. rewrite length_put_u8. repeat split; apply same_on_put_u8; lia.
Qed.

Lemma opt_attr_built present buf attrs type len value after v :
  built buf attrs → body_only after →
  read_obj value len = Some v → 0 ≤ type < 65536 →
  28 + attrs_space attrs + RTA_SPACE len ≤ sizeof_buf →
  ∃ buf', opt_attr present buf type len value after = Done buf'
    ∧ built buf' (attrs ++ (if present then [(type, v)] else []))
    ∧ attrs_space (attrs ++ (if present then [(type, v)] else []))
      ≤ attrs_space attrs + len + 7
    ∧ same_on buf' buf 19 28.
Proof.
  intros (Hlen & Hn & Henc) Hafter Hrd Hty Hroom.
  pose proof (attrs_space_nonneg attrs) as Hnn.
  pose proof (attrs_space_mod attrs) as Hmod.
  pose proof (RTA_SPACE_bounds len) as Hsp.
  apply read_obj_inv in Hrd as Hv. destruct Hv as (_ & Hlv & Hvl).
  unfold opt_attr. destruct present.
  - unfold sizeof_nlmsghdr, sizeof_rtmsg in Hn.
    replace (16 + 12 + attrs_space attrs) with (28 + attrs_space attrs) in Hn by lia.
    destruct (addattr_ok buf type len value v _ Hlen Hn) as
      (b' & -> & Hl' & Hn' & Hsame & Hrl & Hrt & Hpay); [lia|dlia|done|lia|].
    rewrite run_bind_Done. destruct (Hafter b') as (Hal & Ha0 & Ha1).
    exists (after b'). split; [done|]. split; [|split].
    + split; [by rewrite Hal|]. split.
      * unfold nlmsg_len. rewrite (same_on_u32 _ _ _ _ _ Ha0) by lia.
        fold (nlmsg_len b'). rewrite Hn', attrs_space_app, attrs_space_cons.
        cbn. unfold sizeof_nlmsghdr, sizeof_rtmsg. rewrite Hvl. lia.
      * apply encodes_app. change RTM_RTA with 28. split.
        -- apply (encodes_same _ b'); [lia| |].
           { eapply same_on_sub; [apply Ha1|unfold sizeof_buf in *; lia..]. }
           apply (encodes_same _ buf); [lia| |done].
           eapply same_on_sub; [apply Hsame|lia..].
        -- apply (encodes_same _ b'); [lia| |].
           { eapply same_on_sub; [apply Ha1|rewrite ?attrs_space_cons; cbn;
               rewrite ?Hvl; unfold sizeof_buf in *; lia..]. }
           cbn [encodes fst snd]. rewrite Hvl. unfold sizeof_rtattr.
           rewrite Hrl, Hrt. unfold RTA_LENGTH. change (RTA_ALIGN sizeof_rtattr) with 4.
           unfold to_u16. unfold sizeof_buf in *. rewrite !Z.mod_small by lia. done.
    + rewrite attrs_space_app, attrs_space_cons. cbn. rewrite Hvl. lia.
    + apply (same_on_trans _ b').
      * eapply same_on_sub; [apply Ha1|unfold sizeof_buf; lia..].
      * eapply same_on_sub; [apply Hsame|lia..].
  - exists buf. rewrite app_nil_r. split; [done|]. split; [done|].
    split; [lia|apply same_on_refl].
Qed.

Lemma opt_attr_frame present buf type len value after buf' :
  opt_attr present buf type len value after = Done buf' → body_only after →
  length buf = Z.to_nat sizeof_buf → 28 ≤ nlmsg_len buf →
  length buf' = Z.to_nat sizeof_buf ∧ 28 ≤ nlmsg_len buf' ∧ same_on buf' buf 19 28.
Proof.
  unfold opt_attr. intros Hrun Hafter Hlen Hn. destruct present.
  - apply run_bind_inv in Hrun as (b & Hb & [= <-]).
    destruct (addattr_frame _ _ _ _ _ Hb Hlen Hn) as (Hl' & Hs & Hn').
    destruct (Hafter b) as (Hal & Ha0 & Ha1).
    split; [by rewrite Hal|]. split.
    + unfold nlmsg_len. rewrite (same_on_u32 _ _ _ _ _ Ha0) by lia. done.
    + apply (same_on_trans _ b).
      * eapply same_on_sub; [apply Ha1|unfold sizeof_buf; lia..].
      * eapply same_on_sub; [apply Hs|lia..].
  - injection Hrun as <-. split; [done|]. split; [done|apply same_on_refl].
Qed.

Lemma get_u8_put_u8_ne buf off v i :
  0 ≤ off → 0 ≤ i → i ≠ off → get_u8 (put_u8 buf off v) i = get_u8 buf i.
Proof. intros. unfold put_u8. apply get_u8_put_out; cbn; lia. Qed.

Lemma nlmsg_len_put_u8 buf off v : 4 ≤ off → nlmsg_len (put_u8 buf off v) = nlmsg_len buf.
Proof. apply nlmsg_len_put. Qed.

(** ** sstp_route_newmsg *)

Section BuilderFacts.

Variable getpid : Z.

(** The route message before the attributes are appended. *)
Lemma newmsg_body_start cmd flags seq family scope :
  let b := put_u8 (put_u8 (put_u8 (nlmsg_header cmd flags seq getpid)
               (NLMSG_DATA + 4) RT_TABLE_MAIN) (NLMSG_DATA + 0) family)
               (NLMSG_DATA + 6) scope in
  let b' := if negb (cmd =? RTM_DELROUTE)
            then put_u8 (put_u8 b (NLMSG_DATA + 5) RTPROT_BOOT) (NLMSG_DATA + 7) RTN_UNICAST
            else b in
  length b' = Z.to_nat sizeof_buf ∧ nlmsg_len b' = 28
  ∧ rtm_scope b' = to_u8 scope
  ∧ rtm_protocol b' = (if cmd =? RTM_DELROUTE then 0 else RTPROT_BOOT)
  ∧ rtm_type b' = (if cmd =? RTM_DELROUTE then 0 else RTN_UNICAST).
Proof.
  cbv zeta. change NLMSG_DATA with 16.
  set (h := nlmsg_header cmd flags seq getpid).
  assert (length h = 1024%nat) as Hh by apply length_nlmsg_header.
  unfold rtm_scope, rtm_protocol, rtm_type. change NLMSG_DATA with 16.
  destruct (cmd =? RTM_DELROUTE); cbn [negb].
  - rewrite !length_put_u8, !nlmsg_len_put_u8 by lia.
    rewrite get_u8_put_u8 by (rewrite !length_put_u8; lia).
    rewrite !get_u8_put_u8_ne by lia.
    unfold h. by rewrite nlmsg_len_header, !nlmsg_header_body by lia.
  - rewrite !length_put_u8, !nlmsg_len_put_u8 by lia.
    rewrite (get_u8_put_u8_ne _ _ _ (16 + 6)), (get_u8_put_u8_ne _ _ _ (16 + 6)) by lia.
    rewrite (get_u8_put_u8_ne _ (16 + 7) _ (16 + 5)) by lia.
    rewrite !get_u8_put_u8 by (rewrite !length_put_u8; lia).
    unfold h. by rewrite nlmsg_len_header.
Qed.

Lemma route_valid_read (route : sstp_route_st) (a : list Z) :
  route_valid route → length a = sizeof_addr →
  read_obj a (rt_blen route) = Some (take (Z.to_nat (rt_blen route)) a)
  ∧ 0 ≤ rt_blen route ≤ 16.
Proof.
  intros ([[_ Hb] | [_ Hb]] & _) Ha; (split; [|lia]);
    apply read_obj_Some; rewrite Ha; unfold sizeof_addr; lia.
Qed.

(** For a valid route the builder returns, and the buffer holds the
    attributes of the route. *)
Lemma newmsg_valid c route cmd flags :
  route_valid route →
  ∃ c', sstp_route_newmsg getpid c route cmd flags
        = Done (28 + attrs_space (route_attrs route), c')
    ∧ built (ctx_buf c') (route_attrs route)
    ∧ attrs_space (route_attrs route) ≤ 92
    ∧ ctx_seq c' = wrap_i32 (ctx_seq c + 1)
    ∧ ctx_len c' = ctx_len c ∧ ctx_sock c' = ctx_sock c.
Proof.
  intros Hv. pose proof Hv as (_ & Hd & Hs & Hg & _).
  destruct (route_valid_read route _ Hv Hd) as [Hrd Hbl].
  destruct (route_valid_read route _ Hv Hs) as [Hrs _].
  destruct (route_valid_read route _ Hv Hg) as [Hrg _].
  pose proof (RTA_SPACE_bounds (rt_blen route)) as Hsp.
  unfold sstp_route_newmsg.
  match goal with |- context [opt_attr _ ?b RTA_DST] => set (b0 := b) end.
  assert (built b0 []) as Hb0.
  { destruct (newmsg_body_start cmd (Z.lor (Z.lor NLM_F_REQUEST NLM_F_ACK) flags)
                (wrap_i32 (ctx_seq c + 1)) (rt_family route)
                (if have_gwy (rt_have route) then RT_SCOPE_UNIVERSE else RT_SCOPE_LINK))
      as (Hl & Hn & _). fold b0 in Hl, Hn. by repeat split. }
  change (attrs_space []) with 0 in *.
  destruct (opt_attr_built (have_dst (rt_have route)) b0 [] RTA_DST _ _
              (λ b, put_u8 b (NLMSG_DATA + 1) (Z.shiftl (rt_blen route) 3)) _
              Hb0 (body_only_put_u8 (NLMSG_DATA + 1) _
                     ltac:(change NLMSG_DATA with 16; lia)) Hrd)
    as (b1 & -> & Hb1 & Hs1 & _); [done|unfold sizeof_buf; change (attrs_space []) with 0; lia|].
  rewrite run_bind_Done. change (attrs_space []) with 0 in Hs1.
  destruct (opt_attr_built (have_src (rt_have route)) b1 _ RTA_PREFSRC _ _
              (λ b, put_u8 b (NLMSG_DATA + 2) (Z.shiftl (rt_blen route) 3)) _
              Hb1 (body_only_put_u8 (NLMSG_DATA + 2) _
                     ltac:(change NLMSG_DATA with 16; lia)) Hrs)
    as (b2 & -> & Hb2 & Hs2 & _); [done|unfold sizeof_buf; lia|].
  rewrite run_bind_Done.
  destruct (opt_attr_built (have_gwy (rt_have route)) b2 _ RTA_GATEWAY _ _ id _
              Hb2 body_only_id Hrg)
    as (b3 & -> & Hb3 & Hs3 & _); [done|unfold sizeof_buf; lia|].
  rewrite run_bind_Done.
  destruct (opt_attr_built (have_oif (rt_have route)) b3 _ RTA_OIF sizeof_oif
              (le_encode 4 (rt_oif route)) id (le_encode 4 (rt_oif route)) Hb3 body_only_id)
    as (b4 & -> & Hb4 & Hs4 & _);
    [done|done|change (RTA_SPACE sizeof_oif) with 8; unfold sizeof_buf; lia|].
  rewrite run_bind_Done.
  match type of Hb4 with
  | built _ ?l =>
      assert (l = route_attrs route) as Heq
        by (unfold route_attrs; cbn [app]; by rewrite <- !app_assoc)
  end.
  rewrite Heq in Hb4, Hs4.
  pose proof (attrs_space_nonneg (route_attrs route)).
  unfold sizeof_oif in Hs4.
  destruct Hb4 as (Hl4 & Hn4 & He4). unfold sizeof_nlmsghdr, sizeof_rtmsg in Hn4.
  eexists. split; [|split; [|split]].
  - rewrite Hn4, wrap_i32_small by lia.
    by replace (16 + 12 + attrs_space (route_attrs route))
      with (28 + attrs_space (route_attrs route)) by lia.
  - by repeat split.
  - lia.
  - done.
Qed.

End BuilderFacts.

Lemma nlmsg_header_fields type flags seq pid :
  let h := nlmsg_header type flags seq pid in
  nlmsg_type h = to_u16 type ∧ nlmsg_flags h = to_u16 flags
  ∧ nlmsg_seq h = to_u32 seq ∧ nlmsg_pid h = to_u32 pid.
Proof.
  cbv zeta. unfold nlmsg_header, nlmsg_type, nlmsg_flags, nlmsg_seq, nlmsg_pid.
  set (z := replicate (Z.to_nat sizeof_buf) 0).
  assert (length z = 1024%nat) as Hz by apply length_replicate.
  set (b1 := put_u32 z 0 (NLMSG_LENGTH sizeof_rtmsg)).
  set (b2 := put_u16 b1 4 type). set (b3 := put_u16 b2 6 flags).
  set (b4 := put_u32 b3 8 seq).
  assert (length b1 = 1024%nat) as H1 by (unfold b1; by rewrite length_put_u32).
  assert (length b2 = 1024%nat) as H2 by (unfold b2; by rewrite length_put_u16).
  assert (length b3 = 1024%nat) as H3 by (unfold b3; by rewrite length_put_u16).
  assert (length b4 = 1024%nat) as H4 by (unfold b4; by rewrite length_put_u32).
  repeat split.
  - rewrite (same_on_u16 _ b4 4 6); [|apply same_on_put_u32; lia|lia..].
    rewrite (same_on_u16 b4 b3 4 6); [|apply same_on_put_u32; lia|lia..].
    rewrite (same_on_u16 b3 b2 4 6); [|apply same_on_put_u16; lia|lia..].
    apply get_u16_put_u16; lia.
  - rewrite (same_on_u16 _ b4 6 8); [|apply same_on_put_u32; lia|lia..].
    rewrite (same_on_u16 b4 b3 6 8); [|apply same_on_put_u32; lia|lia..].
    apply get_u16_put_u16; lia.
  - rewrite (same_on_u32 _ b4 8 12); [|apply same_on_put_u32; lia|lia..].
    apply get_u32_put_u32; lia.
  - apply get_u32_put_u32; lia.
Qed.

Section BuilderClaims.

Variable getpid : Z.

(** C4.  For every valid route the message that sstp_route_newmsg builds
    declares as its total length the size of the header plus the size of
    the route message plus the sum of the padded sizes of its
    attributes; every attribute declares the size of the attribute
    header plus its payload; and walking the attributes of the message
    gives back exactly the attributes whose presence flags are set in
    the route, with their payload bytes. *)
Theorem newmsg_length_and_roundtrip c route cmd flags :
  route_valid route →
  ∃ n c', sstp_route_newmsg getpid c route cmd flags = Done (n, c')
    ∧ n = nlmsg_len (ctx_buf c')
    ∧ n = sizeof_nlmsghdr + sizeof_rtmsg + attrs_space (route_attrs route)
    ∧ encodes (ctx_buf c') RTM_RTA (route_attrs route)
    ∧ parse_attrs (ctx_buf c') = route_attrs route.
Proof.
  intros Hv.
  destruct (newmsg_valid getpid c route cmd flags Hv)
    as (c' & Hrun & Hb & Hsp & _).
  exists (28 + attrs_space (route_attrs route)), c'.
  split; [done|]. pose proof Hb as (_ & Hn & Henc).
  unfold sizeof_nlmsghdr, sizeof_rtmsg in *.
  split; [lia|]. split; [lia|]. split; [done|].
  apply built_parse; [done|lia].
Qed.

(** C5.  sstp_route_newmsg returns for every valid route, and whenever it
    returns, for any route and command, the scope of the route message is
    "universe" if the gateway flag of the route is set and "link"
    otherwise, and protocol and route type are "boot" and "unicast"
    exactly when the command is not RTM_DELROUTE; for RTM_DELROUTE both
    fields are zero. *)
Theorem newmsg_scope_protocol_type c route cmd flags :
  (route_valid route →
   ∃ n c', sstp_route_newmsg getpid c route cmd flags = Done (n, c'))
  ∧ (∀ n c', sstp_route_newmsg getpid c route cmd flags = Done (n, c') →
     let b := ctx_buf c' in
     rtm_scope b = (if have_gwy (rt_have route) then RT_SCOPE_UNIVERSE else RT_SCOPE_LINK)
     ∧ (rtm_scope b = RT_SCOPE_UNIVERSE ↔ have_gwy (rt_have route) = true)
     ∧ (rtm_scope b = RT_SCOPE_LINK ↔ have_gwy (rt_have route) = false)
     ∧ (rtm_protocol b = RTPROT_BOOT ∧ rtm_type b = RTN_UNICAST ↔ cmd ≠ RTM_DELROUTE)
     ∧ (cmd = RTM_DELROUTE → rtm_protocol b = 0 ∧ rtm_type b = 0)).
Proof.
  split.
  { intros Hv. destruct (newmsg_valid getpid c route cmd flags Hv) as (c' & Hrun & _).
    by do 2 eexists. }
  unfold sstp_route_newmsg. intros n c' Hrun.
  match type of Hrun with context [opt_attr _ ?b RTA_DST] => set (b0 := b) in Hrun end.
  destruct (newmsg_body_start getpid cmd (Z.lor (Z.lor NLM_F_REQUEST NLM_F_ACK) flags)
              (wrap_i32 (ctx_seq c + 1)) (rt_family route)
              (if have_gwy (rt_have route) then RT_SCOPE_UNIVERSE else RT_SCOPE_LINK))
    as (Hl0 & Hn0 & Hsc & Hpr & Hty).
  fold b0 in Hl0, Hn0, Hsc, Hpr, Hty.
  apply run_bind_inv in Hrun as (b1 & H1 & Hrun).
  apply opt_attr_frame in H1 as (Hl1 & Hn1 & Hs1);
    [|apply body_only_put_u8; change NLMSG_DATA with 16; lia|done|lia].
  apply run_bind_inv in Hrun as (b2 & H2 & Hrun).
  apply opt_attr_frame in H2 as (Hl2 & Hn2 & Hs2);
    [|apply body_only_put_u8; change NLMSG_DATA with 16; lia|done|lia].
  apply run_bind_inv in Hrun as (b3 & H3 & Hrun).
  apply opt_attr_frame in H3 as (Hl3 & Hn3 & Hs3); [|apply body_only_id|done|lia].
  apply run_bind_inv in Hrun as (b4 & H4 & Hrun).
  apply opt_attr_frame in H4 as (Hl4 & Hn4 & Hs4); [|apply body_only_id|done|lia].
  injection Hrun as _ <-. cbn [ctx_buf set_buf].
  assert (same_on b4 b0 19 28) as Hs.
  { repeat (eapply same_on_trans; [eassumption|]). apply same_on_refl. }
  unfold rtm_scope, rtm_protocol, rtm_type in *. change NLMSG_DATA with 16 in *.
  rewrite !(same_on_u8 b4 b0 19 28) by (done || lia).
  rewrite Hsc, Hpr, Hty. clear.
  unfold RT_SCOPE_UNIVERSE, RT_SCOPE_LINK, RTPROT_BOOT, RTN_UNICAST, RTM_DELROUTE.
  destruct (have_gwy (rt_have route)); destruct (Z.eqb_spec cmd 25);
    cbn; repeat split; intros; try done; try lia; intuition (lia || done).
Qed.

End BuilderClaims.

(** ** The request of sstp_route_get *)

Section RequestFacts.

Variable getpid : Z.

Lemma get_request_ok c dst :
  dst_valid dst →
  ∃ c1, get_request getpid c dst = Done c1
    ∧ built (ctx_buf c1) [(RTA_DST, sa_addr dst)]
    ∧ rtm_family (ctx_buf c1) = sa_family dst
    ∧ rtm_dst_len (ctx_buf c1) = 8 * Z.of_nat (length (sa_addr dst))
    ∧ rtm_table (ctx_buf c1) = RT_TABLE_MAIN
    ∧ ctx_seq c1 = wrap_i32 (ctx_seq c + 1)
    ∧ ctx_len c1 = ctx_len c ∧ ctx_sock c1 = ctx_sock c
    ∧ (∀ i, 4 ≤ i < 28 → i ≠ 16 → i ≠ 17 → i ≠ 20 →
         get_u8 (ctx_buf c1) i
         = get_u8 (nlmsg_header RTM_GETROUTE NLM_F_REQUEST
                     (wrap_i32 (ctx_seq c + 1)) getpid) i).
Proof.
  intros Hd. unfold get_request.
  set (h := nlmsg_header RTM_GETROUTE NLM_F_REQUEST (wrap_i32 (ctx_seq c + 1)) getpid).
  set (b0 := put_u8 (put_u8 h (NLMSG_DATA + 0) (sa_family dst)) (NLMSG_DATA + 4)
               RT_TABLE_MAIN).
  change NLMSG_DATA with 16 in *.
  assert (length h = 1024%nat) as Hh by apply length_nlmsg_header.
  assert (length b0 = Z.to_nat sizeof_buf) as Hl0
    by (unfold b0; by rewrite !length_put_u8).
  assert (nlmsg_len b0 = 28) as Hn0.
  { unfold b0. rewrite !nlmsg_len_put_u8 by lia. apply nlmsg_len_header. }
  assert (get_u8 b0 16 = to_u8 (sa_family dst)) as Hfam.
  { unfold b0. rewrite get_u8_put_u8_ne by lia. apply get_u8_put_u8. lia. }
  assert (get_u8 b0 20 = RT_TABLE_MAIN) as Htab.
  { unfold b0. rewrite get_u8_put_u8; [done|rewrite length_put_u8; lia]. }
  assert (∀ len v dl,
    read_obj (sa_addr dst) len = Some v → v = sa_addr dst → len ≤ 16 →
    to_u8 (sa_family dst) = sa_family dst → to_u8 dl = 8 * len →
    ∃ c1, (b ← sstp_route_addattr b0 RTA_DST len (sa_addr dst);
           Done (put_u8 b (16 + 1) dl)) ≫= (λ b, Done (set_buf
             (set_seq c (wrap_i32 (ctx_seq c + 1))) b)) = Done c1
      ∧ built (ctx_buf c1) [(RTA_DST, sa_addr dst)]
      ∧ rtm_family (ctx_buf c1) = sa_family dst
      ∧ rtm_dst_len (ctx_buf c1) = 8 * Z.of_nat (length (sa_addr dst))
      ∧ rtm_table (ctx_buf c1) = RT_TABLE_MAIN
      ∧ ctx_seq c1 = wrap_i32 (ctx_seq c + 1)
      ∧ ctx_len c1 = ctx_len c ∧ ctx_sock c1 = ctx_sock c
      ∧ (∀ i, 4 ≤ i < 28 → i ≠ 16 → i ≠ 17 → i ≠ 20 →
           get_u8 (ctx_buf c1) i = get_u8 h i)) as Hcase.
  { intros len v dl Hrd -> Hlen Hf Hdl.
    apply read_obj_inv in Hrd as Hv. destruct Hv as (_ & Hlv & Hvl).
    pose proof (RTA_SPACE_bounds len) as Hsp.
    destruct (addattr_ok b0 RTA_DST len (sa_addr dst) (sa_addr dst) 28 Hl0 Hn0)
      as (b' & -> & Hl' & Hn' & Hsame & Hrl & Hrt & Hpay);
      [lia|done|done|unfold sizeof_buf; lia|].
    unfold sizeof_buf in Hl'.
    rewrite !run_bind_Done. eexists. split; [done|]. cbn [ctx_buf set_buf set_seq
      ctx_seq ctx_len ctx_sock].
    assert (same_on (put_u8 b' (16 + 1) dl) b' 18 sizeof_buf) as Ha
      by (apply same_on_put_u8; lia).
    split; [|split; [|split; [|split; [|split; [|split; [|split]]]]]];
      [| | | |done|done|done|].
    - split; [by rewrite length_put_u8|]. split.
      + rewrite nlmsg_len_put_u8 by lia. rewrite Hn'. rewrite attrs_space_cons.
        cbn. unfold sizeof_nlmsghdr, sizeof_rtmsg. rewrite Hvl. lia.
      + change RTM_RTA with 28. apply (encodes_same _ b'); [lia| |].
        { eapply same_on_sub; [apply Ha|rewrite ?attrs_space_cons; cbn;
            rewrite ?Hvl; unfold sizeof_buf; lia..]. }
        cbn [encodes fst snd]. rewrite Hvl. unfold sizeof_rtattr.
        rewrite Hrl, Hrt. unfold RTA_LENGTH. change (RTA_ALIGN sizeof_rtattr) with 4.
        unfold to_u16. rewrite !Z.mod_small by (unfold RTA_DST; lia). done.
    - unfold rtm_family. change (NLMSG_DATA + 0) with 16.
      rewrite get_u8_put_u8_ne by lia.
      rewrite (same_on_u8 b' b0 4 28) by (done || lia). by rewrite Hfam.
    - unfold rtm_dst_len. change (NLMSG_DATA + 1) with (16 + 1).
      rewrite get_u8_put_u8 by lia. lia.
    - unfold rtm_table. change (NLMSG_DATA + 4) with 20.
      rewrite get_u8_put_u8_ne by lia.
      by rewrite (same_on_u8 b' b0 4 28) by (done || lia).
    - intros i Hi H16 H17 H20. rewrite get_u8_put_u8_ne by lia.
      rewrite (same_on_u8 b' b0 4 28) by (done || lia).
      unfold b0. by rewrite !get_u8_put_u8_ne by lia. }
  destruct Hd as [[Hf Hl] | [Hf Hl]]; rewrite Hf in *;
    change (AF_INET =? AF_INET) with true; change (AF_INET6 =? AF_INET) with false;
    change (AF_INET6 =? AF_INET6) with true; cbv iota.
  - apply (Hcase 4 (sa_addr dst) 32); try done.
    rewrite read_obj_Some by lia. f_equal. apply take_ge. lia.
  - apply (Hcase 16 (sa_addr dst) 128); try done.
    rewrite read_obj_Some by lia. f_equal. apply take_ge. lia.
Qed.

End RequestFacts.

(** ** Claims about the receive loop *)

Section TransportClaims.

Variable getpid : Z.

(** C1 (amended).  In a pass of the receive loop over a well-formed
    message whose sequence number differs from the sequence counter of
    the session, or whose process identifier differs from the identifier
    of the calling process, the message is discarded, unless its type is
    NLMSG_ERROR and the error field that the loop reads behind the
    header, at offset 16 of the buffer, is not zero.  Discarded means
    that the loop goes on with the next read, with its state unchanged
    but for the bytes of the buffer, and with nothing more to read it
    does not return.  In the other case the loop returns -1 with errno
    the negated field, whatever the sequence number and the process
    identifier.  The buffer holds the bytes of the datagram, and behind
    them what it held before the read: the error field is that of the
    message when the datagram has twenty bytes or more, and is made up
    with bytes of the buffer when the datagram is shorter. *)
Theorem recv_discards_uncorrelated c errno sent data rest :
  ctx_wf c → ctx_len c = 0 → msg_ok data →
  nlmsg_seq data ≠ to_u32 (ctx_seq c) ∨ nlmsg_pid data ≠ to_u32 getpid →
  let buf := ctx_buf (recv_ctx c data) in
  let code := nlmsgerr_error buf in
  (nlmsg_type data ≠ NLMSG_ERROR ∨ code = 0 →
     recv_loop getpid (RecvData data :: rest) c errno sent
     = recv_loop getpid rest (recv_ctx c data) errno sent
     ∧ recv_loop getpid [RecvData data] c errno sent = Blocked)
  ∧ (nlmsg_type data = NLMSG_ERROR → code ≠ 0 →
       recv_loop getpid (RecvData data :: rest) c errno sent
       = Done (-1, recv_ctx c data, mk_io (wrap_i32 (- code)) rest sent))
  ∧ (∀ i, 0 ≤ i < Z.min (Z.of_nat (length data)) sizeof_buf → get_u8 buf i = get_u8 data i)
  ∧ (∀ i, Z.of_nat (length data) ≤ i → get_u8 buf i = get_u8 (ctx_buf c) i)
  ∧ (20 ≤ Z.of_nat (length data) → code = nlmsgerr_error data)
  ∧ ctx_wf (recv_ctx c data) ∧ ctx_len (recv_ctx c data) = 0
  ∧ ctx_seq (recv_ctx c data) = ctx_seq c.
Proof.
  intros Hwf Hl Hok Hmis. cbv zeta.
  assert (¬ correlated getpid c data) as Hnc by (intros [? ?]; tauto).
  split; [|split; [|split; [|split; [|split]]]].
  - intros Hne. split; [by apply recv_loop_passes|]. by rewrite recv_loop_passes.
  - intros Ht Hnz. by apply recv_loop_error_read.
  - intros i Hi. by apply received_u8.
  - intros i Hi. by apply received_rest.
  - intros Hlen. by apply received_error.
  - split; [by apply recv_ctx_wf|done].
Qed.

(** Messages of other exchanges alone never make the loop return. *)
Lemma recv_only_uncorrelated c errno sent msgs :
  ctx_wf c → ctx_len c = 0 →
  Forall (λ data, msg_ok data ∧ no_error data
                  ∧ (nlmsg_seq data ≠ to_u32 (ctx_seq c)
                     ∨ nlmsg_pid data ≠ to_u32 getpid)) msgs →
  recv_loop getpid (RecvData <$> msgs) c errno sent = Blocked.
Proof.
  intros Hwf Hl Hall. revert c Hwf Hl Hall.
  induction msgs as [|data msgs IH]; intros c Hwf Hl Hall; [done|].
  apply Forall_cons in Hall as [(Hok & Hne & Hmis) Hall]. cbn [fmap list_fmap].
  rewrite recv_loop_uncorrelated; [|done..|intros [? ?]; tauto].
  apply IH; [by apply recv_ctx_wf|done|done].
Qed.

(** C3.  On a multi-part answer the loop returns after the first part:
    the value is the length of that part alone, and the second part and
    the closing NLMSG_DONE message are left unread. *)
Theorem recv_multipart_returns_after_first_part :
  ∃ c', sstp_route_recv ex_pid ex_ctx
          (mk_io 0 [RecvData ex_part1; RecvData ex_part2; RecvData ex_done] [])
        = Done (28, c', mk_io 0 [RecvData ex_part2; RecvData ex_done] [])
    ∧ Z.of_nat (length ex_part1) = 28
    ∧ Z.of_nat (length (ex_part1 ++ ex_part2 ++ ex_done)) = 76.
Proof. eexists. split; [vm_compute; reflexivity|]. by vm_compute. Qed.

End TransportClaims.

Lemma msg_ok_ex_stray_error : msg_ok ex_stray_error.
Proof. unfold msg_ok. vm_compute. split; discriminate. Qed.

(** C1, as stated, fails: an error frame with a code for the request 999
    of another exchange is well-formed and does not match the sequence
    counter 1 of the session, and it ends the loop with -1 and errno 17;
    the answer to the session's own request is left unread. *)
Lemma recv_stray_error_frame_ends_exchange :
  msg_ok ex_stray_error
  ∧ nlmsg_seq ex_stray_error ≠ to_u32 (ctx_seq ex_ctx)
  ∧ ∃ c', sstp_route_recv ex_pid ex_ctx
            (mk_io 0 [RecvData ex_stray_error; RecvData ex_reply] [])
          = Done (-1, c', mk_io 17 [RecvData ex_reply] []).
Proof.
  split; [apply msg_ok_ex_stray_error|]. split; [vm_compute; discriminate|].
  eexists. vm_compute. reflexivity.
Qed.

Lemma recv_discards_uncorrelated_witness :
  recv_loop ex_pid [RecvData (nl_msg 28 RTM_NEWROUTE 0 7 ex_pid (replicate 12 0));
                    RecvData ex_reply] ex_ctx 0 []
  = recv_loop ex_pid [RecvData ex_reply]
      (recv_ctx ex_ctx (nl_msg 28 RTM_NEWROUTE 0 7 ex_pid (replicate 12 0))) 0 []
  ∧ recv_loop ex_pid [RecvData ex_stray_header; RecvData ex_reply] ex_ctx_pending 0 []
    = Done (-1, recv_ctx ex_ctx_pending ex_stray_header,
            mk_io (wrap_i32 (- nlmsgerr_error
                                 (ctx_buf (recv_ctx ex_ctx_pending ex_stray_header))))
              [RecvData ex_reply] [])
  ∧ nlmsgerr_error (ctx_buf (recv_ctx ex_ctx_pending ex_stray_header)) = 8194.
Proof.
  split; [|split; [|reflexivity]].
  - refine (proj1 (proj1 (recv_discards_uncorrelated ex_pid ex_ctx 0 []
              (nl_msg 28 RTM_NEWROUTE 0 7 ex_pid (replicate 12 0)) [RecvData ex_reply]
              _ _ _ _) _)).
    + reflexivity.
    + reflexivity.
    + unfold msg_ok. vm_compute. split; discriminate.
    + left. vm_compute. discriminate.
    + left. vm_compute. discriminate.
  - refine (proj1 (proj2 (recv_discards_uncorrelated ex_pid ex_ctx_pending 0 []
              ex_stray_header [RecvData ex_reply] _ _ _ _)) _ _).
    + reflexivity.
    + reflexivity.
    + unfold msg_ok. vm_compute. split; discriminate.
    + left. vm_compute. discriminate.
    + reflexivity.
    + vm_compute. discriminate.
Defined.

Section ErrorFrames.

Variable getpid : Z.
Variable send : list Z → Z.
Variable if_indextoname : Z → option string.

(** With a socket that takes the request whole, talk is send followed
    by the receive loop. *)
Lemma talk_send_all c n w :
  send_all send → ctx_wf c → 0 ≤ n ≤ sizeof_buf →
  sstp_route_talk getpid send c (ctx_buf c) n w
  = recv_loop getpid (io_inbox w) (set_len c 0) (io_errno w)
      (io_sent w ++ [take (Z.to_nat n) (ctx_buf c)]).
Proof.
  unfold ctx_wf, sizeof_buf. intros Hs Hwf Hn. unfold sstp_route_talk.
  rewrite Hs, length_take.
  replace (Z.of_nat (Z.to_nat n `min` length (ctx_buf c))) with n by lia.
  unfold send_len, send_errno. destruct (Z.ltb_spec n 0); [lia|].
  by rewrite Z.eqb_refl.
Qed.

Lemma built_wf c attrs : built (ctx_buf c) attrs → ctx_wf c.
Proof. by intros (? & _). Qed.

Lemma set_len_wf c l : ctx_wf c → ctx_wf (set_len c l).
Proof. done. Qed.

(** An error frame with a code, read after any number of events that the
    loop passes over, ends the loop with -1 and the negated code in
    errno. *)
Lemma recv_loop_skips_error c errno sent pre data rest code :
  ctx_wf c → ctx_len c = 0 → 0 < nlmsg_len (ctx_buf c) →
  Forall (skipped getpid (ctx_seq c)) pre →
  msg_ok data → error_frame data code → code ≠ 0 →
  ∃ c', recv_loop getpid (pre ++ RecvData data :: rest) c errno sent
        = Done (-1, c', mk_io (wrap_i32 (- code)) rest sent).
Proof.
  intros Hwf Hl Hn Hpre Hok Herr Hnz.
  destruct (recv_loop_skips getpid pre (RecvData data :: rest) c errno sent
              Hwf Hl Hn Hpre) as (c' & errno' & -> & Hwf' & Hl' & _).
  eexists. by apply recv_loop_error.
Qed.

(** C2.  Let the loop read a well-formed error frame, after any number of
    reads that are retried and of messages of other exchanges.  With a
    code other than zero sstp_route_recv returns -1 with errno set to the
    negated code, and so do sstp_route_replace, sstp_route_delete and
    sstp_route_get, the latter leaving the route of the caller alone; with
    the code zero the frame is no error: if it answers the request,
    sstp_route_recv returns the length read. *)
Theorem kernel_error_frame_fails c errno sent pre data rest code route dst out :
  send_all send → msg_ok data → error_frame data code →
  let w := mk_io errno (pre ++ RecvData data :: rest) sent in
  (code ≠ 0 →
     (ctx_wf c → 0 < nlmsg_len (ctx_buf c) → Forall (skipped getpid (ctx_seq c)) pre →
        ∃ c', sstp_route_recv getpid c w
              = Done (-1, c', mk_io (wrap_i32 (- code)) rest sent))
     ∧ (route_valid route → Forall (skipped getpid (wrap_i32 (ctx_seq c + 1))) pre →
          (∃ c' sent', sstp_route_replace getpid send c route w
                       = Done (-1, c', mk_io (wrap_i32 (- code)) rest sent'))
          ∧ (∃ c' sent', sstp_route_delete getpid send c route w
                         = Done (-1, c', mk_io (wrap_i32 (- code)) rest sent')))
     ∧ (dst_valid dst → Forall (skipped getpid (wrap_i32 (ctx_seq c + 1))) pre →
          ∃ c' sent', sstp_route_get getpid send if_indextoname c dst out w
                      = Done (-1, c', out, mk_io (wrap_i32 (- code)) rest sent')))
  ∧ (code = 0 →
     ctx_wf c → 0 < nlmsg_len (ctx_buf c) → Forall (skipped getpid (ctx_seq c)) pre →
     correlated getpid c data →
     ∃ c' errno', sstp_route_recv getpid c w
                  = Done (Z.min (Z.of_nat (length data)) sizeof_buf, c',
                          mk_io errno' rest sent)
       ∧ 16 ≤ Z.min (Z.of_nat (length data)) sizeof_buf).
Proof.
  intros Hsend Hok Herr w. split.
  - intros Hnz. split; [|split].
    + intros Hwf Hn Hpre. unfold sstp_route_recv, w. cbn [io_inbox io_errno io_sent].
      by apply (recv_loop_skips_error _ _ _ _ _ _ code).
    + intros Hv Hpre.
      destruct (newmsg_valid getpid c route RTM_NEWROUTE
                  (Z.lor NLM_F_CREATE NLM_F_REPLACE) Hv)
        as (c1 & Hn1 & Hb1 & Hs1 & Hq1 & _).
      destruct (newmsg_valid getpid c route RTM_DELROUTE 0 Hv)
        as (c2 & Hn2 & Hb2 & Hs2 & Hq2 & _).
      pose proof (attrs_space_nonneg (route_attrs route)) as Hnn.
      pose proof Hb1 as (_ & Hl1 & _). pose proof Hb2 as (_ & Hl2 & _).
      unfold sizeof_nlmsghdr, sizeof_rtmsg in Hl1, Hl2.
      unfold sstp_route_replace, sstp_route_delete. rewrite Hn1, Hn2, !run_bind_Done.
      destruct (Z.ltb_spec (28 + attrs_space (route_attrs route)) 0); [lia|].
      rewrite !talk_send_all by
        (first [done | by eapply built_wf | unfold sizeof_buf; lia]).
      unfold w. cbn [io_inbox io_errno io_sent].
      destruct (recv_loop_skips_error (set_len c1 0) errno
                  (sent ++ [take (Z.to_nat (28 + attrs_space (route_attrs route)))
                              (ctx_buf c1)]) pre data rest code) as (c1' & ->);
        [eapply set_len_wf, built_wf; eassumption|done|cbn; lia
        |cbn; by rewrite Hq1|done..|].
      destruct (recv_loop_skips_error (set_len c2 0) errno
                  (sent ++ [take (Z.to_nat (28 + attrs_space (route_attrs route)))
                              (ctx_buf c2)]) pre data rest code) as (c2' & ->);
        [eapply set_len_wf, built_wf; eassumption|done|cbn; lia
        |cbn; by rewrite Hq2|done..|].
      rewrite !run_bind_Done. cbn. split; by do 2 eexists.
    + intros Hd Hpre.
      destruct (get_request_ok getpid c dst Hd) as (c1 & Hr & Hb & _ & _ & _ & Hq & _).
      pose proof Hb as (_ & Hn & _). unfold sizeof_nlmsghdr, sizeof_rtmsg in Hn.
      assert (attrs_space [(RTA_DST, sa_addr dst)] ≤ 20) as Hsp.
      { rewrite attrs_space_cons. cbn [snd].
        pose proof (RTA_SPACE_bounds (Z.of_nat (length (sa_addr dst)))).
        change (attrs_space []) with 0. destruct Hd as [[_ Hl]|[_ Hl]]; rewrite Hl in *; dlia. }
      pose proof (attrs_space_nonneg [(RTA_DST, sa_addr dst)]) as Hnn.
      unfold sstp_route_get. rewrite Hr, run_bind_Done.
      rewrite Hn, wrap_i32_small by lia.
      rewrite talk_send_all by
        (first [done | by eapply built_wf | unfold sizeof_buf; lia]).
      unfold w. cbn [io_inbox io_errno io_sent].
      destruct (recv_loop_skips_error (set_len c1 0) errno
                  (sent ++ [take (Z.to_nat (16 + 12 + attrs_space [(RTA_DST, sa_addr dst)]))
                              (ctx_buf c1)]) pre data rest code) as (c1' & ->);
        [eapply set_len_wf, built_wf; eassumption|done|cbn; lia
        |cbn; by rewrite Hq|done..|].
      rewrite run_bind_Done. cbn. by do 2 eexists.
  - intros -> Hwf Hn Hpre Hc. unfold sstp_route_recv, w.
    cbn [io_inbox io_errno io_sent].
    destruct (recv_loop_skips getpid pre (RecvData data :: rest) (set_len c 0) errno sent)
      as (c' & errno' & -> & Hwf' & Hl' & Hq' & _); [done..|].
    exists (set_len (recv_ctx c' data) (recv_len c' data)), errno'.
    rewrite <- (recv_len_eq c' data Hl'). split.
    + apply recv_loop_correlated; try done; [by right|].
      destruct Hc as [Hs Hp]. split; [by rewrite Hq'|done].
    + rewrite recv_len_eq by done. unfold msg_ok in Hok. lia.
Qed.

End ErrorFrames.

(** ** Walking and decoding the attributes of a response *)

Lemma RTA_OK_true buf rta rtl :
  RTA_OK buf rta rtl = true ↔ 4 ≤ rtl ∧ 4 ≤ rta_len buf rta ∧ rta_len buf rta ≤ rtl.
Proof. unfold RTA_OK, sizeof_rtattr. rewrite !andb_true_iff, !Z.leb_le. tauto. Qed.

(** Every attribute that the walk visits lies inside the region. *)
Lemma rta_walk_in_range fuel buf off rtl o :
  o ∈ rta_walk fuel buf off rtl →
  off ≤ o ∧ 4 ≤ rta_len buf o ∧ o + rta_len buf o ≤ off + rtl.
Proof.
  revert off rtl. induction fuel as [|fuel IH]; intros off rtl; cbn [rta_walk].
  - by intros ?%elem_of_nil.
  - destruct (RTA_OK buf off rtl) eqn:Hok; [|by intros ?%elem_of_nil].
    apply RTA_OK_true in Hok as (? & ? & ?).
    pose proof (RTA_ALIGN_bounds (rta_len buf off)).
    intros [->|Hin]%elem_of_cons; [lia|]. apply IH in Hin. lia.
Qed.

(** The walk depends on the bytes of the region only. *)
Lemma rta_walk_same fuel b1 b2 off rtl :
  0 ≤ off → same_on b1 b2 off (off + rtl) →
  rta_walk fuel b1 off rtl = rta_walk fuel b2 off rtl.
Proof.
  revert off rtl. induction fuel as [|fuel IH]; intros off rtl Hoff Hs; [done|].
  cbn [rta_walk]. unfold RTA_OK, sizeof_rtattr.
  destruct (Z.leb_spec 4 rtl); [|done].
  assert (rta_len b1 off = rta_len b2 off) as ->
    by (apply (same_on_u16 _ _ _ _ _ Hs); lia).
  destruct (Z.leb_spec 4 (rta_len b2 off)); [|done].
  destruct (Z.leb_spec (rta_len b2 off) rtl); [|done]. cbn [andb].
  pose proof (RTA_ALIGN_bounds (rta_len b2 off)).
  f_equal. apply IH; [lia|]. eapply same_on_sub; [apply Hs|lia..].
Qed.

Lemma attr_at_same b1 b2 lo hi o :
  same_on b1 b2 lo hi → 0 ≤ lo ≤ o → 4 ≤ rta_len b2 o → o + rta_len b2 o ≤ hi →
  attr_at b1 o = attr_at b2 o.
Proof.
  intros Hs ? ? ?. unfold attr_at, RTA_PAYLOAD, rta_type, RTA_DATA.
  change (RTA_LENGTH 0) with 4.
  assert (rta_len b1 o = rta_len b2 o) as ->
    by (apply (same_on_u16 _ _ _ _ _ Hs); lia).
  rewrite (same_on_u16 _ _ _ _ _ Hs) by lia.
  by rewrite (same_on_bytes _ _ _ _ _ _ Hs) by lia.
Qed.

Lemma length_get_bytes buf off n :
  0 ≤ off → off + Z.of_nat n ≤ Z.of_nat (length buf) → length (get_bytes buf off n) = n.
Proof. intros. unfold get_bytes. rewrite length_take, length_drop. lia. Qed.

Lemma copy_into_Some obj src :
  (length src ≤ length obj)%nat → copy_into obj src = Some (put_bytes obj 0 src).
Proof. intros. unfold copy_into. apply store_Some; lia. Qed.

Section DecoderFacts.

Variable if_indextoname : Z → option string.

Lemma route_init_sized family : route_sized (route_init family).
Proof. done. Qed.

Lemma apply_attr_sized r a : route_sized r → route_sized (apply_attr if_indextoname r a).
Proof.
  intros (? & ? & ?). unfold apply_attr, route_sized.
  repeat case_match; cbn; rewrite ?length_put_bytes; done.
Qed.

(** One pass of the switch is [apply_attr] on the parsed attribute. *)
Lemma decode_attr_apply buf r rta :
  route_sized r → attr_fits (attr_at buf rta) → 0 ≤ rta →
  4 ≤ rta_len buf rta → rta + rta_len buf rta ≤ Z.of_nat (length buf) →
  decode_attr if_indextoname buf r rta
  = Done (apply_attr if_indextoname r (attr_at buf rta)).
Proof.
  intros (Hd & Hs & Hg) [Hoif Haddr] Hrta Hlen Hin.
  unfold decode_attr, apply_attr, attr_at in *. cbn [fst snd] in *.
  unfold RTA_PAYLOAD, RTA_DATA in *. change (RTA_LENGTH 0) with 4 in *.
  set (payload := get_bytes buf (rta + 4) (Z.to_nat (rta_len buf rta - 4))) in *.
  assert (length payload = Z.to_nat (rta_len buf rta - 4)) as Hpl
    by (apply length_get_bytes; lia).
  destruct (Z.eqb_spec (rta_type buf rta) RTA_OIF) as [Ht|_].
  - specialize (Hoif Ht).
    assert (load buf (rta + 4) 4 = Some payload) as ->.
    { unfold load, in_bounds. rewrite bool_decide_eq_true_2 by lia.
      unfold payload. by replace (Z.to_nat (rta_len buf rta - 4)) with 4%nat by lia. }
    cbn [checked]. rewrite run_bind_Done.
    rewrite copy_into_Some by (destruct (if_indextoname _); rewrite length_le_encode; lia).
    done.
  - destruct (Z.eqb_spec (rta_type buf rta) RTA_GATEWAY) as [Ht|_].
    { rewrite copy_into_Some by (rewrite Hg; apply Haddr; tauto). done. }
    destruct (Z.eqb_spec (rta_type buf rta) RTA_PREFSRC) as [Ht|_].
    { rewrite copy_into_Some by (rewrite Hs; apply Haddr; tauto). done. }
    destruct (Z.eqb_spec (rta_type buf rta) RTA_DST) as [Ht|_]; [|done].
    rewrite copy_into_Some by (rewrite Hd; apply Haddr; tauto). done.
Qed.

(** The for loop is a left fold of [apply_attr] over the parsed
    attributes. *)
Lemma decode_attrs_apply buf r rtas :
  route_sized r →
  Forall (λ rta, attr_fits (attr_at buf rta) ∧ 0 ≤ rta ∧ 4 ≤ rta_len buf rta
                 ∧ rta + rta_len buf rta ≤ Z.of_nat (length buf)) rtas →
  decode_attrs if_indextoname buf r rtas
  = Done (foldl (apply_attr if_indextoname) r (attr_at buf <$> rtas)).
Proof.
  revert r. induction rtas as [|rta rtas IH]; intros r Hr Hall; [done|].
  apply Forall_cons in Hall as [(Hf & ? & ? & ?) Hall]. cbn [decode_attrs].
  rewrite decode_attr_apply, run_bind_Done by done. cbn [fmap list_fmap foldl].
  apply IH; [by apply apply_attr_sized|done].
Qed.

End DecoderFacts.

(** ** The route that a list of attributes gives *)

Lemma put_bytes_padded p :
  (length p ≤ sizeof_addr)%nat → put_bytes (replicate sizeof_addr 0) 0 p = padded p.
Proof.
  intros Hp. unfold put_bytes, padded. change (Z.to_nat 0) with 0%nat.
  replace sizeof_addr with (length p + (sizeof_addr - length p))%nat at 1 by lia.
  rewrite replicate_add. apply list_inserts_0_r. by rewrite length_replicate.
Qed.

Lemma put_bytes_whole obj p : length p = length obj → put_bytes obj 0 p = p.
Proof.
  intros Hp. unfold put_bytes. change (Z.to_nat 0) with 0%nat.
  rewrite <- (app_nil_r obj). rewrite list_inserts_0_r by done. apply app_nil_r.
Qed.

Section AttributeFacts.

Variable if_indextoname : Z → option string.

Local Abbreviation step := (apply_attr if_indextoname).

Local Ltac cases a :=
  unfold apply_attr, known_type in *; destruct a as [t p]; cbn [fst snd] in *;
  destruct (Z.eqb_spec t RTA_OIF); [destruct (if_indextoname _)|];
  destruct (Z.eqb_spec t RTA_GATEWAY);
  destruct (Z.eqb_spec t RTA_PREFSRC);
  destruct (Z.eqb_spec t RTA_DST); subst; try done.

Lemma apply_attr_unknown r a : known_type a.1 = false → step r a = r.
Proof. intros. by cases a. Qed.

Lemma apply_attr_family r a :
  rt_family (step r a) = rt_family r ∧ rt_blen (step r a) = rt_blen r.
Proof. by cases a. Qed.

Lemma apply_attr_have r a :
  have_dst (rt_have (step r a)) = have_dst (rt_have r) || (a.1 =? RTA_DST)
  ∧ have_src (rt_have (step r a)) = have_src (rt_have r) || (a.1 =? RTA_PREFSRC)
  ∧ have_gwy (rt_have (step r a)) = have_gwy (rt_have r) || (a.1 =? RTA_GATEWAY)
  ∧ have_oif (rt_have (step r a)) = have_oif (rt_have r) || (a.1 =? RTA_OIF).
Proof. cases a; cbn; by rewrite ?orb_true_r, ?orb_false_r. Qed.

Lemma apply_attr_other r a :
  (a.1 ≠ RTA_DST → rt_dst (step r a) = rt_dst r)
  ∧ (a.1 ≠ RTA_PREFSRC → rt_src (step r a) = rt_src r)
  ∧ (a.1 ≠ RTA_GATEWAY → rt_gwy (step r a) = rt_gwy r)
  ∧ (a.1 ≠ RTA_OIF → rt_oif (step r a) = rt_oif r ∧ rt_ifname (step r a) = rt_ifname r).
Proof. by cases a. Qed.

Lemma apply_attr_this r p :
  rt_dst (step r (RTA_DST, p)) = put_bytes (rt_dst r) 0 p
  ∧ rt_src (step r (RTA_PREFSRC, p)) = put_bytes (rt_src r) 0 p
  ∧ rt_gwy (step r (RTA_GATEWAY, p)) = put_bytes (rt_gwy r) 0 p
  ∧ (length p = 4%nat → rt_oif (step r (RTA_OIF, p)) = wrap_i32 (le_decode p)).
Proof.
  repeat split; try done. intros Hp. unfold apply_attr. cbn [fst snd].
  change (RTA_OIF =? RTA_OIF) with true. cbv iota.
  destruct (if_indextoname _); cbn [rt_oif set_oif set_have set_ifname];
    by rewrite put_bytes_whole by (by rewrite length_le_encode).
Qed.

Lemma apply_attr_ifname r a :
  (a.1 = RTA_OIF → if_indextoname (le_decode a.2) = None) →
  rt_ifname (step r a) = rt_ifname r.
Proof.
  intros H. unfold apply_attr. destruct (Z.eqb_spec a.1 RTA_OIF) as [Ht|];
    [rewrite (H Ht); done|]. by repeat case_match.
Qed.

(** Unknown attribute types are skipped. *)
Lemma foldl_apply_known r attrs :
  foldl step r attrs = foldl step r (filter (λ a, Is_true (known_type a.1)) attrs).
Proof.
  revert r. induction attrs as [|a attrs IH]; intros r; [done|]. cbn [foldl].
  destruct (known_type a.1) eqn:Hk.
  - rewrite filter_cons_True by (rewrite Hk; exact I). cbn [foldl]. apply IH.
  - rewrite filter_cons_False by (rewrite Hk; exact id).
    rewrite apply_attr_unknown by done. apply IH.
Qed.

Lemma foldl_apply_family r attrs :
  rt_family (foldl step r attrs) = rt_family r
  ∧ rt_blen (foldl step r attrs) = rt_blen r.
Proof.
  revert r. induction attrs as [|a attrs IH]; intros r; [done|]. cbn [foldl].
  destruct (IH (step r a)) as [-> ->]. apply apply_attr_family.
Qed.

Lemma elem_of_types t (attrs : list (Z * list Z)) a :
  bool_decide (t ∈ (a :: attrs).*1) = (a.1 =? t) || bool_decide (t ∈ attrs.*1).
Proof.
  cbn [fmap list_fmap]. destruct (Z.eqb_spec a.1 t) as [->|Hne]; cbn [orb].
  - apply bool_decide_eq_true_2, elem_of_cons. by left.
  - apply bool_decide_ext. rewrite elem_of_cons. intuition congruence.
Qed.

(** A presence flag is set exactly when the attribute occurs. *)
Lemma foldl_apply_have r attrs :
  let r' := foldl step r attrs in
  have_dst (rt_have r') = have_dst (rt_have r) || bool_decide (RTA_DST ∈ attrs.*1)
  ∧ have_src (rt_have r') = have_src (rt_have r) || bool_decide (RTA_PREFSRC ∈ attrs.*1)
  ∧ have_gwy (rt_have r') = have_gwy (rt_have r) || bool_decide (RTA_GATEWAY ∈ attrs.*1)
  ∧ have_oif (rt_have r') = have_oif (rt_have r) || bool_decide (RTA_OIF ∈ attrs.*1).
Proof.
  cbv zeta. revert r. induction attrs as [|a attrs IH]; intros r.
  - cbn. by rewrite !orb_false_r.
  - cbn [foldl]. destruct (IH (step r a)) as (-> & -> & -> & ->).
    destruct (apply_attr_have r a) as (-> & -> & -> & ->).
    rewrite !elem_of_types, !orb_assoc. done.
Qed.

(** Attributes of other types leave a field alone. *)
Lemma foldl_apply_other r attrs :
  let r' := foldl step r attrs in
  (RTA_DST ∉ attrs.*1 → rt_dst r' = rt_dst r)
  ∧ (RTA_PREFSRC ∉ attrs.*1 → rt_src r' = rt_src r)
  ∧ (RTA_GATEWAY ∉ attrs.*1 → rt_gwy r' = rt_gwy r)
  ∧ (RTA_OIF ∉ attrs.*1 → rt_oif r' = rt_oif r).
Proof.
  cbv zeta. revert r. induction attrs as [|a attrs IH]; intros r; [done|].
  cbn [foldl fmap list_fmap]. destruct (IH (step r a)) as (H1 & H2 & H3 & H4).
  destruct (apply_attr_other r a) as (G1 & G2 & G3 & G4).
  repeat split; intros Hn; apply not_elem_of_cons in Hn as [Hne Hn].
  - rewrite H1, G1; done.
  - rewrite H2, G2; done.
  - rewrite H3, G3; done.
  - rewrite H4 by done. by apply G4.
Qed.

(** The only attribute of its type fills the zeroed field. *)
Lemma foldl_apply_only family attrs p :
  let r' := foldl step (route_init family) attrs in
  (only_attr RTA_DST p attrs → (length p ≤ sizeof_addr)%nat → rt_dst r' = padded p)
  ∧ (only_attr RTA_PREFSRC p attrs → (length p ≤ sizeof_addr)%nat → rt_src r' = padded p)
  ∧ (only_attr RTA_GATEWAY p attrs → (length p ≤ sizeof_addr)%nat → rt_gwy r' = padded p)
  ∧ (only_attr RTA_OIF p attrs → length p = 4%nat → rt_oif r' = wrap_i32 (le_decode p)).
Proof.
  cbv zeta. repeat split; intros (l1 & l2 & -> & Hn1 & Hn2) Hp;
    rewrite foldl_app; cbn [foldl];
    set (r1 := foldl step (route_init family) l1);
    pose proof (foldl_apply_other (step r1 (RTA_DST, p)) l2) as (Hd2 & _);
    pose proof (foldl_apply_other (step r1 (RTA_PREFSRC, p)) l2) as (_ & Hs2 & _);
    pose proof (foldl_apply_other (step r1 (RTA_GATEWAY, p)) l2) as (_ & _ & Hg2 & _);
    pose proof (foldl_apply_other (step r1 (RTA_OIF, p)) l2) as (_ & _ & _ & Ho2);
    pose proof (foldl_apply_other (route_init family) l1) as (Hd1 & Hs1 & Hg1 & _);
    pose proof (apply_attr_this r1 p) as (Hd & Hs & Hg & Ho); cbv zeta in *.
  - rewrite Hd2, Hd by done. unfold r1. rewrite Hd1 by done. by apply put_bytes_padded.
  - rewrite Hs2, Hs by done. unfold r1. rewrite Hs1 by done. by apply put_bytes_padded.
  - rewrite Hg2, Hg by done. unfold r1. rewrite Hg1 by done. by apply put_bytes_padded.
  - rewrite Ho2 by done. by apply Ho.
Qed.

(** When no interface index resolves to a name the name stays as it
    was. *)
Lemma foldl_apply_ifname r attrs :
  (∀ a, a ∈ attrs → a.1 = RTA_OIF → if_indextoname (le_decode a.2) = None) →
  rt_ifname (foldl step r attrs) = rt_ifname r.
Proof.
  revert r. induction attrs as [|a attrs IH]; intros r H; [done|]. cbn [foldl].
  rewrite IH by (intros; apply H; [apply elem_of_cons; by right|done]).
  apply apply_attr_ifname, H. apply elem_of_cons. by left.
Qed.

End AttributeFacts.

(** ** Claims about sstp_route_get *)

Section GetFacts.

Variable getpid : Z.
Variable send : list Z → Z.
Variable if_indextoname : Z → option string.

(** The loop does not touch the log of the datagrams sent. *)
Lemma recv_loop_sent inbox c errno sent v c' w' :
  recv_loop getpid inbox c errno sent = Done (v, c', w') → io_sent w' = sent.
Proof.
  revert c errno. induction inbox as [|ev inbox IH]; intros c errno; [done|].
  cbn [recv_loop]. destruct (recv_body getpid c errno ev) as [[fl c1] e1].
  destruct fl; [by intros [= _ _ <-]..|].
  destruct (recv_again c1); [apply IH|by intros [= _ _ <-]].
Qed.

Lemma talk_sent c data size w v c' w' :
  sstp_route_talk getpid send c data size w = Done (v, c', w') →
  io_sent w' = io_sent w ++ [take (Z.to_nat size) data].
Proof.
  unfold sstp_route_talk. destruct (negb _); [by intros [= _ _ <-]|].
  unfold sstp_route_recv. cbn [io_inbox io_errno io_sent]. apply recv_loop_sent.
Qed.

(** The bytes of a datagram at the start of the buffer. *)
Lemma received_same c data :
  ctx_wf c → ctx_len c = 0 →
  same_on (ctx_buf (recv_ctx c data)) data 0 (Z.min (Z.of_nat (length data)) sizeof_buf).
Proof.
  unfold ctx_wf, sizeof_buf. intros Hwf Hl i Hi. unfold recv_ctx, recv_into. cbn.
  rewrite Hl. change (sizeof_buf - 0) with 1024. change (Z.to_nat 0) with 0%nat.
  unfold put_bytes. change (Z.to_nat 0) with 0%nat.
  rewrite list_lookup_inserts by (rewrite ?length_take; lia).
  rewrite lookup_take_lt by lia. f_equal. lia.
Qed.

(** Decoding the response in the buffer is decoding the attributes of
    the datagram. *)
Lemma decode_received buf resp r :
  length buf = Z.to_nat sizeof_buf →
  28 ≤ nlmsg_len resp ≤ sizeof_buf →
  same_on buf resp 0 (nlmsg_len resp) →
  route_sized r → Forall attr_fits (parse_attrs resp) →
  decode_attrs if_indextoname buf r (rta_offsets buf RTM_RTA (RTM_PAYLOAD buf))
  = Done (foldl (apply_attr if_indextoname) r (parse_attrs resp)).
Proof.
  unfold sizeof_buf. intros Hlen Hn Hs Hr Hfit.
  assert (nlmsg_len buf = nlmsg_len resp) as Hnl
    by (apply (same_on_u32 _ _ _ _ _ Hs); lia).
  assert (RTM_PAYLOAD buf = nlmsg_len resp - 28 ∧ RTM_PAYLOAD resp = nlmsg_len resp - 28)
    as [Hp1 Hp2].
  { unfold RTM_PAYLOAD. rewrite Hnl. change (NLMSG_SPACE sizeof_rtmsg) with 28.
    by rewrite to_u32_small, wrap_i32_small by lia. }
  unfold parse_attrs in *. rewrite Hp1, Hp2. rewrite Hp2 in Hfit.
  change RTM_RTA with 28 in *.
  unfold rta_offsets in *.
  assert (rta_walk (Z.to_nat (nlmsg_len resp - 28)) buf 28 (nlmsg_len resp - 28)
          = rta_walk (Z.to_nat (nlmsg_len resp - 28)) resp 28 (nlmsg_len resp - 28))
    as Hw by (apply rta_walk_same; [lia|]; eapply same_on_sub; [apply Hs|lia..]).
  rewrite Hw.
  set (offs := rta_walk _ resp 28 _) in *.
  assert (∀ o, o ∈ offs → 28 ≤ o ∧ 4 ≤ rta_len resp o
                         ∧ o + rta_len resp o ≤ nlmsg_len resp) as Hin.
  { intros o Ho. apply rta_walk_in_range in Ho. lia. }
  assert (attr_at buf <$> offs = attr_at resp <$> offs) as Hat.
  { apply Forall_fmap_ext, Forall_forall. intros o Ho.
    destruct (Hin o Ho) as (? & ? & ?).
    apply (attr_at_same _ _ 0 (nlmsg_len resp)); [done|lia..]. }
  rewrite decode_attrs_apply; [by rewrite Hat|done|].
  apply Forall_forall. intros o Ho. destruct (Hin o Ho) as (? & ? & ?).
  assert (rta_len buf o = rta_len resp o) as ->
    by (apply (same_on_u16 _ _ _ _ _ Hs); lia).
  rewrite (attr_at_same _ _ 0 (nlmsg_len resp)) by (done || lia).
  split; [|lia]. rewrite Forall_fmap, Forall_forall in Hfit. by apply Hfit.
Qed.

(** The exchange of sstp_route_get when the response to the request
    arrives after events that the loop passes over. *)
Lemma get_exchange c dst out errno sent pre resp rest :
  send_all send → dst_valid dst →
  Forall (skipped getpid (wrap_i32 (ctx_seq c + 1))) pre →
  route_response getpid c resp →
  ∃ c2 errno' sent',
    ctx_wf c2 ∧ same_on (ctx_buf c2) resp 0 (nlmsg_len resp)
    ∧ nlmsg_len resp ≤ sizeof_buf
    ∧ rtm_family (ctx_buf c2) = rtm_family resp
    ∧ sstp_route_get getpid send if_indextoname c dst out
        (mk_io errno (pre ++ RecvData resp :: rest) sent)
      = if negb (rtm_family resp =? AF_INET) && negb (rtm_family resp =? AF_INET6)
        then Done (-1, c2, out, mk_io errno' rest sent')
        else route' ← decode_attrs if_indextoname (ctx_buf c2)
                         (route_init (rtm_family resp))
                         (rta_offsets (ctx_buf c2) RTM_RTA (RTM_PAYLOAD (ctx_buf c2)));
             Done (0, c2, route', mk_io errno' rest sent').
Proof.
  intros Hsend Hd Hpre (Hok & Hne & H28 & Hseq & Hpid).
  destruct (get_request_ok getpid c dst Hd) as (c1 & Hr & Hb & _ & _ & _ & Hs1 & _).
  pose proof Hb as (_ & Hn & _). unfold sizeof_nlmsghdr, sizeof_rtmsg in Hn.
  assert (attrs_space [(RTA_DST, sa_addr dst)] ≤ 20) as Hsp.
  { rewrite attrs_space_cons. cbn [snd].
    pose proof (RTA_SPACE_bounds (Z.of_nat (length (sa_addr dst)))).
    change (attrs_space []) with 0. destruct Hd as [[_ Hl]|[_ Hl]]; rewrite Hl in *; dlia. }
  pose proof (attrs_space_nonneg [(RTA_DST, sa_addr dst)]) as Hnn.
  assert (ctx_wf (set_len c1 0)) as Hwf1 by (eapply set_len_wf, built_wf; eassumption).
  destruct (recv_loop_skips getpid pre (RecvData resp :: rest) (set_len c1 0) errno
              (sent ++ [take (Z.to_nat (16 + 12 + attrs_space [(RTA_DST, sa_addr dst)]))
                          (ctx_buf c1)]))
    as (c1' & errno' & Hskip & Hwf & Hl0 & Hq & _);
    [done|done|cbn; lia|cbn; by rewrite Hs1|].
  cbn [ctx_seq set_len] in Hq.
  assert (correlated getpid c1' resp) as Hc by (split; [by rewrite Hseq, Hq, Hs1|done]).
  pose proof (received_ok _ _ Hwf Hl0 Hok) as Hnl.
  pose proof (received_same _ resp Hwf Hl0) as Hsame.
  pose proof (recv_len_eq c1' resp Hl0) as Hlen.
  unfold msg_ok in Hok. unfold sizeof_buf in *.
  exists (set_len (recv_ctx c1' resp) (recv_len c1' resp)), errno'.
  eexists. split; [by apply set_len_wf, recv_ctx_wf|].
  split; [eapply same_on_sub; [apply Hsame|lia..]|]. split; [lia|].
  assert (rtm_family (ctx_buf (recv_ctx c1' resp)) = rtm_family resp) as Hfam.
  { unfold rtm_family. change (NLMSG_DATA + 0) with 16.
    apply (same_on_u8 _ _ _ _ _ Hsame). lia. }
  split; [done|].
  unfold sstp_route_get. rewrite Hr, run_bind_Done.
  rewrite Hn, wrap_i32_small by lia.
  rewrite talk_send_all by
    (first [done | by eapply built_wf | unfold sizeof_buf; lia]).
  cbn [io_inbox io_errno io_sent]. rewrite Hskip.
  rewrite recv_loop_correlated by done. rewrite run_bind_Done.
  cbn [ctx_buf set_len]. rewrite Hnl, Hfam. cbn [negb].
  destruct (Z.ltb_spec (recv_len c1' resp) 0); [lia|]. done.
Qed.

End GetFacts.

Section GetClaims.

Variable getpid : Z.
Variable send : list Z → Z.
Variable if_indextoname : Z → option string.

(** C6.  For a destination of family IPv4 or IPv6 the request of
    sstp_route_get is an RTM_GETROUTE message whose route message holds
    the family of the destination and a destination prefix of 32 bits
    for IPv4 and of 128 bits for IPv6, with no source prefix, protocol,
    scope or type, and which carries exactly one attribute, the
    destination address; this message is the datagram that
    sstp_route_get hands to send. *)
Theorem get_request_carries_destination c dst :
  dst_valid dst →
  ∃ c1, get_request getpid c dst = Done c1
    ∧ nlmsg_type (ctx_buf c1) = RTM_GETROUTE
    ∧ rtm_family (ctx_buf c1) = sa_family dst
    ∧ rtm_dst_len (ctx_buf c1) = (if sa_family dst =? AF_INET then 32 else 128)
    ∧ rtm_src_len (ctx_buf c1) = 0 ∧ rtm_tos (ctx_buf c1) = 0
    ∧ rtm_protocol (ctx_buf c1) = 0 ∧ rtm_scope (ctx_buf c1) = 0
    ∧ rtm_type (ctx_buf c1) = 0 ∧ rtm_table (ctx_buf c1) = RT_TABLE_MAIN
    ∧ parse_attrs (ctx_buf c1) = [(RTA_DST, sa_addr dst)]
    ∧ (∀ out w ret c' out' w',
         sstp_route_get getpid send if_indextoname c dst out w = Done (ret, c', out', w') →
         io_sent w' = io_sent w
                      ++ [take (Z.to_nat (nlmsg_len (ctx_buf c1))) (ctx_buf c1)]).
Proof.
  intros Hd.
  destruct (get_request_ok getpid c dst Hd)
    as (c1 & Hr & Hb & Hfam & Hdl & Htab & _ & _ & _ & Hrest).
  pose proof (nlmsg_header_fields RTM_GETROUTE NLM_F_REQUEST
                (wrap_i32 (ctx_seq c + 1)) getpid) as (Hty & _).
  assert (attrs_space [(RTA_DST, sa_addr dst)] ≤ 20) as Hsp.
  { rewrite attrs_space_cons. cbn [snd].
    pose proof (RTA_SPACE_bounds (Z.of_nat (length (sa_addr dst)))).
    change (attrs_space []) with 0. destruct Hd as [[_ Hl]|[_ Hl]]; rewrite Hl in *; dlia. }
  pose proof (attrs_space_nonneg [(RTA_DST, sa_addr dst)]) as Hnn.
  exists c1. split; [done|]. split.
  { unfold nlmsg_type, get_u16 in *. rewrite !Hrest by lia. apply Hty. }
  split; [done|]. split.
  { rewrite Hdl. destruct Hd as [[-> ->]|[-> ->]]; done. }
  unfold rtm_src_len, rtm_tos, rtm_protocol, rtm_scope, rtm_type.
  change NLMSG_DATA with 16.
  rewrite !Hrest, !nlmsg_header_body by lia.
  repeat (split; [done|]). split; [apply built_parse; [done|lia]|].
  intros out w ret c' out' w' Hrun. unfold sstp_route_get in Hrun.
  rewrite Hr, run_bind_Done in Hrun.
  apply run_bind_inv in Hrun as ([[len c2] w2] & Ht & Hrun).
  apply talk_sent in Ht. destruct Hb as (_ & Hn & _).
  unfold sizeof_nlmsghdr, sizeof_rtmsg in Hn.
  rewrite wrap_i32_small in Ht by lia. rewrite <- Ht.
  repeat case_match; try (by injection Hrun as _ _ _ <-).
  apply run_bind_inv in Hrun as (r' & _ & Hrun). by injection Hrun as _ _ _ <-.
Qed.

(** C10.  Whenever sstp_route_get returns, it returns 0 or -1; with -1
    the route of the caller is as it was before the call, and with 0 the
    response in the buffer had passed NLMSG_OK and its family is IPv4 or
    IPv6.  The error returns are these: the exchange returns a negative
    value (the send or the receive failed), the response does not pass
    NLMSG_OK, or its family is neither IPv4 nor IPv6; each gives -1 with
    the route untouched. *)
Theorem get_failure_leaves_route c dst route w :
  (∀ ret c' route' w',
     sstp_route_get getpid send if_indextoname c dst route w = Done (ret, c', route', w') →
     (ret = 0 ∨ ret = -1)
     ∧ (ret ≠ 0 → route' = route)
     ∧ (ret = 0 →
          (∃ len, 0 ≤ len ∧ NLMSG_OK (ctx_buf c') len = true)
          ∧ (rtm_family (ctx_buf c') = AF_INET ∨ rtm_family (ctx_buf c') = AF_INET6)))
  ∧ (∀ c1 len c2 w2,
       get_request getpid c dst = Done c1 →
       sstp_route_talk getpid send c1 (ctx_buf c1)
         (wrap_i32 (nlmsg_len (ctx_buf c1))) w = Done (len, c2, w2) →
       len < 0 ∨ NLMSG_OK (ctx_buf c2) len = false
       ∨ (rtm_family (ctx_buf c2) ≠ AF_INET ∧ rtm_family (ctx_buf c2) ≠ AF_INET6) →
       sstp_route_get getpid send if_indextoname c dst route w = Done (-1, c2, route, w2)).
Proof.
  split.
  - unfold sstp_route_get. intros ret c' route' w' Hrun.
    apply run_bind_inv in Hrun as (c1 & _ & Hrun).
    apply run_bind_inv in Hrun as ([[len c2] w2] & _ & Hrun).
    destruct (Z.ltb_spec len 0);
      [injection Hrun as <- <- <- <-; split; [by right|split; [done|intros ?; lia]]|].
    destruct (NLMSG_OK (ctx_buf c2) len) eqn:Hok; cbn [negb] in Hrun;
      [|injection Hrun as <- <- <- <-; split; [by right|split; [done|intros ?; lia]]].
    destruct (Z.eqb_spec (rtm_family (ctx_buf c2)) AF_INET) as [Hf|Hf];
      cbn [negb andb] in Hrun.
    + apply run_bind_inv in Hrun as (r' & _ & Hrun). injection Hrun as <- <- <- <-.
      split; [by left|]. split; [done|]. intros _. split; [by exists len|by left].
    + destruct (Z.eqb_spec (rtm_family (ctx_buf c2)) AF_INET6) as [Hf6|Hf6];
        cbn [negb] in Hrun;
        [|injection Hrun as <- <- <- <-; split; [by right|split; [done|intros ?; lia]]].
      apply run_bind_inv in Hrun as (r' & _ & Hrun). injection Hrun as <- <- <- <-.
      split; [by left|]. split; [done|]. intros _. split; [by exists len|by right].
  - intros c1 len c2 w2 Hr Ht Hfail. unfold sstp_route_get.
    rewrite Hr, run_bind_Done, Ht, run_bind_Done.
    destruct (Z.ltb_spec len 0); [done|].
    destruct (NLMSG_OK (ctx_buf c2) len); cbn [negb]; [|done].
    destruct Hfail as [?|[?|[H4 H6]]]; [lia|done|].
    apply Z.eqb_neq in H4, H6. by rewrite H4, H6.
Qed.

(** C7.  Let sstp_route_get read the response to its request, after any
    number of reads that are retried and of messages of other exchanges.
    If the family of the response is neither IPv4 nor IPv6 the call
    returns -1.  Otherwise, when the payloads of the attributes fit their
    fields, it returns 0 with the route that the attributes of the
    response give, one after the other, from the zeroed route: the family
    is that of the response and the address length 4 for IPv4 and 16 for
    IPv6; a presence flag is set exactly when the response has an
    attribute of the type, so all four are set for a response with
    destination, gateway, source and output interface; the only attribute
    of a type fills its field; attributes of other types are skipped; and
    when the interface index does not resolve to a name the call still
    returns 0, with the name empty. *)
Theorem get_decodes_response c dst out errno sent pre resp rest :
  send_all send → dst_valid dst →
  Forall (skipped getpid (wrap_i32 (ctx_seq c + 1))) pre →
  route_response getpid c resp →
  let w := mk_io errno (pre ++ RecvData resp :: rest) sent in
  let fam := rtm_family resp in
  let attrs := parse_attrs resp in
  (fam ≠ AF_INET → fam ≠ AF_INET6 →
     ∃ c' w', sstp_route_get getpid send if_indextoname c dst out w
              = Done (-1, c', out, w'))
  ∧ (fam = AF_INET ∨ fam = AF_INET6 → Forall attr_fits attrs →
     ∃ c' w' route',
       sstp_route_get getpid send if_indextoname c dst out w = Done (0, c', route', w')
       ∧ route' = foldl (apply_attr if_indextoname) (route_init fam) attrs
       ∧ rt_family route' = fam
       ∧ (fam = AF_INET → rt_blen route' = 4)
       ∧ (fam = AF_INET6 → rt_blen route' = 16)
       ∧ have_dst (rt_have route') = bool_decide (RTA_DST ∈ attrs.*1)
       ∧ have_gwy (rt_have route') = bool_decide (RTA_GATEWAY ∈ attrs.*1)
       ∧ have_src (rt_have route') = bool_decide (RTA_PREFSRC ∈ attrs.*1)
       ∧ have_oif (rt_have route') = bool_decide (RTA_OIF ∈ attrs.*1)
       ∧ (∀ p, only_attr RTA_DST p attrs → rt_dst route' = padded p)
       ∧ (∀ p, only_attr RTA_GATEWAY p attrs → rt_gwy route' = padded p)
       ∧ (∀ p, only_attr RTA_PREFSRC p attrs → rt_src route' = padded p)
       ∧ (∀ p, only_attr RTA_OIF p attrs → rt_oif route' = wrap_i32 (le_decode p))
       ∧ route' = foldl (apply_attr if_indextoname) (route_init fam)
                    (filter (λ a, Is_true (known_type a.1)) attrs)
       ∧ ((∀ a, a ∈ attrs → a.1 = RTA_OIF → if_indextoname (le_decode a.2) = None) →
          rt_ifname route' = "")).
Proof.
  intros Hsend Hd Hpre Hresp w fam attrs.
  destruct (get_exchange getpid send if_indextoname c dst out errno sent pre resp rest
              Hsend Hd Hpre Hresp)
    as (c2 & errno' & sent' & Hwf & Hsame & Hmax & Hfam & Hget).
  fold w fam in Hget. destruct Hresp as (Hok & _ & H28 & _). split.
  - intros H4 H6. apply Z.eqb_neq in H4, H6. rewrite H4, H6 in Hget.
    cbn [negb andb] in Hget. by do 2 eexists.
  - intros Hf Hfit.
    assert (negb (fam =? AF_INET) && negb (fam =? AF_INET6) = false) as Hb
      by (destruct Hf as [-> | ->]; done).
    rewrite Hb in Hget.
    rewrite (decode_received if_indextoname _ resp) in Hget;
      [|done|lia|done|apply route_init_sized|done].
    rewrite run_bind_Done in Hget. fold attrs in Hget.
    set (route' := foldl (apply_attr if_indextoname) (route_init fam) attrs) in *.
    assert (∀ t p, only_attr t p attrs → attr_fits (t, p)) as Honly.
    { intros t p (l1 & l2 & Heq & _). rewrite Forall_forall in Hfit. apply Hfit.
      rewrite Heq, elem_of_app, elem_of_cons. auto. }
    pose proof (foldl_apply_family if_indextoname (route_init fam) attrs) as [Hrf Hrb].
    pose proof (foldl_apply_have if_indextoname (route_init fam) attrs)
      as (Hh1 & Hh2 & Hh3 & Hh4).
    exists c2, (mk_io errno' rest sent'), route'. fold route' in Hrf, Hrb, Hh1, Hh2, Hh3, Hh4.
    split; [done|]. split; [done|]. split; [done|].
    split; [intros E; rewrite Hrb; cbn; by rewrite E|].
    split; [intros E; rewrite Hrb; cbn; by rewrite E|].
    repeat (split; [done|]).
    split; [|split; [|split; [|split; [|split]]]].
    + intros p Hp. destruct (Honly _ _ Hp) as [_ Hl].
      apply (foldl_apply_only if_indextoname fam attrs p); [done|]. apply Hl. auto.
    + intros p Hp. destruct (Honly _ _ Hp) as [_ Hl].
      apply (foldl_apply_only if_indextoname fam attrs p); [done|]. apply Hl. auto.
    + intros p Hp. destruct (Honly _ _ Hp) as [_ Hl].
      apply (foldl_apply_only if_indextoname fam attrs p); [done|]. apply Hl. auto.
    + intros p Hp. destruct (Honly _ _ Hp) as [Hl _].
      apply (foldl_apply_only if_indextoname fam attrs p); [done|]. by apply Hl.
    + apply foldl_apply_known.
    + intros Hnone. unfold route'. by rewrite foldl_apply_ifname.
Qed.

End GetClaims.

(** ** Claims about the life cycle *)

Section LifeCycleClaims.

Variable socket : gset Z → Z.

Lemma done_live s a c :
  os_heap s !! a = Some c → 0 < ctx_sock c →
  sstp_route_done (Some a) s
  = Done (mk_os (delete a (os_heap s)) (os_fds s ∖ {[ctx_sock c]})
            (os_closed s ++ [ctx_sock c])).
Proof.
  intros Ha Hs. unfold sstp_route_done. rewrite Ha.
  destruct (Z.ltb_spec 0 (ctx_sock c)); [|lia].
  unfold os_free, os_update, os_close. cbn. by rewrite delete_insert_eq.
Qed.

Lemma done_released s a : os_heap s !! a = None → sstp_route_done (Some a) s = Undefined.
Proof. intros Ha. unfold sstp_route_done. by rewrite Ha. Qed.

(** C8 (amended).  sstp_route_done is a no-op on the null handle.  On a
    live handle whose descriptor is positive it closes that descriptor,
    with one call of close, and releases the block.  sstp_route_init
    that gets memory and a positive descriptor, followed by
    sstp_route_done, leaves the heap and the open descriptors as they
    were, with the one close of the new descriptor.  A second call on
    the same handle, which is released by then, is undefined. *)
Theorem done_releases_and_closes_once s :
  sstp_route_done None s = Done s
  ∧ (∀ a c, os_heap s !! a = Some c → 0 < ctx_sock c →
       ∃ s', sstp_route_done (Some a) s = Done s'
         ∧ os_heap s' = delete a (os_heap s)
         ∧ os_fds s' = os_fds s ∖ {[ctx_sock c]}
         ∧ os_closed s' = os_closed s ++ [ctx_sock c]
         ∧ sstp_route_done (Some a) s' = Undefined)
  ∧ (∀ pctx, 0 < socket (os_fds s) → socket (os_fds s) ∉ os_fds s →
       ∃ a s1, sstp_route_init true socket pctx s = (0, Some a, s1)
         ∧ socket (os_fds s) ∈ os_fds s1
         ∧ sstp_route_done (Some a) s1
           = Done (mk_os (os_heap s) (os_fds s) (os_closed s ++ [socket (os_fds s)]))).
Proof.
  split; [done|]. split.
  - intros a c Ha Hs. eexists. split; [by apply done_live|].
    cbn [os_heap os_fds os_closed]. repeat split.
    apply done_released. cbn [os_heap]. apply lookup_delete_eq.
  - intros pctx Hfd Hnew. unfold sstp_route_init. cbn [negb].
    destruct (Z.ltb_spec (socket (os_fds s)) 0); [lia|].
    set (r := fresh (dom (os_heap s))).
    assert (os_heap s !! r = None) as Hr by (apply not_elem_of_dom, is_fresh).
    do 2 eexists. split; [done|].
  split; [cbn; apply elem_of_union_l; by apply elem_of_singleton|].
    erewrite done_live; [|cbn; apply lookup_insert_eq|done]. cbn. f_equal. f_equal.
    + rewrite delete_insert_eq. by apply delete_id.
    + rewrite difference_union_distr_l_L, difference_diag_L, union_empty_l_L.
    apply difference_disjoint_L. by apply disjoint_singleton_r.
Qed.

End LifeCycleClaims.

(** C8, as stated, fails: after init and done a second done on the same
    handle is not a no-op but undefined, the handle being released. *)
Lemma done_twice_is_undefined :
  ∃ a s1 s2,
    sstp_route_init true (λ _, 3) None (mk_os ∅ ∅ []) = (0, Some a, s1)
    ∧ sstp_route_done (Some a) s1 = Done s2
    ∧ sstp_route_done (Some a) s2 = Undefined.
Proof. do 3 eexists. split; [reflexivity|]. split; reflexivity. Qed.

Lemma done_releases_and_closes_once_witness :
  ∃ a s1, sstp_route_init true (λ _, 3) None (mk_os ∅ ∅ []) = (0, Some a, s1)
    ∧ 3 ∈ os_fds s1
    ∧ sstp_route_done (Some a) s1 = Done (mk_os ∅ ∅ [3]).
Proof.
  refine (proj2 (proj2 (done_releases_and_closes_once (λ _, 3) (mk_os ∅ ∅ []))) None _ _).
  - cbn. lia.
  - cbn. apply not_elem_of_empty.
Defined.

(** ** Claims about the shell fallback *)

Section ShellClaims.

Variable popen : string → option string.
Variable inet_ntop : Z → list Z → Z → option string.
Variable sizeof_ipcmd : Z.

Lemma fgets_None size out :
  1 < size → Shell.fgets size out = None ↔ out = EmptyString.
Proof.
  intros Hs. unfold Shell.fgets.
  destruct (Z.leb_spec size 0); [lia|]. destruct (Z.eqb_spec size 1); [lia|].
  by destruct out.
Qed.

(** C9 (amended).  In the shell fallback sstp_route_get returns 0 exactly
    when the destination has a text form, the child process is created
    and its output is not empty, and -1 otherwise, that is when the
    address cannot be converted, the process cannot be created or the
    output is empty; sstp_route_replace and sstp_route_delete return -1
    when the process cannot be created. *)
Theorem shell_results dst route :
  1 < sizeof_ipcmd →
  let get := (Shell.sstp_route_get popen inet_ntop sizeof_ipcmd dst route).1.1 in
  (get = Shell.Value 0 ∨ get = Shell.Value (-1))
  ∧ (get = Shell.Value 0 ↔
       ∃ ip out, Shell.sstp_ipaddr inet_ntop dst Shell.INET6_ADDRSTRLEN = Some ip
         ∧ popen (Shell.snprintf 255 ("ip route get " +:+ ip)) = Some out
         ∧ out ≠ EmptyString)
  ∧ (get = Shell.Value (-1) ↔
       Shell.sstp_ipaddr inet_ntop dst Shell.INET6_ADDRSTRLEN = None
       ∨ ∃ ip, Shell.sstp_ipaddr inet_ntop dst Shell.INET6_ADDRSTRLEN = Some ip
           ∧ (popen (Shell.snprintf 255 ("ip route get " +:+ ip)) = None
              ∨ popen (Shell.snprintf 255 ("ip route get " +:+ ip)) = Some EmptyString))
  ∧ (popen (Shell.snprintf 255 ("ip route replace " +:+ Shell.ipcmd route)) = None →
     Shell.sstp_route_replace popen route = (Shell.Value (-1), []))
  ∧ (popen (Shell.snprintf 255 ("ip route delete " +:+ Shell.ipcmd route)) = None →
     Shell.sstp_route_delete popen route = (Shell.Value (-1), [])).
Proof.
  intros Hs. cbv zeta. unfold Shell.sstp_route_get, Shell.sstp_route_replace,
    Shell.sstp_route_delete.
  split; [|split; [|split; [|split]]].
  - repeat case_match; cbn; auto.
  - destruct (Shell.sstp_ipaddr _ _ _) as [ip|]; cbn; [|split; [done|by intros (? & ? & ? & _)]].
    destruct (popen _) as [out|] eqn:Hp; cbn;
      [|split; [done|intros (? & ? & [= <-] & Hp' & _); congruence]].
    destruct (Shell.fgets _ _) eqn:Hf; cbn.
    + split; [|done]. intros _. exists ip, out. repeat split; try done.
      intros ->. by rewrite (proj2 (fgets_None _ EmptyString Hs) eq_refl) in Hf.
    + apply (fgets_None _ _ Hs) in Hf as ->. split; [done|].
      intros (? & ? & [= <-] & Hp' & Hne). congruence.
  - destruct (Shell.sstp_ipaddr _ _ _) as [ip|]; cbn; [|split; auto].
    destruct (popen _) as [out|] eqn:Hp; cbn; [|split; eauto].
    destruct (Shell.fgets _ _) eqn:Hf; cbn.
    + split; [done|]. intros [?|(? & [= <-] & [Hp'|Hp'])]; [done|congruence|].
      rewrite Hp in Hp'. injection Hp' as ->.
      by rewrite (proj2 (fgets_None _ EmptyString Hs) eq_refl) in Hf.
    + apply (fgets_None _ _ Hs) in Hf as ->. split; eauto.
  - by intros ->.
  - by intros ->.
Qed.

End ShellClaims.

(** C9, as stated, fails: for a destination that is neither IPv4 nor IPv6
    sstp_route_get returns -1 and runs no command, although every command
    can be started and prints a line; and sstp_route_replace, with the
    process created, reaches the end of the function without a return
    statement, so it hands no value to its caller. *)
Lemma shell_get_fails_without_spawn :
  let popen := λ _ : string, Some "default via 192.168.1.1 dev eth0"%string in
  let inet_ntop := λ (_ : Z) (_ : list Z) (_ : Z), Some "0.0.0.0"%string in
  Shell.sstp_route_get popen inet_ntop 512 (mk_sockaddr 0 []) (Shell.mk_route "")
  = (Shell.Value (-1), Shell.mk_route "", [])
  ∧ Shell.sstp_route_replace popen (Shell.mk_route "10.0.0.0/8 dev ppp0")
    = (Shell.NoValue, ["ip route replace 10.0.0.0/8 dev ppp0"%string]).
Proof. split; reflexivity. Qed.

Lemma shell_results_witness :
  Shell.sstp_route_replace (λ _, None) (Shell.mk_route "10.0.0.0/8 dev ppp0")
  = (Shell.Value (-1), []).
Proof.
  refine (proj1 (proj2 (proj2 (proj2 (shell_results (λ _, None)
            (λ _ _ _, Some "4.4.2.2"%string) 512 ex_dst
            (Shell.mk_route "10.0.0.0/8 dev ppp0") _)))) _).
  - lia.
  - reflexivity.
Defined.

(** ** The theorems at the sample data *)

Lemma kernel_error_frame_fails_witness :
  ∃ c' sent',
    sstp_route_get ex_pid ex_send ex_no_ifname ex_ctx ex_dst ex_route
      (mk_io 0 ([RecvFail EINTR; RecvData ex_reply] ++ RecvData ex_get_error :: []) [])
    = Done (-1, c', ex_route, mk_io (wrap_i32 (- -17)) [] sent').
Proof.
  refine (proj2 (proj2 (proj1 (kernel_error_frame_fails ex_pid ex_send ex_no_ifname
            ex_ctx 0 [] [RecvFail EINTR; RecvData ex_reply] ex_get_error [] (-17)
            ex_route ex_dst ex_route _ _ _) _)) _ _).
  - intros d. reflexivity.
  - unfold msg_ok. vm_compute. split; discriminate.
  - unfold error_frame. vm_compute. repeat split; discriminate.
  - lia.
  - left. split; reflexivity.
  - apply Forall_cons. split; [right; reflexivity|].
    apply Forall_cons. split; [|exact (Forall_nil_2 _)].
    split; [|split].
    + unfold msg_ok. vm_compute. split; discriminate.
    + left. vm_compute. discriminate.
    + left. vm_compute. discriminate.
Defined.

Lemma newmsg_length_and_roundtrip_witness :
  ∃ n c', sstp_route_newmsg ex_pid ex_ctx ex_route RTM_NEWROUTE
            (Z.lor NLM_F_CREATE NLM_F_REPLACE) = Done (n, c')
    ∧ n = nlmsg_len (ctx_buf c')
    ∧ n = sizeof_nlmsghdr + sizeof_rtmsg + attrs_space (route_attrs ex_route)
    ∧ encodes (ctx_buf c') RTM_RTA (route_attrs ex_route)
    ∧ parse_attrs (ctx_buf c') = route_attrs ex_route.
Proof.
  refine (newmsg_length_and_roundtrip ex_pid ex_ctx ex_route RTM_NEWROUTE
            (Z.lor NLM_F_CREATE NLM_F_REPLACE) _).
  unfold route_valid, bytes_ok, is_byte. cbn.
  repeat split; try lia; try (by left); repeat constructor; lia.
Defined.

Lemma newmsg_scope_protocol_type_witness :
  ∃ n c', sstp_route_newmsg ex_pid ex_ctx ex_route RTM_DELROUTE 0 = Done (n, c')
    ∧ rtm_scope (ctx_buf c') = RT_SCOPE_UNIVERSE.
Proof.
  assert (∃ n c', sstp_route_newmsg ex_pid ex_ctx ex_route RTM_DELROUTE 0 = Done (n, c'))
    as (n & c' & H) by (do 2 eexists; vm_compute; reflexivity).
  exists n, c'. split; [exact H|].
  exact (proj1 (proj2 (newmsg_scope_protocol_type ex_pid ex_ctx ex_route RTM_DELROUTE 0)
                  n c' H)).
Defined.

Lemma get_request_carries_destination_witness :
  ∃ c1, get_request ex_pid ex_ctx ex_dst = Done c1
    ∧ nlmsg_type (ctx_buf c1) = RTM_GETROUTE
    ∧ rtm_family (ctx_buf c1) = AF_INET
    ∧ rtm_dst_len (ctx_buf c1) = 32.
Proof.
  destruct (get_request_carries_destination ex_pid ex_send ex_no_ifname ex_ctx ex_dst)
    as (c1 & H1 & H2 & H3 & H4 & _).
  - left. split; reflexivity.
  - exists c1. repeat split; assumption.
Defined.

Lemma get_decodes_response_witness :
  ∃ c' w' route',
    sstp_route_get ex_pid ex_send ex_no_ifname ex_ctx ex_dst ex_route
      (mk_io 0 ([RecvData ex_reply] ++ RecvData ex_response :: []) [])
    = Done (0, c', route', w')
    ∧ have_dst (rt_have route') = true ∧ have_gwy (rt_have route') = true
    ∧ have_src (rt_have route') = true ∧ have_oif (rt_have route') = true
    ∧ rt_ifname route' = EmptyString.
Proof.
  destruct (proj2 (get_decodes_response ex_pid ex_send ex_no_ifname ex_ctx ex_dst
                     ex_route 0 [] [RecvData ex_reply] ex_response []
                     ltac:(intros d; reflexivity)
                     ltac:(left; split; reflexivity)
                     ltac:(apply Forall_cons; split; [|exact (Forall_nil_2 _)];
                           split; [|split];
                           [unfold msg_ok; vm_compute; split; discriminate
                           |left; vm_compute; discriminate
                           |left; vm_compute; discriminate])
                     ltac:(unfold route_response, msg_ok, no_error;
                           vm_compute; repeat split; try discriminate;
                           left; discriminate)))
    as (c' & w' & route' & Hget & _ & _ & _ & _ & Hd & Hg & Hs & Ho & _ & _ & _ & _ & _ & Hn).
  - left. vm_compute. reflexivity.
  - vm_compute. repeat constructor; vm_compute; intros; try discriminate;
      repeat match goal with H : _ ∨ _ |- _ => destruct H end; try discriminate; lia.
  - exists c', w', route'. split; [exact Hget|].
    split; [exact Hd|]. split; [exact Hg|]. split; [exact Hs|]. split; [exact Ho|].
    apply Hn. intros a _ _. reflexivity.
Defined.

Lemma get_failure_leaves_route_witness :
  ∃ c' route' w',
    sstp_route_get ex_pid ex_send_fails ex_no_ifname ex_ctx ex_dst ex_route
      (mk_io 0 [] []) = Done (-1, c', route', w')
    ∧ route' = ex_route.
Proof.
  assert (∃ c' route' w',
            sstp_route_get ex_pid ex_send_fails ex_no_ifname ex_ctx ex_dst ex_route
              (mk_io 0 [] []) = Done (-1, c', route', w')) as (c' & route' & w' & H)
    by (do 3 eexists; vm_compute; reflexivity).
  exists c', route', w'. split; [exact H|].
  refine (proj1 (proj2 (proj1 (get_failure_leaves_route ex_pid ex_send_fails
                                 ex_no_ifname ex_ctx ex_dst ex_route (mk_io 0 [] []))
                          _ _ _ _ H)) _).
  lia.
Defined.

(** * Further properties of the module *)

(** ** The receive loop: retries, fatal reads, what a return means *)

Section LoopReturns.

Variable getpid : Z.

Lemma last_cons_default {A} (d x : A) (l : list A) :
  default d (last (x :: l)) = default x (last l).
Proof.
  revert d x. induction l as [|y l IH]; intros d x; [done|].
  change (last (x :: y :: l)) with (last (y :: l)). by rewrite !IH.
Qed.

(** X1.  With a message header in the buffer (the request, in every
    exchange of the module), reads that fail with EAGAIN or EINTR are
    tried again, any number of times and without a pause: the result is
    that of the call without these failures, errno holding the last of
    them. *)
Theorem recv_retries_transient c errno sent es rest :
  0 < nlmsg_len (ctx_buf c) →
  Forall (λ e, e = EAGAIN ∨ e = EINTR) es →
  sstp_route_recv getpid c (mk_io errno ((RecvFail <$> es) ++ rest) sent)
  = sstp_route_recv getpid c (mk_io (default errno (last es)) rest sent).
Proof.
  intros Hn Hes. unfold sstp_route_recv. cbn [io_inbox io_errno io_sent].
  revert errno. induction Hes as [|e es He _ IH]; intros errno; [done|].
  rewrite last_cons_default, <- IH. cbn [fmap list_fmap app recv_loop recv_body].
  assert ((e =? EAGAIN) || (e =? EINTR) = true) as ->
    by (destruct He as [-> | ->]; done).
  unfold recv_again. cbn [ctx_len ctx_buf set_len]. change (to_u32 0) with 0.
  by destruct (Z.ltb_spec 0 (nlmsg_len (ctx_buf c))); [|lia].
Qed.

(** X2.  Three reads end the loop at once with -1: a failure with an
    errno other than EAGAIN and EINTR, which is left in errno; a read of
    length zero; and a datagram that does not start with a well-formed
    message (shorter than a header, or with a declared length below the
    header size or above the bytes read).  What is left to read stays
    unread. *)
Theorem recv_fatal_reads c errno sent rest :
  ctx_wf c →
  (∀ e, e ≠ EAGAIN → e ≠ EINTR →
     sstp_route_recv getpid c (mk_io errno (RecvFail e :: rest) sent)
     = Done (-1, set_len c 0, mk_io e rest sent))
  ∧ sstp_route_recv getpid c (mk_io errno (RecvData [] :: rest) sent)
    = Done (-1, recv_ctx (set_len c 0) [], mk_io errno rest sent)
  ∧ (∀ data, ¬ msg_ok data →
       sstp_route_recv getpid c (mk_io errno (RecvData data :: rest) sent)
       = Done (-1, recv_ctx (set_len c 0) data, mk_io errno rest sent)).
Proof.
  intros Hwf. unfold sstp_route_recv. cbn [io_inbox io_errno io_sent].
  split; [|split].
  - intros e H1 H2. cbn [recv_loop recv_body].
    apply Z.eqb_neq in H1, H2. by rewrite H1, H2.
  - done.
  - intros data Hbad. cbn [recv_loop]. unfold recv_body. rewrite recv_into_eq.
    destruct (Z.eqb_spec (recv_len (set_len c 0) data) 0); [done|].
    destruct (NLMSG_OK _ _) eqn:Hok; [|done]. exfalso. apply Hbad.
    apply NLMSG_OK_true in Hok as (H16 & Hlo & Hhi).
    rewrite recv_len_eq in * by done.
    unfold nlmsg_len in Hlo, Hhi.
    rewrite (received_u32 (set_len c 0) data 0) in Hlo, Hhi by
      (first [done | unfold sizeof_buf in *; lia]).
    unfold msg_ok, nlmsg_len. lia.
Qed.

(** The state of the loop at a return. *)
Lemma recv_loop_post inbox c errno sent v c' w' :
  ctx_wf c → ctx_len c = 0 →
  recv_loop getpid inbox c errno sent = Done (v, c', w') →
  ctx_wf c' ∧ ctx_seq c' = ctx_seq c ∧ ctx_sock c' = ctx_sock c
  ∧ (∃ k, io_inbox w' = drop k inbox)
  ∧ (v = -1 ∧ ctx_len c' = 0
     ∨ v = 0 ∧ ctx_len c' = 0
     ∨ 16 ≤ v ≤ sizeof_buf ∧ ctx_len c' = v
       ∧ NLMSG_OK (ctx_buf c') v = true
       ∧ nlmsg_seq (ctx_buf c') = to_u32 (ctx_seq c)
       ∧ nlmsg_pid (ctx_buf c') = to_u32 getpid
       ∧ (nlmsg_type (ctx_buf c') = NLMSG_ERROR → nlmsgerr_error (ctx_buf c') = 0)).
Proof.
  revert c errno. induction inbox as [|ev inbox IH]; intros c errno Hwf Hl; [done|].
  cbn [recv_loop].
  assert ((∃ k, io_inbox w' = drop k inbox) → ∃ k, io_inbox w' = drop k (ev :: inbox))
    as Hsuf by (intros [k ->]; by exists (S k)).
  destruct ev as [e|data].
  - cbn [recv_body]. destruct ((e =? EAGAIN) || (e =? EINTR)).
    + destruct (recv_again c).
      * intros Hrun. apply IH in Hrun as (? & ? & ? & ? & ?); [|done..].
        repeat split; try done. by apply Hsuf.
      * intros [= <- <- <-]. repeat split; try done; [by exists 1%nat|auto].
    + intros [= <- <- <-]. repeat split; try done; [by exists 1%nat|auto].
  - unfold recv_body. rewrite recv_into_eq.
    pose proof (recv_ctx_wf c data Hwf) as Hwf1.
    assert (recv_len c data ≤ sizeof_buf) as Hmax
      by (rewrite recv_len_eq by done; lia).
    destruct (Z.eqb_spec (recv_len c data) 0);
      [intros [= <- <- <-]; repeat split; try done; [by exists 1%nat|auto]|].
    destruct (NLMSG_OK (ctx_buf (recv_ctx c data)) (recv_len c data)) eqn:Hok;
      cbn [negb];
      [|intros [= <- <- <-]; repeat split; try done; [by exists 1%nat|auto]].
    apply NLMSG_OK_true in Hok as Hok'.
    destruct ((nlmsg_type (ctx_buf (recv_ctx c data)) =? NLMSG_ERROR)
              && negb (nlmsgerr_error (ctx_buf (recv_ctx c data)) =? 0)) eqn:Herr;
      [intros [= <- <- <-]; repeat split; try done; [by exists 1%nat|auto]|].
    assert (nlmsg_type (ctx_buf (recv_ctx c data)) = NLMSG_ERROR →
            nlmsgerr_error (ctx_buf (recv_ctx c data)) = 0) as Hnoerr.
    { intros Ht. rewrite Ht, Z.eqb_refl in Herr. cbn in Herr.
      by apply negb_false_iff, Z.eqb_eq in Herr. }
    destruct (Z.eqb_spec (nlmsg_seq (ctx_buf (recv_ctx c data)))
                (to_u32 (ctx_seq (recv_ctx c data)))) as [Hs|_]; cbn [negb].
    2:{ destruct (recv_again _).
        - intros Hrun. apply IH in Hrun as (? & ? & ? & ? & ?); [|done..].
          repeat split; try done. by apply Hsuf.
        - intros [= <- <- <-]. repeat split; try done; [by exists 1%nat|auto]. }
    destruct (Z.eqb_spec (nlmsg_pid (ctx_buf (recv_ctx c data))) (to_u32 getpid))
      as [Hp|_]; cbn [negb].
    2:{ destruct (recv_again _).
        - intros Hrun. apply IH in Hrun as (? & ? & ? & ? & ?); [|done..].
          repeat split; try done. by apply Hsuf.
        - intros [= <- <- <-]. repeat split; try done; [by exists 1%nat|auto]. }
    assert (recv_again (set_len (recv_ctx c data) (recv_len c data)) = false) as Hag.
    { unfold recv_again. cbn [ctx_len ctx_buf set_len]. apply Z.ltb_ge.
      unfold sizeof_buf in *. rewrite to_u32_small by lia. lia. }
    assert (ctx_wf (set_len (recv_ctx c data) (recv_len c data))) as Hwf2 by done.
    assert (Done (ctx_len (set_len (recv_ctx c data) (recv_len c data)),
                  set_len (recv_ctx c data) (recv_len c data),
                  mk_io errno inbox sent) = Done (v, c', w') →
            ctx_wf c' ∧ ctx_seq c' = ctx_seq c ∧ ctx_sock c' = ctx_sock c
            ∧ (∃ k, io_inbox w' = drop k (RecvData data :: inbox))
            ∧ (v = -1 ∧ ctx_len c' = 0
               ∨ v = 0 ∧ ctx_len c' = 0
               ∨ 16 ≤ v ≤ sizeof_buf ∧ ctx_len c' = v
                 ∧ NLMSG_OK (ctx_buf c') v = true
                 ∧ nlmsg_seq (ctx_buf c') = to_u32 (ctx_seq c)
                 ∧ nlmsg_pid (ctx_buf c') = to_u32 getpid
                 ∧ (nlmsg_type (ctx_buf c') = NLMSG_ERROR →
                    nlmsgerr_error (ctx_buf c') = 0))) as Hacc.
    { intros [= <- <- <-]. repeat split; try done; [by exists 1%nat|].
      right; right. cbn [ctx_len ctx_buf set_len]. repeat split; try done; lia. }
    destruct (nlmsg_type (ctx_buf (recv_ctx c data)) =? NLMSG_DONE); [exact Hacc|].
    destruct (Z.land (nlmsg_flags (ctx_buf (recv_ctx c data))) NLM_F_MULTI =? 0);
      [exact Hacc|]. by rewrite Hag.
Qed.


End LoopReturns.

(** ** The request that sstp_route_newmsg builds *)

(** An optional attribute followed by a write of one byte of the route
    message: the other bytes of the two headers stay. *)
Lemma opt_attr_bytes present buf type len value off v buf' :
  opt_attr present buf type len value (λ b, put_u8 b off v) = Done buf' →
  length buf = Z.to_nat sizeof_buf → 28 ≤ nlmsg_len buf → 16 ≤ off < 28 →
  length buf' = Z.to_nat sizeof_buf ∧ 28 ≤ nlmsg_len buf'
  ∧ (∀ i, 4 ≤ i < 28 → i ≠ off → get_u8 buf' i = get_u8 buf i)
  ∧ get_u8 buf' off = (if present then to_u8 v else get_u8 buf off).
Proof.
  unfold opt_attr. intros Hrun Hl Hn Hoff. destruct present.
  - apply run_bind_inv in Hrun as (b1 & Hadd & [= <-]).
    destruct (addattr_frame _ _ _ _ _ Hadd Hl Hn) as (Hl1 & Hs1 & Hn1).
    rewrite length_put_u8, nlmsg_len_put_u8 by lia. repeat split; try done.
    + intros i Hi Hne. rewrite get_u8_put_u8_ne by lia.
      by apply (same_on_u8 _ _ 4 28).
    + apply get_u8_put_u8. rewrite Hl1. unfold sizeof_buf. lia.
  - by injection Hrun as <-.
Qed.

Lemma opt_attr_id_bytes present buf type len value buf' :
  opt_attr present buf type len value id = Done buf' →
  length buf = Z.to_nat sizeof_buf → 28 ≤ nlmsg_len buf →
  length buf' = Z.to_nat sizeof_buf ∧ 28 ≤ nlmsg_len buf'
  ∧ (∀ i, 4 ≤ i < 28 → get_u8 buf' i = get_u8 buf i).
Proof.
  unfold opt_attr. intros Hrun Hl Hn. destruct present.
  - apply run_bind_inv in Hrun as (b1 & Hadd & [= <-]).
    destruct (addattr_frame _ _ _ _ _ Hadd Hl Hn) as (Hl1 & Hs1 & Hn1).
    repeat split; try done. intros i Hi. by apply (same_on_u8 _ _ 4 28).
  - by injection Hrun as <-.
Qed.

Section RequestHeaders.

Variable getpid : Z.

(** The headers of the message that the builder leaves in the buffer. *)
Lemma newmsg_fields c route cmd flags n c' :
  sstp_route_newmsg getpid c route cmd flags = Done (n, c') →
  let b := ctx_buf c' in
  nlmsg_type b = to_u16 cmd
  ∧ nlmsg_flags b = to_u16 (Z.lor (Z.lor NLM_F_REQUEST NLM_F_ACK) flags)
  ∧ nlmsg_seq b = to_u32 (wrap_i32 (ctx_seq c + 1))
  ∧ nlmsg_pid b = to_u32 getpid
  ∧ rtm_family b = to_u8 (rt_family route)
  ∧ rtm_table b = RT_TABLE_MAIN
  ∧ rtm_tos b = 0 ∧ rtm_flags b = 0
  ∧ rtm_dst_len b
    = (if have_dst (rt_have route) then to_u8 (Z.shiftl (rt_blen route) 3) else 0)
  ∧ rtm_src_len b
    = (if have_src (rt_have route) then to_u8 (Z.shiftl (rt_blen route) 3) else 0)
  ∧ n = wrap_i32 (nlmsg_len b) ∧ 28 ≤ nlmsg_len b
  ∧ ctx_wf c'
  ∧ ctx_seq c' = wrap_i32 (ctx_seq c + 1)
  ∧ ctx_sock c' = ctx_sock c ∧ ctx_len c' = ctx_len c.
Proof.
  unfold sstp_route_newmsg. intros Hrun.
  match type of Hrun with context [opt_attr _ ?b RTA_DST] => set (b0 := b) in Hrun end.
  set (h := nlmsg_header cmd (Z.lor (Z.lor NLM_F_REQUEST NLM_F_ACK) flags)
              (wrap_i32 (ctx_seq c + 1)) getpid) in *.
  destruct (newmsg_body_start getpid cmd (Z.lor (Z.lor NLM_F_REQUEST NLM_F_ACK) flags)
              (wrap_i32 (ctx_seq c + 1)) (rt_family route)
              (if have_gwy (rt_have route) then RT_SCOPE_UNIVERSE else RT_SCOPE_LINK))
    as (Hl0 & Hn0 & _). fold h b0 in Hl0, Hn0.
  assert (length h = 1024%nat) as Hh by apply length_nlmsg_header.
  assert (∀ i, 4 ≤ i < 16 → get_u8 b0 i = get_u8 h i) as Hhead.
  { intros i Hi. unfold b0. change NLMSG_DATA with 16.
    destruct (cmd =? RTM_DELROUTE); cbn [negb]; by rewrite !get_u8_put_u8_ne by lia. }
  assert (get_u8 b0 16 = to_u8 (rt_family route)) as Hfam.
  { unfold b0. change NLMSG_DATA with 16.
    destruct (cmd =? RTM_DELROUTE); cbn [negb];
      rewrite ?(get_u8_put_u8_ne _ _ _ 16) by lia;
      apply get_u8_put_u8; rewrite !length_put_u8; lia. }
  assert (get_u8 b0 20 = RT_TABLE_MAIN) as Htab.
  { unfold b0. change NLMSG_DATA with 16.
    destruct (cmd =? RTM_DELROUTE); cbn [negb];
      rewrite ?(get_u8_put_u8_ne _ _ _ 20) by lia;
      change 20 with (16 + 4); by rewrite get_u8_put_u8 by lia. }
  assert (∀ i, 16 < i < 28 → i ∉ [20; 21; 22; 23] → get_u8 b0 i = 0) as Hzero.
  { intros i Hi Hne. unfold b0. change NLMSG_DATA with 16.
    assert (i ≠ 20 ∧ i ≠ 21 ∧ i ≠ 22 ∧ i ≠ 23) as (? & ? & ? & ?).
    { rewrite !not_elem_of_cons in Hne. tauto. }
    destruct (cmd =? RTM_DELROUTE); cbn [negb];
      rewrite !get_u8_put_u8_ne by lia; apply nlmsg_header_body; lia. }
  apply run_bind_inv in Hrun as (b1 & H1 & Hrun).
  apply run_bind_inv in Hrun as (b2 & H2 & Hrun).
  apply run_bind_inv in Hrun as (b3 & H3 & Hrun).
  apply run_bind_inv in Hrun as (b4 & H4 & Hrun).
  injection Hrun as <- <-. cbv zeta. cbn [ctx_buf ctx_seq ctx_sock ctx_len set_buf set_seq].
  change (NLMSG_DATA + 1) with 17 in H1. change (NLMSG_DATA + 2) with 18 in H2.
  apply opt_attr_bytes in H1 as (Hl1 & Hn1 & Hs1 & Hd1); [|done|lia|lia].
  apply opt_attr_bytes in H2 as (Hl2 & Hn2 & Hs2 & Hd2); [|done|lia|lia].
  apply opt_attr_id_bytes in H3 as (Hl3 & Hn3 & Hs3); [|done|lia].
  apply opt_attr_id_bytes in H4 as (Hl4 & Hn4 & Hs4); [|done|lia].
  assert (∀ i, 4 ≤ i < 28 → i ≠ 17 → i ≠ 18 → get_u8 b4 i = get_u8 b0 i) as Hrest.
  { intros i Hi ? ?. by rewrite Hs4, Hs3, Hs2, Hs1 by lia. }
  destruct (nlmsg_header_fields cmd (Z.lor (Z.lor NLM_F_REQUEST NLM_F_ACK) flags)
              (wrap_i32 (ctx_seq c + 1)) getpid) as (Ht & Hf & Hq & Hp).
  fold h in Ht, Hf, Hq, Hp.
  unfold nlmsg_type, nlmsg_flags, nlmsg_seq, nlmsg_pid, rtm_family, rtm_table, rtm_tos,
    rtm_flags, rtm_dst_len, rtm_src_len in *.
  change NLMSG_DATA with 16.
  repeat split; try done.
  - rewrite <- Ht. apply get_u16_bytewise. intros. rewrite Hrest, Hhead by lia. done.
  - rewrite <- Hf. apply get_u16_bytewise. intros. rewrite Hrest, Hhead by lia. done.
  - rewrite <- Hq. apply get_u32_bytewise. intros. rewrite Hrest, Hhead by lia. done.
  - rewrite <- Hp. apply get_u32_bytewise. intros. rewrite Hrest, Hhead by lia. done.
  - by rewrite Hrest by lia.
  - by rewrite Hrest by lia.
  - rewrite Hrest by lia. apply Hzero; [lia|]. rewrite !not_elem_of_cons.
    repeat split; try lia. apply not_elem_of_nil.
  - unfold get_u32, get_u16.
    rewrite !Hrest, !Hzero; try lia;
      rewrite !not_elem_of_cons; repeat split; try lia; apply not_elem_of_nil.
  - change (16 + 1) with 17. rewrite Hs4, Hs3, Hs2, Hd1 by lia.
    destruct (have_dst _); [done|]. apply Hzero; [lia|].
    rewrite !not_elem_of_cons. repeat split; try lia. apply not_elem_of_nil.
  - change (16 + 2) with 18. rewrite Hs4, Hs3, Hd2 by lia.
    destruct (have_src _); [done|]. rewrite Hs1 by lia. apply Hzero; [lia|].
    rewrite !not_elem_of_cons. repeat split; try lia. apply not_elem_of_nil.
Qed.

(** X6.  Whenever sstp_route_newmsg returns, the buffer of the session
    starts with a netlink header of the type [cmd], with the flags
    NLM_F_REQUEST and NLM_F_ACK besides those of the caller, the next
    sequence number of the session and the process id, followed by a
    route message for the main table with the family of the route, no
    type of service and no flags.  The prefix lengths are eight times the
    address length (the byte of it) where the route has a destination or
    source, and zero where it has none.  The value returned is the
    length of the message; the session takes the new sequence number and
    keeps its socket and its receive length. *)
Theorem newmsg_header_and_route_message c route cmd flags n c' :
  sstp_route_newmsg getpid c route cmd flags = Done (n, c') →
  let b := ctx_buf c' in
  nlmsg_type b = to_u16 cmd
  ∧ nlmsg_flags b = to_u16 (Z.lor (Z.lor NLM_F_REQUEST NLM_F_ACK) flags)
  ∧ nlmsg_seq b = to_u32 (wrap_i32 (ctx_seq c + 1))
  ∧ nlmsg_pid b = to_u32 getpid
  ∧ rtm_family b = to_u8 (rt_family route)
  ∧ rtm_table b = RT_TABLE_MAIN
  ∧ rtm_tos b = 0 ∧ rtm_flags b = 0
  ∧ rtm_dst_len b
    = (if have_dst (rt_have route) then to_u8 (Z.shiftl (rt_blen route) 3) else 0)
  ∧ rtm_src_len b
    = (if have_src (rt_have route) then to_u8 (Z.shiftl (rt_blen route) 3) else 0)
  ∧ n = wrap_i32 (nlmsg_len b) ∧ 28 ≤ nlmsg_len b
  ∧ ctx_wf c'
  ∧ ctx_seq c' = wrap_i32 (ctx_seq c + 1)
  ∧ ctx_sock c' = ctx_sock c ∧ ctx_len c' = ctx_len c.
Proof. apply newmsg_fields. Qed.

End RequestHeaders.

(** ** Replace and delete: the send and the acknowledgement *)

Section Acknowledgements.

Variable getpid : Z.
Variable send : list Z → Z.

(** The request of a valid route, as sstp_route_talk sends it. *)
Lemma newmsg_request c route cmd flags :
  route_valid route →
  ∃ c1, sstp_route_newmsg getpid c route cmd flags
        = Done (28 + attrs_space (route_attrs route), c1)
    ∧ ctx_wf c1 ∧ ctx_seq c1 = wrap_i32 (ctx_seq c + 1)
    ∧ ctx_sock c1 = ctx_sock c
    ∧ nlmsg_len (ctx_buf c1) = 28 + attrs_space (route_attrs route)
    ∧ 28 ≤ 28 + attrs_space (route_attrs route) ≤ 120
    ∧ Z.of_nat (length (take (Z.to_nat (28 + attrs_space (route_attrs route)))
                          (ctx_buf c1)))
      = 28 + attrs_space (route_attrs route).
Proof.
  intros Hv.
  destruct (newmsg_valid getpid c route cmd flags Hv) as (c1 & Hn & Hb & Hs & Hq & _ & Hk).
  pose proof (attrs_space_nonneg (route_attrs route)) as Hnn.
  pose proof Hb as (Hwf & Hl & _). unfold sizeof_nlmsghdr, sizeof_rtmsg in Hl.
  exists c1. repeat split; try done; try lia.
  rewrite length_take. unfold ctx_wf, sizeof_buf in Hwf. lia.
Qed.

(** A bare header read as the first answer leaves the bytes of the
    request behind it: the error field that the loop reads is the start
    of the route message of the request, which holds the family. *)
Lemma newmsg_stale_code c route cmd flags n c1 data :
  route_valid route →
  sstp_route_newmsg getpid c route cmd flags = Done (n, c1) →
  length data = 16%nat → 28 ≤ n →
  nlmsgerr_error (ctx_buf (recv_ctx (set_len c1 0) data))
  = get_i32 (take (Z.to_nat n) (ctx_buf c1)) NLMSG_DATA
  ∧ 0 < get_i32 (take (Z.to_nat n) (ctx_buf c1)) NLMSG_DATA.
Proof.
  intros Hv Hn Hlen H28.
  destruct (newmsg_fields getpid _ _ _ _ _ _ Hn)
    as (_ & _ & _ & _ & Hfam & _ & Htos & _ & Hdl & Hsl & _).
  cbv zeta in *. unfold rtm_family, rtm_tos, rtm_dst_len, rtm_src_len in *.
  change NLMSG_DATA with 16 in *.
  assert (get_u32 (ctx_buf (recv_ctx (set_len c1 0) data)) 16 = get_u32 (ctx_buf c1) 16)
    as Hstale.
  { apply get_u32_bytewise. intros j Hj.
    change (ctx_buf c1) with (ctx_buf (set_len c1 0)). apply received_rest; [done|lia]. }
  assert (get_u32 (take (Z.to_nat n) (ctx_buf c1)) 16 = get_u32 (ctx_buf c1) 16) as Htake.
  { apply get_u32_bytewise. intros j Hj. apply get_u8_take. lia. }
  unfold nlmsgerr_error, get_i32. change NLMSG_DATA with 16.
  rewrite Hstale, Htake. split; [done|].
  unfold get_u32, get_u16.
  change (16 + 2 + 1) with 19. change (16 + 2) with 18 in *. change (16 + 1) with 17 in *.
  change (16 + 0) with 16 in Hfam. change (16 + 3) with 19 in Htos.
  rewrite Hfam, Hdl, Hsl, Htos.
  assert (to_u8 (rt_family route) = 2 ∨ to_u8 (rt_family route) = 10) as Hf
    by (destruct Hv as ([[-> _]|[-> _]] & _); auto).
  assert (0 ≤ to_u8 (Z.shiftl (rt_blen route) 3) < 256) as Hb
    by (unfold to_u8; apply Z.mod_pos_bound; lia).
  rewrite wrap_i32_small;
    destruct (have_dst (rt_have route)), (have_src (rt_have route)); lia.
Qed.

(** X4.  When send does not take the whole request of a valid route,
    sstp_route_replace and sstp_route_delete read no answer.  If send
    failed they return -1, with the error number of send in errno; if it
    took any other count than the size of the request they return 0, as
    for success, and errno is as it was.  The session has moved to the
    next sequence number all the same. *)
Theorem replace_delete_incomplete_send c route w :
  route_valid route →
  (∀ d, send d ≠ Z.of_nat (length d)) →
  (∃ c1 req,
     sstp_route_replace getpid send c route w
     = Done (if send req <? 0 then -1 else 0, c1,
             mk_io (if send req <? 0 then - send req else io_errno w)
               (io_inbox w) (io_sent w ++ [req]))
     ∧ Z.of_nat (length req) = 28 + attrs_space (route_attrs route)
     ∧ ctx_seq c1 = wrap_i32 (ctx_seq c + 1))
  ∧ (∃ c1 req,
       sstp_route_delete getpid send c route w
       = Done (if send req <? 0 then -1 else 0, c1,
               mk_io (if send req <? 0 then - send req else io_errno w)
                 (io_inbox w) (io_sent w ++ [req]))
       ∧ Z.of_nat (length req) = 28 + attrs_space (route_attrs route)
       ∧ ctx_seq c1 = wrap_i32 (ctx_seq c + 1)).
Proof.
  intros Hv Hsend.
  assert (∀ cmd flags,
    ∃ c1 req,
      ('(len, c1) ← sstp_route_newmsg getpid c route cmd flags;
       if len <? 0 then Done (-1, c1, w)
       else
         '(len, c2, w2) ← sstp_route_talk getpid send c1 (ctx_buf c1) len w;
         if len <? 0 then Done (-1, c2, w2) else Done (0, c2, w2))
      = Done (if send req <? 0 then -1 else 0, c1,
              mk_io (if send req <? 0 then - send req else io_errno w)
                (io_inbox w) (io_sent w ++ [req]))
      ∧ Z.of_nat (length req) = 28 + attrs_space (route_attrs route)
      ∧ ctx_seq c1 = wrap_i32 (ctx_seq c + 1)) as H.
  { intros cmd flags.
    destruct (newmsg_request c route cmd flags Hv)
      as (c1 & Hn & Hwf & Hq & _ & _ & Hr & Hlen).
    exists c1, (take (Z.to_nat (28 + attrs_space (route_attrs route))) (ctx_buf c1)).
    rewrite Hn, run_bind_Done.
    destruct (Z.ltb_spec (28 + attrs_space (route_attrs route)) 0); [lia|].
    unfold sstp_route_talk, send_len, send_errno.
    pose proof (Hsend (take (Z.to_nat (28 + attrs_space (route_attrs route)))
                         (ctx_buf c1))) as Hne.
    rewrite Hlen in Hne.
    split; [|done].
    destruct (Z.ltb_spec (send (take (Z.to_nat (28 + attrs_space (route_attrs route)))
                                  (ctx_buf c1))) 0) as [Hneg|Hpos].
    - destruct (Z.eqb_spec (-1) (28 + attrs_space (route_attrs route))); [lia|].
      cbn [negb]. by rewrite run_bind_Done.
    - apply Z.eqb_neq in Hne as Hne'. rewrite Hne'. cbn [negb]. rewrite run_bind_Done.
      by destruct (Z.ltb_spec (send (take (Z.to_nat (28 + attrs_space (route_attrs route)))
                                       (ctx_buf c1))) 0); [lia|]. }
  split; apply H.
Qed.

(** X5.  With a socket that takes the request whole, sstp_route_replace
    and sstp_route_delete of a valid route wait for a well-formed
    message with the sequence number of the request and the process id,
    passing over reads that are retried and messages of other exchanges.
    They return 0 when this message is not of the type NLMSG_ERROR, or
    is an error frame of at least twenty bytes with the code zero: one
    datagram has been sent, the session is at the next sequence number,
    the socket is the same, and the reads after the answer are left.  A
    bare header of the type NLMSG_ERROR, sixteen bytes, is no
    acknowledgement: read as the first answer, its error field is what
    the request left behind the header in the buffer, the start of the
    route message with the family, which is not zero, and the call
    returns -1 with errno the negated value.  (Headers of this type
    with seventeen to nineteen bytes are not described.) *)
Theorem replace_delete_acknowledged c errno sent pre data rest route :
  send_all send → route_valid route →
  Forall (skipped getpid (wrap_i32 (ctx_seq c + 1))) pre →
  msg_ok data →
  nlmsg_seq data = to_u32 (wrap_i32 (ctx_seq c + 1)) →
  nlmsg_pid data = to_u32 getpid →
  let w := mk_io errno (pre ++ RecvData data :: rest) sent in
  (no_error data →
     (∃ c' errno' req,
        sstp_route_replace getpid send c route w
        = Done (0, c', mk_io errno' rest (sent ++ [req]))
        ∧ Z.of_nat (length req) = 28 + attrs_space (route_attrs route)
        ∧ ctx_seq c' = wrap_i32 (ctx_seq c + 1) ∧ ctx_sock c' = ctx_sock c
        ∧ (pre = [] → errno' = errno))
     ∧ (∃ c' errno' req,
          sstp_route_delete getpid send c route w
          = Done (0, c', mk_io errno' rest (sent ++ [req]))
          ∧ Z.of_nat (length req) = 28 + attrs_space (route_attrs route)
          ∧ ctx_seq c' = wrap_i32 (ctx_seq c + 1) ∧ ctx_sock c' = ctx_sock c
          ∧ (pre = [] → errno' = errno)))
  ∧ (nlmsg_type data = NLMSG_ERROR → length data = 16%nat → pre = [] →
       (∃ c' req,
          sstp_route_replace getpid send c route w
          = Done (-1, c', mk_io (wrap_i32 (- get_i32 req NLMSG_DATA)) rest (sent ++ [req]))
          ∧ Z.of_nat (length req) = 28 + attrs_space (route_attrs route)
          ∧ 0 < get_i32 req NLMSG_DATA)
       ∧ (∃ c' req,
            sstp_route_delete getpid send c route w
            = Done (-1, c', mk_io (wrap_i32 (- get_i32 req NLMSG_DATA)) rest
                      (sent ++ [req]))
            ∧ Z.of_nat (length req) = 28 + attrs_space (route_attrs route)
            ∧ 0 < get_i32 req NLMSG_DATA)).
Proof.
  intros Hsend Hv Hpre Hok Hseq Hpid w. split.
  - intros Hne.
    assert (∀ cmd flags,
      ∃ c' errno' req,
        ('(len, c1) ← sstp_route_newmsg getpid c route cmd flags;
         if len <? 0 then Done (-1, c1, w)
         else
           '(len, c2, w2) ← sstp_route_talk getpid send c1 (ctx_buf c1) len w;
           if len <? 0 then Done (-1, c2, w2) else Done (0, c2, w2))
        = Done (0, c', mk_io errno' rest (sent ++ [req]))
        ∧ Z.of_nat (length req) = 28 + attrs_space (route_attrs route)
        ∧ ctx_seq c' = wrap_i32 (ctx_seq c + 1) ∧ ctx_sock c' = ctx_sock c
        ∧ (pre = [] → errno' = errno)) as H.
    { intros cmd flags.
      destruct (newmsg_request c route cmd flags Hv)
        as (c1 & Hn & Hwf & Hq & Hk & Hnl & Hr & Hlen).
      rewrite Hn, run_bind_Done.
      destruct (Z.ltb_spec (28 + attrs_space (route_attrs route)) 0); [lia|].
      rewrite talk_send_all by (first [done | unfold sizeof_buf; lia]).
      unfold w. cbn [io_inbox io_errno io_sent].
      destruct (recv_loop_skips getpid pre (RecvData data :: rest) (set_len c1 0) errno
                  (sent ++ [take (Z.to_nat (28 + attrs_space (route_attrs route)))
                              (ctx_buf c1)]))
        as (c2 & errno' & Hrun & Hwf2 & Hl2 & Hq2 & _ & He);
        [done|done|cbn; lia|cbn; by rewrite Hq|].
      cbn [ctx_seq set_len] in Hq2.
      rewrite recv_loop_correlated in Hrun; try done.
      2:{ split; [by rewrite Hq2, Hq|done]. }
      pose proof (recv_loop_post getpid _ _ _ _ _ _ _ (set_len_wf c1 0 Hwf) eq_refl Hrun)
        as (_ & Hq3 & Hk3 & _).
      rewrite Hrun, run_bind_Done.
      assert (16 ≤ recv_len c2 data) as Hge
        by (rewrite recv_len_eq by done; unfold msg_ok in Hok; lia).
      destruct (Z.ltb_spec (recv_len c2 data) 0); [lia|].
      eexists _, errno', _. split; [reflexivity|].
      split; [done|]. cbn [ctx_seq ctx_sock set_len] in Hq3, Hk3 |- *.
      split; [congruence|]. split; [congruence|done]. }
    split; apply H.
  - intros Hty Hlen ->.
    assert (∀ cmd flags,
      ∃ c' req,
        ('(len, c1) ← sstp_route_newmsg getpid c route cmd flags;
         if len <? 0 then Done (-1, c1, w)
         else
           '(len, c2, w2) ← sstp_route_talk getpid send c1 (ctx_buf c1) len w;
           if len <? 0 then Done (-1, c2, w2) else Done (0, c2, w2))
        = Done (-1, c', mk_io (wrap_i32 (- get_i32 req NLMSG_DATA)) rest (sent ++ [req]))
        ∧ Z.of_nat (length req) = 28 + attrs_space (route_attrs route)
        ∧ 0 < get_i32 req NLMSG_DATA) as H.
    { intros cmd flags.
      destruct (newmsg_request c route cmd flags Hv)
        as (c1 & Hn & Hwf & Hq & Hk & Hnl & Hr & Hlen').
      destruct (newmsg_stale_code c route cmd flags _ c1 data Hv Hn Hlen)
        as (Hcode & Hpos); [lia|].
      rewrite Hn, run_bind_Done.
      destruct (Z.ltb_spec (28 + attrs_space (route_attrs route)) 0); [lia|].
      rewrite talk_send_all by (first [done | unfold sizeof_buf; lia]).
      unfold w. cbn [io_inbox io_errno io_sent app].
      rewrite recv_loop_error_read; [|done|done|done|done|rewrite Hcode; lia].
      rewrite run_bind_Done, Hcode. change (-1 <? 0) with true. cbv iota.
      eexists _, _. split; [reflexivity|]. split; [done|done]. }
    split; apply H.
Qed.

End Acknowledgements.

(** ** Appending and walking attributes *)

Lemma run_bind_Undefined {A B} (f : A → run B) : (Undefined ≫= f) = Undefined.
Proof. reflexivity. Qed.

(** The accesses of sstp_route_addattr are checked accesses: the call
    returns or it is undefined. *)
Lemma addattr_not_blocked buf type len value :
  sstp_route_addattr buf type len value ≠ Blocked.
Proof.
  unfold sstp_route_addattr.
  destruct (store buf _ _); cbn [checked];
    rewrite ?run_bind_Done, ?run_bind_Undefined; [|done].
  destruct (store _ _ _); cbn [checked];
    rewrite ?run_bind_Done, ?run_bind_Undefined; [|done].
  destruct (read_obj _ _); cbn [checked];
    rewrite ?run_bind_Done, ?run_bind_Undefined; [|done].
  by destruct (store _ _ _).
Qed.

(** What a call that returns has accessed. *)
Lemma addattr_inv buf type len value buf' :
  sstp_route_addattr buf type len value = Done buf' →
  length buf = Z.to_nat sizeof_buf → 28 ≤ nlmsg_len buf →
  let rta := NLMSG_ALIGN (nlmsg_len buf) in
  0 ≤ len ≤ Z.of_nat (length value) ∧ rta + 4 + len ≤ sizeof_buf
  ∧ same_on buf' buf (rta + 4 + len) sizeof_buf.
Proof.
  unfold sizeof_buf. intros Hrun Hlen Hlo. cbv zeta.
  pose proof (NLMSG_ALIGN_div (nlmsg_len buf)) as Hal.
  assert (nlmsg_len buf ≤ NLMSG_ALIGN (nlmsg_len buf)) as Hge by dlia.
  unfold sstp_route_addattr, NLMSG_TAIL, RTA_DATA in Hrun.
  change (RTA_LENGTH 0) with 4 in Hrun.
  set (rta := NLMSG_ALIGN (nlmsg_len buf)) in *.
  apply run_bind_inv in Hrun as (b1 & Hb1 & Hrun).
  apply checked_inv, store_inv in Hb1 as (-> & _ & Hin1).
  apply run_bind_inv in Hrun as (b2 & Hb2 & Hrun).
  apply checked_inv, store_inv in Hb2 as (-> & _ & _).
  apply run_bind_inv in Hrun as (v & Hv & Hrun).
  apply checked_inv, read_obj_inv in Hv as (_ & Hlv & Hvl).
  apply checked_inv, store_inv in Hrun as (-> & _ & Hin4).
  unfold put_u32 in Hin4. rewrite !length_put_bytes in Hin4.
  split; [done|]. split; [lia|].
  eapply same_on_trans; [apply same_on_put; lia|].
  eapply same_on_trans; [apply same_on_put_u32; lia|].
  eapply same_on_trans; apply same_on_put; rewrite ?length_le_encode; lia.
Qed.

(** X7.  sstp_route_addattr on a message of aligned length in the buffer
    of the session.  When [len] bytes can be read from the value and the
    attribute header and payload fit behind the message, the call appends
    one attribute: read back at the old end of the message it has the
    type (as 16 bits) and the first [len] bytes of the value, the length
    of the message grows by the aligned size of the attribute, and no
    other byte behind the length field changes, the padding included.
    Otherwise the call reads or writes outside an object: the function
    has no check of its own. *)
Theorem addattr_appends_when_room buf type len value :
  length buf = Z.to_nat sizeof_buf → 28 ≤ nlmsg_len buf → nlmsg_len buf mod 4 = 0 →
  let n := nlmsg_len buf in
  if bool_decide (0 ≤ len ≤ Z.of_nat (length value) ∧ n + 4 + len ≤ sizeof_buf)
  then ∃ buf', sstp_route_addattr buf type len value = Done buf'
         ∧ length buf' = Z.to_nat sizeof_buf
         ∧ nlmsg_len buf' = n + RTA_SPACE len
         ∧ attr_at buf' n = (to_u16 type, take (Z.to_nat len) value)
         ∧ same_on buf' buf 4 n
         ∧ same_on buf' buf (n + 4 + len) sizeof_buf
  else sstp_route_addattr buf type len value = Undefined.
Proof.
  intros Hlen Hlo Hal. cbv zeta. case_bool_decide as Hroom.
  - destruct Hroom as [Hv Hfit].
    pose proof (RTA_SPACE_bounds len) as Hsp.
    assert (nlmsg_len buf + RTA_SPACE len ≤ sizeof_buf) as Hspace
      by (unfold sizeof_buf in *; dlia).
    destruct (addattr_ok buf type len value _ _ Hlen eq_refl Hlo Hal
                (read_obj_Some value len Hv) Hspace)
      as (buf' & Hrun & Hl' & Hn' & Hs' & Hrl & Hrt & Hpay).
    exists buf'. repeat split; try done.
    + unfold attr_at, RTA_PAYLOAD. rewrite Hrl, Hrt. f_equal.
      unfold RTA_LENGTH. change (RTA_ALIGN sizeof_rtattr) with 4.
      unfold to_u16. rewrite Z.mod_small by (unfold sizeof_buf in *; lia).
      replace (4 + len - (4 + 0)) with len by lia.
      rewrite length_take in Hpay.
      by replace (Z.to_nat len `min` length value)%nat with (Z.to_nat len) in Hpay by lia.
    + destruct (addattr_inv _ _ _ _ _ Hrun Hlen Hlo) as (_ & _ & Hs).
      by rewrite (NLMSG_ALIGN_aligned _ Hal) in Hs.
  - destruct (sstp_route_addattr buf type len value) as [buf'| |] eqn:Hrun; [| |done].
    + destruct (addattr_inv _ _ _ _ _ Hrun Hlen Hlo) as (? & ? & _).
      rewrite (NLMSG_ALIGN_aligned _ Hal) in *. tauto.
    + by apply addattr_not_blocked in Hrun.
Qed.

(** X8.  The attribute loop checks every attribute before it visits it:
    each attribute visited starts inside the region, on a four-byte
    boundary from its start, declares at least the size of an attribute
    header, and ends (header and payload) inside the region. *)
Theorem rta_walk_stays_in_region buf rta rtl :
  Forall (λ o, rta ≤ o ∧ (o - rta) mod 4 = 0 ∧ 4 ≤ rta_len buf o
               ∧ o + rta_len buf o ≤ rta + rtl)
    (rta_offsets buf rta rtl).
Proof.
  unfold rta_offsets. generalize (Z.to_nat rtl) at 1. intros fuel.
  revert rta rtl. induction fuel as [|fuel IH]; intros rta rtl; cbn [rta_walk];
    [exact (Forall_nil_2 _)|].
  destruct (RTA_OK buf rta rtl) eqn:Hok; [|exact (Forall_nil_2 _)].
  apply RTA_OK_true in Hok as (? & ? & ?).
  pose proof (RTA_ALIGN_bounds (rta_len buf rta)) as (Hb & Hm).
  apply Forall_cons; split.
  - rewrite Z.sub_diag. repeat split; try done; lia.
  - eapply Forall_impl; [apply IH|]. intros o (? & Hmod & ? & ?). cbv beta in *.
    repeat split; try lia.
    replace (o - rta) with ((o - (rta + RTA_ALIGN (rta_len buf rta)))
                            + RTA_ALIGN (rta_len buf rta)) by lia.
    revert Hmod Hm. generalize (o - (rta + RTA_ALIGN (rta_len buf rta))).
    generalize (RTA_ALIGN (rta_len buf rta)). intros; dlia.
Qed.

(** X9.  The attribute loop ends at the first attribute that does not
    pass RTA_OK and reports nothing: a region that holds the attributes
    [attrs] followed by [rest] bytes that do not start with a well-formed
    attribute yields [attrs], as a region that ends after them does. *)
Theorem rta_walk_stops_at_malformed buf off attrs rest :
  encodes buf off attrs → 0 ≤ rest →
  RTA_OK buf (off + attrs_space attrs) rest = false →
  attr_at buf <$> rta_offsets buf off (attrs_space attrs + rest) = attrs.
Proof.
  unfold rta_offsets. set (fuel := Z.to_nat (attrs_space attrs + rest)).
  intros Henc Hrest Hbad.
  assert (∀ f, (length attrs < f)%nat →
               attr_at buf <$> rta_walk f buf off (attrs_space attrs + rest) = attrs) as H.
  { clear fuel. revert off Henc Hbad.
    induction attrs as [|a attrs IH]; intros off Henc Hbad f Hf.
    - destruct f; [done|]. cbn [rta_walk]. change (attrs_space []) with 0 in *.
      rewrite Z.add_0_r in Hbad. by rewrite Z.add_0_l, Hbad.
    - destruct f as [|f]; [cbn in Hf; lia|].
      destruct Henc as (Hl & Ht & Hb & Hnext). unfold sizeof_rtattr in Hl.
      rewrite attrs_space_cons in *.
      pose proof (RTA_SPACE_bounds (Z.of_nat (length a.2))) as Hsp.
      pose proof (attrs_space_nonneg attrs) as Hnn.
      cbn [rta_walk].
      assert (RTA_OK buf off (RTA_SPACE (Z.of_nat (length a.2)) + attrs_space attrs + rest)
              = true) as -> by (apply RTA_OK_true; lia).
      assert (RTA_ALIGN (rta_len buf off) = RTA_SPACE (Z.of_nat (length a.2))) as ->
        by (by rewrite Hl).
      cbn [fmap list_fmap]. f_equal.
      + unfold attr_at, RTA_PAYLOAD. rewrite Hl, Ht. change (RTA_LENGTH 0) with 4.
        replace (Z.to_nat (4 + Z.of_nat (length a.2) - 4)) with (length a.2) by lia.
        rewrite Hb. by destruct a.
      + replace (RTA_SPACE (Z.of_nat (length a.2)) + attrs_space attrs + rest
                 - RTA_SPACE (Z.of_nat (length a.2)))
          with (attrs_space attrs + rest) by lia.
        apply IH; [done| |cbn in Hf; lia].
        by rewrite <- Z.add_assoc. }
  destruct (decide (length attrs < fuel)%nat) as [?|Hsmall]; [by apply H|].
  rewrite (rta_walk_fuel fuel (S (length attrs))); [apply H; lia|done|lia].
Qed.

(** ** The route that sstp_route_get hands out *)

Lemma wrap_i32_range x : -2147483648 ≤ wrap_i32 x < 2147483648.
Proof. unfold wrap_i32. dlia. Qed.

Lemma copy_into_length obj src a : copy_into obj src = Some a → length a = length obj.
Proof.
  unfold copy_into. intros (-> & _)%store_inv. apply length_put_bytes.
Qed.

Section DecoderInvariants.

Variable if_indextoname : Z → option string.

(** One pass of the switch keeps the family, the address length, the
    room of the address fields and the range of the interface index. *)
Lemma decode_attr_keeps buf r rta r' :
  decode_attr if_indextoname buf r rta = Done r' →
  route_sized r → -2147483648 ≤ rt_oif r < 2147483648 →
  route_sized r' ∧ -2147483648 ≤ rt_oif r' < 2147483648
  ∧ rt_family r' = rt_family r ∧ rt_blen r' = rt_blen r.
Proof.
  unfold decode_attr, route_sized. intros Hrun (Hd & Hs & Hg) Ho.
  destruct (rta_type buf rta =? RTA_OIF).
  { apply run_bind_inv in Hrun as (idx & _ & Hrun).
    apply run_bind_inv in Hrun as (oif & _ & Hrun). injection Hrun as <-.
    destruct (if_indextoname _); cbn; repeat split; try done; apply wrap_i32_range. }
  destruct (rta_type buf rta =? RTA_GATEWAY).
  { apply run_bind_inv in Hrun as (a & Ha%checked_inv%copy_into_length & [= <-]).
    cbn. by rewrite Ha. }
  destruct (rta_type buf rta =? RTA_PREFSRC).
  { apply run_bind_inv in Hrun as (a & Ha%checked_inv%copy_into_length & [= <-]).
    cbn. by rewrite Ha. }
  destruct (rta_type buf rta =? RTA_DST).
  { apply run_bind_inv in Hrun as (a & Ha%checked_inv%copy_into_length & [= <-]).
    cbn. by rewrite Ha. }
  by injection Hrun as <-.
Qed.

Lemma decode_attrs_keeps buf r rtas r' :
  decode_attrs if_indextoname buf r rtas = Done r' →
  route_sized r → -2147483648 ≤ rt_oif r < 2147483648 →
  route_sized r' ∧ -2147483648 ≤ rt_oif r' < 2147483648
  ∧ rt_family r' = rt_family r ∧ rt_blen r' = rt_blen r.
Proof.
  revert r. induction rtas as [|rta rtas IH]; intros r; cbn [decode_attrs].
  - by intros [= <-].
  - intros (r1 & H1 & Hrun)%run_bind_inv Hr Ho.
    destruct (decode_attr_keeps _ _ _ _ H1 Hr Ho) as (Hr1 & Ho1 & <- & <-).
    by apply IH.
Qed.

(** Attributes of different types fill different fields. *)
Lemma apply_attr_comm r a b :
  a.1 ≠ b.1 →
  apply_attr if_indextoname (apply_attr if_indextoname r a) b
  = apply_attr if_indextoname (apply_attr if_indextoname r b) a.
Proof.
  destruct a as [ta pa], b as [tb pb]. cbn [fst]. intros Hne. unfold apply_attr.
  cbn [fst snd].
  destruct (Z.eqb_spec ta RTA_OIF), (Z.eqb_spec tb RTA_OIF); [congruence|..];
    destruct (Z.eqb_spec ta RTA_GATEWAY), (Z.eqb_spec tb RTA_GATEWAY);
    try congruence;
    destruct (Z.eqb_spec ta RTA_PREFSRC), (Z.eqb_spec tb RTA_PREFSRC);
    try congruence;
    destruct (Z.eqb_spec ta RTA_DST), (Z.eqb_spec tb RTA_DST);
    try congruence;
    repeat match goal with |- context [if_indextoname ?x] => destruct (if_indextoname x) end;
    reflexivity.
Qed.

Lemma foldl_apply_permutation r l1 l2 :
  l1 ≡ₚ l2 → NoDup l1.*1 →
  foldl (apply_attr if_indextoname) r l1 = foldl (apply_attr if_indextoname) r l2.
Proof.
  intros Hp. revert r. induction Hp as [|x l l' Hp IH|x y l|l l' l'' Hp1 IH1 Hp2 IH2];
    intros r Hnd.
  - done.
  - cbn [foldl]. apply IH. by apply NoDup_cons in Hnd as [_ ?].
  - cbn [foldl]. f_equal. apply apply_attr_comm.
    cbn [fmap list_fmap] in Hnd. apply NoDup_cons in Hnd as [Hin _].
    rewrite not_elem_of_cons in Hin. intros E. by destruct Hin as [? _].
  - rewrite IH1 by done. apply IH2. by rewrite <- Hp1.
Qed.

End DecoderInvariants.

Section RouteOfGet.

Variable getpid : Z.
Variable send : list Z → Z.
Variable if_indextoname : Z → option string.

(** The builder returns for every route whose address fields have their
    room and whose address length is within it. *)
Lemma newmsg_sized c route cmd flags :
  route_sized route → 0 ≤ rt_blen route ≤ 16 →
  ∃ c', sstp_route_newmsg getpid c route cmd flags
        = Done (28 + attrs_space (route_attrs route), c')
    ∧ built (ctx_buf c') (route_attrs route)
    ∧ attrs_space (route_attrs route) ≤ 92.
Proof.
  intros (Hd & Hs & Hg) Hbl.
  assert (∀ a, length a = sizeof_addr →
               read_obj a (rt_blen route) = Some (take (Z.to_nat (rt_blen route)) a))
    as Hread by (intros a Ha; apply read_obj_Some; rewrite Ha; unfold sizeof_addr; lia).
  pose proof (Hread _ Hd) as Hrd. pose proof (Hread _ Hs) as Hrs.
  pose proof (Hread _ Hg) as Hrg.
  pose proof (RTA_SPACE_bounds (rt_blen route)) as Hsp.
  unfold sstp_route_newmsg.
  match goal with |- context [opt_attr _ ?b RTA_DST] => set (b0 := b) end.
  assert (built b0 []) as Hb0.
  { destruct (newmsg_body_start getpid cmd (Z.lor (Z.lor NLM_F_REQUEST NLM_F_ACK) flags)
                (wrap_i32 (ctx_seq c + 1)) (rt_family route)
                (if have_gwy (rt_have route) then RT_SCOPE_UNIVERSE else RT_SCOPE_LINK))
      as (Hl & Hn & _). fold b0 in Hl, Hn. by repeat split. }
  change (attrs_space []) with 0 in *.
  destruct (opt_attr_built (have_dst (rt_have route)) b0 [] RTA_DST _ _
              (λ b, put_u8 b (NLMSG_DATA + 1) (Z.shiftl (rt_blen route) 3)) _
              Hb0 (body_only_put_u8 (NLMSG_DATA + 1) _
                     ltac:(change NLMSG_DATA with 16; lia)) Hrd)
    as (b1 & -> & Hb1 & Hs1 & _); [done|unfold sizeof_buf; change (attrs_space []) with 0; lia|].
  rewrite run_bind_Done. change (attrs_space []) with 0 in Hs1.
  destruct (opt_attr_built (have_src (rt_have route)) b1 _ RTA_PREFSRC _ _
              (λ b, put_u8 b (NLMSG_DATA + 2) (Z.shiftl (rt_blen route) 3)) _
              Hb1 (body_only_put_u8 (NLMSG_DATA + 2) _
                     ltac:(change NLMSG_DATA with 16; lia)) Hrs)
    as (b2 & -> & Hb2 & Hs2 & _); [done|unfold sizeof_buf; lia|].
  rewrite run_bind_Done.
  destruct (opt_attr_built (have_gwy (rt_have route)) b2 _ RTA_GATEWAY _ _ id _
              Hb2 body_only_id Hrg)
    as (b3 & -> & Hb3 & Hs3 & _); [done|unfold sizeof_buf; lia|].
  rewrite run_bind_Done.
  destruct (opt_attr_built (have_oif (rt_have route)) b3 _ RTA_OIF sizeof_oif
              (le_encode 4 (rt_oif route)) id (le_encode 4 (rt_oif route)) Hb3 body_only_id)
    as (b4 & -> & Hb4 & Hs4 & _);
    [done|done|change (RTA_SPACE sizeof_oif) with 8; unfold sizeof_buf; lia|].
  rewrite run_bind_Done.
  match type of Hb4 with
  | built _ ?l =>
      assert (l = route_attrs route) as Heq
        by (unfold route_attrs; cbn [app]; by rewrite <- !app_assoc)
  end.
  rewrite Heq in Hb4, Hs4.
  pose proof (attrs_space_nonneg (route_attrs route)).
  unfold sizeof_oif in Hs4.
  destruct Hb4 as (Hl4 & Hn4 & He4). unfold sizeof_nlmsghdr, sizeof_rtmsg in Hn4.
  eexists. split; [|split].
  - rewrite Hn4, wrap_i32_small by lia.
    by replace (16 + 12 + attrs_space (route_attrs route))
      with (28 + attrs_space (route_attrs route)) by lia.
  - by repeat split.
  - lia.
Qed.

(** The route of a call that returns 0. *)
Lemma get_result_shape c dst out w c' route' w' :
  sstp_route_get getpid send if_indextoname c dst out w = Done (0, c', route', w') →
  rt_family route' = rtm_family (ctx_buf c')
  ∧ (rt_family route' = AF_INET ∧ rt_blen route' = 4
     ∨ rt_family route' = AF_INET6 ∧ rt_blen route' = 16)
  ∧ route_sized route'
  ∧ -2147483648 ≤ rt_oif route' < 2147483648.
Proof.
  unfold sstp_route_get. intros Hrun.
  apply run_bind_inv in Hrun as (c1 & _ & Hrun).
  apply run_bind_inv in Hrun as ([[len c2] w2] & _ & Hrun).
  destruct (len <? 0); [by injection Hrun|].
  destruct (negb (NLMSG_OK (ctx_buf c2) len)); [by injection Hrun|].
  destruct (negb (rtm_family (ctx_buf c2) =? AF_INET)
            && negb (rtm_family (ctx_buf c2) =? AF_INET6)) eqn:Hfam;
    [by injection Hrun|].
  apply run_bind_inv in Hrun as (r' & Hdec & Hrun). injection Hrun as <- <- <-.
  apply decode_attrs_keeps in Hdec as (Hsz & Ho & Hf & Hb);
    [|apply route_init_sized|done].
  cbn [rt_family rt_blen route_init] in Hf, Hb.
  split; [done|]. split; [|done].
  rewrite Hf, Hb.
  destruct (Z.eqb_spec (rtm_family (ctx_buf c2)) AF_INET) as [->|_]; [by left|].
  destruct (Z.eqb_spec (rtm_family (ctx_buf c2)) AF_INET6) as [->|_]; [by right|done].
Qed.

(** X10.  Whenever sstp_route_get returns 0, the route it hands out has
    the family of the response, IPv4 or IPv6, with the address length of
    that family, address fields of full size and an interface index in
    the range of an int; and sstp_route_newmsg — hence the request of
    sstp_route_replace and sstp_route_delete — returns for this route in
    any session, with a message that carries exactly the attributes the
    route has flags for. *)
Theorem get_route_feeds_newmsg c dst out w c' route' w' :
  sstp_route_get getpid send if_indextoname c dst out w = Done (0, c', route', w') →
  rt_family route' = rtm_family (ctx_buf c')
  ∧ (rt_family route' = AF_INET ∧ rt_blen route' = 4
     ∨ rt_family route' = AF_INET6 ∧ rt_blen route' = 16)
  ∧ route_sized route'
  ∧ -2147483648 ≤ rt_oif route' < 2147483648
  ∧ (∀ c0 cmd flags,
       ∃ c1, sstp_route_newmsg getpid c0 route' cmd flags
             = Done (28 + attrs_space (route_attrs route'), c1)
         ∧ parse_attrs (ctx_buf c1) = route_attrs route').
Proof.
  intros Hrun. destruct (get_result_shape _ _ _ _ _ _ _ Hrun) as (Hf & Hshape & Hsz & Ho).
  repeat (split; [done|]).
  intros c0 cmd flags.
  destruct (newmsg_sized c0 route' cmd flags Hsz) as (c3 & Hn & Hbuilt & Hsp);
    [destruct Hshape as [[_ ->]|[_ ->]]; lia|].
  exists c3. split; [done|]. apply built_parse; [done|lia].
Qed.

(** X11.  The route that sstp_route_get decodes does not depend on the
    order of the attributes in the response, as long as no attribute
    type occurs twice: two responses of the same family whose attributes
    are a rearrangement of each other give the same route. *)
Theorem get_attribute_order_irrelevant c dst out errno sent pre resp1 resp2 rest :
  send_all send → dst_valid dst →
  Forall (skipped getpid (wrap_i32 (ctx_seq c + 1))) pre →
  route_response getpid c resp1 → route_response getpid c resp2 →
  rtm_family resp1 = rtm_family resp2 →
  rtm_family resp1 = AF_INET ∨ rtm_family resp1 = AF_INET6 →
  parse_attrs resp1 ≡ₚ parse_attrs resp2 →
  NoDup (parse_attrs resp1).*1 → Forall attr_fits (parse_attrs resp1) →
  ∃ route' c1 w1 c2 w2,
    sstp_route_get getpid send if_indextoname c dst out
      (mk_io errno (pre ++ RecvData resp1 :: rest) sent) = Done (0, c1, route', w1)
    ∧ sstp_route_get getpid send if_indextoname c dst out
        (mk_io errno (pre ++ RecvData resp2 :: rest) sent) = Done (0, c2, route', w2).
Proof.
  intros Hsend Hd Hpre Hr1 Hr2 Hfam Hf Hperm Hnd Hfit.
  destruct (get_exchange getpid send if_indextoname c dst out errno sent pre resp1 rest
              Hsend Hd Hpre Hr1)
    as (c1 & e1 & s1 & Hwf1 & Hsame1 & Hmax1 & _ & Hget1).
  destruct (get_exchange getpid send if_indextoname c dst out errno sent pre resp2 rest
              Hsend Hd Hpre Hr2)
    as (c2 & e2 & s2 & Hwf2 & Hsame2 & Hmax2 & _ & Hget2).
  rewrite <- Hfam in Hget2.
  assert (negb (rtm_family resp1 =? AF_INET) && negb (rtm_family resp1 =? AF_INET6)
          = false) as Hb by (destruct Hf as [-> | ->]; done).
  rewrite Hb in Hget1, Hget2.
  destruct Hr1 as (_ & _ & H281 & _). destruct Hr2 as (_ & _ & H282 & _).
  rewrite (decode_received if_indextoname _ resp1), run_bind_Done in Hget1;
    [|done|lia|done|apply route_init_sized|done].
  rewrite (decode_received if_indextoname _ resp2), run_bind_Done in Hget2;
    [|done|lia|done|apply route_init_sized|by rewrite <- Hperm].
  rewrite <- (foldl_apply_permutation if_indextoname _ _ _ Hperm Hnd) in Hget2.
  by do 5 eexists.
Qed.


End RouteOfGet.

(** ** Attributes that do not fit the route *)

Lemma copy_into_None obj src : (length obj < length src)%nat → copy_into obj src = None.
Proof.
  intros Hl. unfold copy_into, store, in_bounds.
  rewrite bool_decide_eq_false_2; [done|]. lia.
Qed.

Section OversizedAttributes.

Variable getpid : Z.
Variable send : list Z → Z.
Variable if_indextoname : Z → option string.

Lemma decode_attrs_app buf r l1 l2 :
  decode_attrs if_indextoname buf r (l1 ++ l2)
  = (r1 ← decode_attrs if_indextoname buf r l1; decode_attrs if_indextoname buf r1 l2).
Proof.
  revert r. induction l1 as [|o l1 IH]; intros r; [done|].
  cbn [app decode_attrs].
  destruct (decode_attr if_indextoname buf r o) as [r1| |]; [|done..].
  rewrite !run_bind_Done. apply IH.
Qed.

(** The attributes of a response in the buffer are those of the
    datagram, at the same offsets, inside the buffer. *)
Lemma received_offsets buf resp :
  length buf = Z.to_nat sizeof_buf →
  28 ≤ nlmsg_len resp ≤ sizeof_buf →
  same_on buf resp 0 (nlmsg_len resp) →
  rta_offsets buf RTM_RTA (RTM_PAYLOAD buf) = rta_offsets resp RTM_RTA (RTM_PAYLOAD resp)
  ∧ Forall (λ o, attr_at buf o = attr_at resp o ∧ 0 ≤ o ∧ 4 ≤ rta_len buf o
                 ∧ o + rta_len buf o ≤ Z.of_nat (length buf))
      (rta_offsets resp RTM_RTA (RTM_PAYLOAD resp)).
Proof.
  unfold sizeof_buf. intros Hlen Hn Hs.
  assert (nlmsg_len buf = nlmsg_len resp) as Hnl
    by (apply (same_on_u32 _ _ _ _ _ Hs); lia).
  assert (RTM_PAYLOAD buf = nlmsg_len resp - 28 ∧ RTM_PAYLOAD resp = nlmsg_len resp - 28)
    as [Hp1 Hp2].
  { unfold RTM_PAYLOAD. rewrite Hnl. change (NLMSG_SPACE sizeof_rtmsg) with 28.
    by rewrite to_u32_small, wrap_i32_small by lia. }
  rewrite Hp1, Hp2. change RTM_RTA with 28. unfold rta_offsets. split.
  - apply rta_walk_same; [lia|]. eapply same_on_sub; [apply Hs|lia..].
  - apply Forall_forall. intros o Ho. apply rta_walk_in_range in Ho as (? & ? & ?).
    assert (rta_len buf o = rta_len resp o) as ->
      by (apply (same_on_u16 _ _ _ _ _ Hs); lia).
    split; [|lia]. apply (attr_at_same _ _ 0 (nlmsg_len resp)); [done|lia..].
Qed.

(** X13.  sstp_route_get copies the payload of an attribute into the
    field of the route with the length that the attribute declares, and
    does not compare it with the size of the field.  When the response
    to the request has, after attributes that fit, a gateway, source or
    destination attribute with a payload longer than an address field,
    or an output interface attribute with a payload longer than an int,
    the copy writes beyond the field: the call is undefined. *)
Theorem get_oversized_attribute_is_undefined
    c dst out errno sent pre resp rest l1 t p l2 :
  send_all send → dst_valid dst →
  Forall (skipped getpid (wrap_i32 (ctx_seq c + 1))) pre →
  route_response getpid c resp →
  rtm_family resp = AF_INET ∨ rtm_family resp = AF_INET6 →
  parse_attrs resp = l1 ++ (t, p) :: l2 → Forall attr_fits l1 →
  ((t = RTA_GATEWAY ∨ t = RTA_PREFSRC ∨ t = RTA_DST) ∧ (sizeof_addr < length p)%nat)
  ∨ (t = RTA_OIF ∧ (4 < length p)%nat) →
  sstp_route_get getpid send if_indextoname c dst out
    (mk_io errno (pre ++ RecvData resp :: rest) sent) = Undefined.
Proof.
  intros Hsend Hd Hpre Hresp Hf Hattrs Hfit Hbig.
  destruct (get_exchange getpid send if_indextoname c dst out errno sent pre resp rest
              Hsend Hd Hpre Hresp)
    as (c2 & errno' & sent' & Hwf & Hsame & Hmax & Hfam & ->).
  assert (negb (rtm_family resp =? AF_INET) && negb (rtm_family resp =? AF_INET6)
          = false) as -> by (destruct Hf as [-> | ->]; done).
  destruct Hresp as (_ & _ & H28 & _).
  destruct (received_offsets (ctx_buf c2) resp Hwf ltac:(lia) Hsame) as [-> Hoffs].
  unfold parse_attrs in Hattrs.
  apply fmap_app_inv in Hattrs as (o1s & os' & Hl1 & Hrest & Hsplit).
  symmetry in Hrest. apply fmap_cons_inv in Hrest as (o & o2s & Ho & Hl2 & ->).
  rewrite Hsplit in *. clear Hsplit.
  apply Forall_app in Hoffs as [Hoffs1 Hoffs2].
  apply Forall_cons in Hoffs2 as [(Hat & Ho0 & Hlen & Hin) _].
  rewrite decode_attrs_app.
  assert (Forall (λ rta, attr_fits (attr_at (ctx_buf c2) rta) ∧ 0 ≤ rta
                         ∧ 4 ≤ rta_len (ctx_buf c2) rta
                         ∧ rta + rta_len (ctx_buf c2) rta
                           ≤ Z.of_nat (length (ctx_buf c2))) o1s) as Hok1.
  { rewrite Hl1, Forall_fmap in Hfit. rewrite Forall_forall in *.
    intros x Hx. destruct (Hoffs1 x Hx) as (Hax & ?). split; [|done].
    rewrite Hax. by apply Hfit. }
  pose proof (decode_attrs_apply if_indextoname (ctx_buf c2)
                (route_init (rtm_family resp)) o1s
                (route_init_sized _) Hok1) as Hdec1.
  rewrite Hdec1, run_bind_Done.
  destruct (decode_attrs_keeps if_indextoname _ _ _ _ Hdec1 (route_init_sized _))
    as ((Hdl & Hsl & Hgl) & _); [done|].
  set (r1 := foldl (apply_attr if_indextoname) (route_init (rtm_family resp))
               (attr_at (ctx_buf c2) <$> o1s)) in *.
  cbn [decode_attrs].
  assert (decode_attr if_indextoname (ctx_buf c2) r1 o = Undefined) as ->; [|done].
  rewrite <- Hat in Ho. unfold attr_at in Ho. injection Ho as Ht Hp.
  unfold decode_attr. rewrite <- Ht, <- Hp.
  assert (Z.of_nat (length p) = rta_len (ctx_buf c2) o - 4) as Hpl.
  { rewrite Hp, length_get_bytes; unfold RTA_PAYLOAD, RTA_DATA;
      change (RTA_LENGTH 0) with 4; lia. }
  destruct Hbig as [(Hty & Hlong)|(-> & Hlong)].
  - assert ((t =? RTA_OIF) = false) as ->
      by (apply Z.eqb_neq; destruct Hty as [->|[->| ->]]; done).
    destruct (Z.eqb_spec t RTA_GATEWAY) as [_|Hn1];
      [rewrite copy_into_None by (rewrite Hgl; lia); done|].
    destruct (Z.eqb_spec t RTA_PREFSRC) as [_|Hn2];
      [rewrite copy_into_None by (rewrite Hsl; lia); done|].
    destruct (Z.eqb_spec t RTA_DST) as [_|Hn3];
      [rewrite copy_into_None by (rewrite Hdl; lia); done|].
    destruct Hty as [?|[?|?]]; done.
  - rewrite Z.eqb_refl.
    assert (load (ctx_buf c2) (RTA_DATA o) 4
            = Some (get_bytes (ctx_buf c2) (RTA_DATA o) 4)) as ->.
    { unfold load, in_bounds, RTA_DATA. change (RTA_LENGTH 0) with 4.
      rewrite bool_decide_eq_true_2; [done|]. lia. }
    cbn [checked]. rewrite run_bind_Done.
    rewrite copy_into_None; [done|].
    destruct (if_indextoname _); rewrite length_le_encode; lia.
Qed.

End OversizedAttributes.

(** ** Responses without a route message *)

Section ShortResponses.

Variable getpid : Z.
Variable send : list Z → Z.
Variable if_indextoname : Z → option string.

(** X22.  sstp_route_get does not check that the response holds a route
    message.  When the answer to its request is a bare netlink header of
    sixteen bytes (not an error frame), the family is read from the byte
    that the request left behind the header in the buffer, the attribute
    region has a negative length, and the call returns 0 with a zeroed
    route of the family of the destination, without any address. *)
Theorem get_header_only_response c dst out errno sent resp rest :
  send_all send → dst_valid dst →
  length resp = 16%nat → nlmsg_len resp = 16 → nlmsg_type resp ≠ NLMSG_ERROR →
  nlmsg_seq resp = to_u32 (wrap_i32 (ctx_seq c + 1)) →
  nlmsg_pid resp = to_u32 getpid →
  ∃ c' sent',
    sstp_route_get getpid send if_indextoname c dst out
      (mk_io errno (RecvData resp :: rest) sent)
    = Done (0, c', route_init (sa_family dst), mk_io errno rest sent').
Proof.
  intros Hsend Hd Hlen Hnl Hty Hseq Hpid.
  destruct (get_request_ok getpid c dst Hd) as (c1 & Hr & Hb & Hfam & _ & _ & Hs1 & _).
  pose proof Hb as (Hl1 & Hn & _). unfold sizeof_nlmsghdr, sizeof_rtmsg in Hn.
  assert (attrs_space [(RTA_DST, sa_addr dst)] ≤ 20) as Hsp.
  { rewrite attrs_space_cons. cbn [snd].
    pose proof (RTA_SPACE_bounds (Z.of_nat (length (sa_addr dst)))).
    change (attrs_space []) with 0. destruct Hd as [[_ Hl]|[_ Hl]]; rewrite Hl in *; dlia. }
  pose proof (attrs_space_nonneg [(RTA_DST, sa_addr dst)]) as Hnn.
  assert (ctx_wf (set_len c1 0)) as Hwf by done.
  assert (msg_ok resp) as Hok by (unfold msg_ok, sizeof_buf; lia).
  assert (correlated getpid (set_len c1 0) resp) as Hc
    by (split; [by rewrite Hseq; cbn; rewrite Hs1|done]).
  pose proof (received_ok (set_len c1 0) resp Hwf eq_refl Hok) as Hnlok.
  destruct (received_header (set_len c1 0) resp Hwf eq_refl Hok) as (Hnl2 & _).
  pose proof (recv_len_eq (set_len c1 0) resp eq_refl) as Hrl.
  unfold sizeof_buf in Hrl. rewrite Hlen in Hrl.
  change (Z.min (Z.of_nat 16) 1024) with 16 in Hrl.
  assert (rtm_family (ctx_buf (recv_ctx (set_len c1 0) resp)) = sa_family dst) as Hf2.
  { rewrite <- Hfam. unfold rtm_family, recv_ctx, recv_into.
    cbn [snd ctx_buf ctx_len set_len set_buf]. change (NLMSG_DATA + 0) with 16.
    apply get_u8_put_out; [lia..|]. right. rewrite length_take. lia. }
  unfold sstp_route_get. rewrite Hr, run_bind_Done.
  rewrite Hn, wrap_i32_small by lia.
  rewrite (talk_send_all getpid send) by (first [done | unfold sizeof_buf; lia]).
  cbn [io_inbox io_errno io_sent].
  rewrite recv_loop_correlated by (first [done | by left]).
  rewrite run_bind_Done. cbn [ctx_buf set_len].
  rewrite Hrl in *. change (16 <? 0) with false. cbv iota.
  rewrite Hnlok. cbn [negb]. rewrite Hf2.
  assert (negb (sa_family dst =? AF_INET) && negb (sa_family dst =? AF_INET6) = false)
    as -> by (destruct Hd as [[-> _]|[-> _]]; done).
  assert (rta_offsets (ctx_buf (recv_ctx (set_len c1 0) resp)) RTM_RTA
            (RTM_PAYLOAD (ctx_buf (recv_ctx (set_len c1 0) resp))) = []) as ->.
  { unfold RTM_PAYLOAD. rewrite Hnl2, Hnl. done. }
  cbn [decode_attrs]. rewrite run_bind_Done. by do 2 eexists.
Qed.

End ShortResponses.

(** ** The life cycle: failures, descriptor zero, other sessions *)

Section LifeCycleOutcomes.

Variable calloc_ok : bool.
Variable socket : gset Z → Z.

Lemma fresh_not_live (s : os) : os_heap s !! fresh (dom (os_heap s)) = None.
Proof. apply not_elem_of_dom, is_fresh. Qed.

(** The outcomes of sstp_route_init. *)
Lemma init_cases pctx s ret pctx' s' :
  sstp_route_init calloc_ok socket pctx s = (ret, pctx', s') →
  let fd := socket (os_fds s) in
  (ret = -1
   ∧ pctx' = pctx ∧ os_heap s' = os_heap s
   ∧ (calloc_ok = false ∧ s' = s
      ∨ calloc_ok = true ∧ fd < 0
        ∧ os_fds s' = os_fds s ∖ {[fd]} ∧ os_closed s' = os_closed s ++ [fd]))
  ∨ (ret = 0 ∧ calloc_ok = true ∧ 0 ≤ fd
     ∧ ∃ a, pctx' = Some a ∧ os_heap s !! a = None
       ∧ os_heap s' = <[a := set_sock ctx_zero fd]> (os_heap s)
       ∧ os_fds s' = {[fd]} ∪ os_fds s ∧ os_closed s' = os_closed s).
Proof.
  unfold sstp_route_init. cbv zeta. destruct calloc_ok; cbn [negb].
  - destruct (Z.ltb_spec (socket (os_fds s)) 0) as [Hneg|Hpos].
    + destruct (Z.eqb_spec (socket (os_fds s)) 0); [lia|]. cbn [negb].
      intros [= <- <- <-]. left. split; [done|]. split; [done|].
      cbn [os_heap os_free os_close os_update os_fds os_closed]. split.
      * rewrite delete_insert_eq. apply delete_id, fresh_not_live.
      * right. by repeat split.
    + intros [= <- <- <-]. right. repeat split; try done.
      exists (fresh (dom (os_heap s))). repeat split; try done. apply fresh_not_live.
  - intros [= <- <- <-]. left. repeat split; try done. by left.
Qed.

(** X14.  The outcomes of sstp_route_init.  It returns 0 or -1.  With
    -1 (no memory, or socket returned a negative value) the handle of
    the caller is as it was and the heap is as before the call: the
    block, if one was allocated, is released again; in the socket case
    close has been called once, on the negative value.  With 0 the
    handle is a block that was not live before, zeroed but for the
    descriptor, which is not negative and now open; nothing has been
    closed. *)
Theorem init_outcomes pctx s ret pctx' s' :
  sstp_route_init calloc_ok socket pctx s = (ret, pctx', s') →
  let fd := socket (os_fds s) in
  (ret = -1
   ∧ pctx' = pctx ∧ os_heap s' = os_heap s
   ∧ (calloc_ok = false ∧ s' = s
      ∨ calloc_ok = true ∧ fd < 0
        ∧ os_fds s' = os_fds s ∖ {[fd]} ∧ os_closed s' = os_closed s ++ [fd]))
  ∨ (ret = 0 ∧ calloc_ok = true ∧ 0 ≤ fd
     ∧ ∃ a, pctx' = Some a ∧ os_heap s !! a = None
       ∧ os_heap s' = <[a := set_sock ctx_zero fd]> (os_heap s)
       ∧ os_fds s' = {[fd]} ∪ os_fds s ∧ os_closed s' = os_closed s).
Proof. apply init_cases. Qed.

(** X15.  sstp_route_init accepts the descriptor 0 from socket, but
    sstp_route_done closes positive descriptors only: a session opened
    on descriptor 0 is released without a call of close, and the
    descriptor stays open. *)
Theorem descriptor_zero_is_never_closed pctx s :
  calloc_ok = true → socket (os_fds s) = 0 →
  ∃ a s1, sstp_route_init calloc_ok socket pctx s = (0, Some a, s1)
    ∧ sstp_route_done (Some a) s1
      = Done (mk_os (os_heap s) ({[0]} ∪ os_fds s) (os_closed s)).
Proof.
  intros -> Hfd. unfold sstp_route_init. cbn [negb].
  destruct (Z.ltb_spec (socket (os_fds s)) 0); [lia|].
  do 2 eexists. split; [by rewrite Hfd|]. unfold sstp_route_done.
  cbn [os_heap os_open os_update]. rewrite lookup_insert_eq.
  cbn [ctx_sock set_sock ctx_zero]. change (0 <? 0) with false. cbv iota.
  unfold os_free, os_open, os_update. cbn [os_heap os_fds os_closed]. do 2 f_equal.
  rewrite delete_insert_eq. apply delete_id, fresh_not_live.
Qed.

(** X16.  Sessions do not interfere.  sstp_route_init leaves every live
    block as it is, and so does sstp_route_done for the blocks other
    than the one it releases; sstp_route_done changes the state of no
    descriptor other than the one of its session. *)
Theorem other_sessions_untouched pctx s b :
  (∀ ret pctx' s',
     sstp_route_init calloc_ok socket pctx s = (ret, pctx', s') →
     is_Some (os_heap s !! b) → os_heap s' !! b = os_heap s !! b)
  ∧ (∀ a c s',
       sstp_route_done (Some a) s = Done s' → os_heap s !! a = Some c →
       os_heap s' !! a = None
       ∧ (b ≠ a → os_heap s' !! b = os_heap s !! b)
       ∧ (∀ fd, fd ≠ ctx_sock c → fd ∈ os_fds s' ↔ fd ∈ os_fds s)).
Proof.
  split.
  - intros ret pctx' s' Hinit Hb.
    apply init_cases in Hinit as [(_ & _ & -> & _)|(_ & _ & _ & a & _ & Ha & -> & _)];
      [done|].
    apply lookup_insert_ne. intros <-. rewrite Ha in Hb. by destruct Hb.
  - intros a c s' Hdone Ha. unfold sstp_route_done in Hdone. rewrite Ha in Hdone.
    injection Hdone as <-.
    destruct (0 <? ctx_sock c); cbn [os_heap os_fds os_free os_update os_close].
    + split; [apply lookup_delete_eq|].
      split; [intros Hne; by rewrite lookup_delete_ne, lookup_insert_ne by done|].
      intros fd Hfd. rewrite elem_of_difference, elem_of_singleton. tauto.
    + split; [apply lookup_delete_eq|].
      split; [intros Hne; by rewrite lookup_delete_ne by done|done].
Qed.

End LifeCycleOutcomes.

(** ** The shell fallback: the line read and the command run *)

Lemma first_line_length n out : (String.length (Shell.first_line n out) ≤ n)%nat.
Proof.
  revert out. induction n as [|n IH]; intros out; [done|].
  destruct out as [|ch rest]; cbn [Shell.first_line String.length]; [lia|].
  destruct (Ascii.eqb ch "010"%char); cbn [String.length]; [lia|].
  specialize (IH rest). lia.
Qed.

Lemma first_line_prefix n out : String.prefix (Shell.first_line n out) out = true.
Proof.
  revert out. induction n as [|n IH]; intros out; [by destruct out|].
  destruct out as [|ch rest]; cbn [Shell.first_line]; [done|].
  destruct (Ascii.eqb ch "010"%char); cbn [String.prefix].
  - destruct (ascii_dec ch ch); [by destruct rest|done].
  - destruct (ascii_dec ch ch); [apply IH|done].
Qed.

(** A newline ends the line: it occurs as the last character only. *)
Lemma first_line_newline n out i :
  String.get i (Shell.first_line n out) = Some "010"%char →
  S i = String.length (Shell.first_line n out).
Proof.
  revert out i. induction n as [|n IH]; intros out i; [by destruct out|].
  destruct out as [|ch rest]; cbn [Shell.first_line]; [done|].
  destruct (Ascii.eqb_spec ch "010"%char) as [->|Hne].
  - destruct i as [|i]; cbn; [done|]. by destruct i.
  - destruct i as [|i]; cbn [String.get String.length].
    + intros [= ->]. done.
    + intros Hi. f_equal. by apply IH.
Qed.

(** The line is whole up to the room of the buffer: it is cut short of a
    newline only when the buffer is full. *)
Lemma first_line_whole n out :
  (String.length (Shell.first_line n out) < n)%nat →
  Shell.first_line n out = out
  ∨ String.get (String.length (Shell.first_line n out) - 1) (Shell.first_line n out)
    = Some "010"%char.
Proof.
  revert out. induction n as [|n IH]; intros out; [cbn; lia|].
  destruct out as [|ch rest]; cbn [Shell.first_line]; [by left|].
  destruct (Ascii.eqb_spec ch "010"%char) as [->|Hne]; [by right|].
  cbn [String.length]. intros Hlen. destruct (IH rest) as [->|Hnl]; [lia|by left|].
  right. replace (S (String.length (Shell.first_line n rest)) - 1)%nat
    with (String.length (Shell.first_line n rest)) by lia.
  destruct (String.length (Shell.first_line n rest)) as [|k] eqn:Hk.
  - by destruct (Shell.first_line n rest).
  - cbn [String.get]. by replace (S k - 1)%nat with k in Hnl by lia.
Qed.




Section ShellCommands.

Variable popen : string → option string.
Variable inet_ntop : Z → list Z → Z → option string.
Variable sizeof_ipcmd : Z.

(** X17.  The shell sstp_route_get runs at most one command, and none
    when the address has no text form.  With a result other than 0 the
    route of the caller is as it was.  With 0 the route text is the first
    line of the output of "ip route get": a prefix of the output, at most
    the room of the field less one character long, in which a newline
    occurs as the last character only — the newline that ends the line
    is kept — and which is cut short of a newline only when the output
    ends there or the field is full. *)
Theorem shell_get_reads_first_line dst route :
  1 < sizeof_ipcmd →
  let '(ret, route', cmds) := Shell.sstp_route_get popen inet_ntop sizeof_ipcmd dst route in
  (length cmds ≤ 1)%nat
  ∧ (Shell.sstp_ipaddr inet_ntop dst Shell.INET6_ADDRSTRLEN = None → cmds = [])
  ∧ (ret ≠ Shell.Value 0 → route' = route)
  ∧ (ret = Shell.Value 0 →
       ∃ ip out,
         Shell.sstp_ipaddr inet_ntop dst Shell.INET6_ADDRSTRLEN = Some ip
         ∧ cmds = [Shell.snprintf 255 ("ip route get " +:+ ip)]
         ∧ popen (Shell.snprintf 255 ("ip route get " +:+ ip)) = Some out
         ∧ String.prefix (Shell.ipcmd route') out = true
         ∧ Z.of_nat (String.length (Shell.ipcmd route')) ≤ sizeof_ipcmd - 1
         ∧ (∀ i, String.get i (Shell.ipcmd route') = Some "010"%char →
                 S i = String.length (Shell.ipcmd route'))
         ∧ (Z.of_nat (String.length (Shell.ipcmd route')) < sizeof_ipcmd - 1 →
            Shell.ipcmd route' = out
            ∨ String.get (String.length (Shell.ipcmd route') - 1) (Shell.ipcmd route')
              = Some "010"%char)).
Proof.
  intros Hs. unfold Shell.sstp_route_get.
  assert (∀ cmds : list string,
            (length cmds ≤ 1)%nat →
            (Shell.sstp_ipaddr inet_ntop dst Shell.INET6_ADDRSTRLEN = None → cmds = []) →
            let '(ret, route', cmds) := (Shell.Value (-1), route, cmds) in
            (length cmds ≤ 1)%nat
            ∧ (Shell.sstp_ipaddr inet_ntop dst Shell.INET6_ADDRSTRLEN = None → cmds = [])
            ∧ (ret ≠ Shell.Value 0 → route' = route)
            ∧ (ret = Shell.Value 0 →
               ∃ ip out,
                 Shell.sstp_ipaddr inet_ntop dst Shell.INET6_ADDRSTRLEN = Some ip
                 ∧ cmds = [Shell.snprintf 255 ("ip route get " +:+ ip)]
                 ∧ popen (Shell.snprintf 255 ("ip route get " +:+ ip)) = Some out
                 ∧ String.prefix (Shell.ipcmd route') out = true
                 ∧ Z.of_nat (String.length (Shell.ipcmd route')) ≤ sizeof_ipcmd - 1
                 ∧ (∀ i, String.get i (Shell.ipcmd route') = Some "010"%char →
                         S i = String.length (Shell.ipcmd route'))
                 ∧ (Z.of_nat (String.length (Shell.ipcmd route')) < sizeof_ipcmd - 1 →
                    Shell.ipcmd route' = out
                    ∨ String.get (String.length (Shell.ipcmd route') - 1)
                        (Shell.ipcmd route') = Some "010"%char))) as Hfail.
  { intros cmds Hl Hn. repeat split; try done. }
  destruct (Shell.sstp_ipaddr _ _ _) as [ip|] eqn:Hip; [|apply Hfail; [cbn; lia|done]].
  destruct (popen _) as [out|] eqn:Hp; [|apply Hfail; [cbn; lia|done]].
  unfold Shell.fgets.
  destruct (Z.leb_spec sizeof_ipcmd 0); [lia|].
  destruct (Z.eqb_spec sizeof_ipcmd 1); [lia|].
  destruct out as [|ch rest]; [apply Hfail; [cbn; lia|done]|].
  split; [cbn; lia|]. split; [done|]. split; [done|]. intros _.
  exists ip, (String ch rest). cbn [Shell.ipcmd].
  pose proof (first_line_length (Z.to_nat (sizeof_ipcmd - 1)) (String ch rest)).
  repeat split; try done.
  - apply first_line_prefix.
  - lia.
  - apply first_line_newline.
  - intros Hlt. apply first_line_whole. lia.
Qed.


End ShellCommands.

Section ShellUnitTest.

Variable popen : string → option string.
Variable inet_ntop : Z → list Z → Z → option string.
Variable sizeof_ipcmd : Z.
Variable getuid : Z.

(** X19.  main of the build without netlink, run as root.  When
    sstp_route_get fails, main reports it and returns EXIT_FAILURE, with
    the commands of sstp_route_get run.  When the route is found and
    popen fails in sstp_route_replace, main reports that and returns
    EXIT_FAILURE as well.  When the child process of sstp_route_replace
    is created, the call ends without a return statement and main tests
    its value: the behaviour is undefined, and the source fixes no exit
    status for this path. *)
Theorem shell_main_root_uses_missing_value route0 :
  getuid = 0 →
  let '(g, route, cmds) :=
    Shell.sstp_route_get popen inet_ntop sizeof_ipcmd
      (mk_sockaddr AF_INET [4; 4; 2; 2]) route0 in
  ShellTest.main popen inet_ntop sizeof_ipcmd getuid route0
  = match g with
    | Shell.Value v =>
        if v =? 0 then
          match popen (Shell.snprintf 255 ("ip route replace " +:+ Shell.ipcmd route)) with
          | Some _ => Undefined
          | None => Done (EXIT_FAILURE, cmds, [CouldNotAdd])
          end
        else Done (EXIT_FAILURE, cmds, [CouldNotGet])
    | Shell.NoValue => Undefined
    end.
Proof.
  intros ->. unfold ShellTest.main. cbn [ShellTest.value Shell.sstp_route_init].
  rewrite run_bind_Done. change (negb (0 =? 0)) with false. cbv iota.
  change (0 =? 0) with true. cbv iota.
  destruct (Shell.sstp_route_get _ _ _ _ _) as [[g route] cmds].
  destruct g as [v|]; [|done]. cbn [ShellTest.value]. rewrite run_bind_Done.
  destruct (v =? 0); cbn [negb]; [|done].
  unfold Shell.sstp_route_replace.
  destruct (popen _); cbn [ShellTest.value]; [done|].
  rewrite run_bind_Done. change (negb (-1 =? 0)) with true. cbv iota.
  by rewrite app_nil_r.
Qed.

End ShellUnitTest.

(** ** The unit test: what main sends and what it leaves behind *)

Section SessionKept.

Variable getpid : Z.
Variable send : list Z → Z.
Variable if_indextoname : Z → option string.

(** The receive loop keeps the socket and the sequence number of the
    session, whatever it reads. *)
Lemma recv_loop_keeps inbox c errno sent v c' w' :
  recv_loop getpid inbox c errno sent = Done (v, c', w') →
  ctx_sock c' = ctx_sock c ∧ ctx_seq c' = ctx_seq c.
Proof.
  revert c errno. induction inbox as [|ev inbox IH]; intros c errno; [done|].
  cbn [recv_loop].
  assert (ctx_sock (recv_body getpid c errno ev).1.2 = ctx_sock c
          ∧ ctx_seq (recv_body getpid c errno ev).1.2 = ctx_seq c) as Hbody.
  { destruct ev as [e|data]; unfold recv_body; [by case_match|].
    rewrite recv_into_eq. repeat case_match; done. }
  destruct (recv_body getpid c errno ev) as [[fl c1] e1]. cbn [fst snd] in Hbody.
  destruct Hbody as [Hk Hq].
  destruct fl; [by intros [= _ <- _]..|].
  destruct (recv_again c1); [|by intros [= _ <- _]].
  intros Hrun. apply IH in Hrun as [-> ->]. done.
Qed.

Lemma talk_keeps c data size w v c' w' :
  sstp_route_talk getpid send c data size w = Done (v, c', w') →
  ctx_sock c' = ctx_sock c ∧ ctx_seq c' = ctx_seq c.
Proof.
  unfold sstp_route_talk. destruct (negb _); [by intros [= _ <- _]|].
  unfold sstp_route_recv. intros Hrun. by apply recv_loop_keeps in Hrun as [-> ->].
Qed.

(** The first bytes of a datagram that was cut from the buffer. *)
Lemma header_take n buf :
  (16 ≤ n)%nat →
  nlmsg_type (take n buf) = nlmsg_type buf ∧ nlmsg_seq (take n buf) = nlmsg_seq buf.
Proof.
  intros Hn. unfold nlmsg_type, nlmsg_seq. split.
  - apply get_u16_bytewise. intros j Hj. apply get_u8_take. lia.
  - apply get_u32_bytewise. intros j Hj. apply get_u8_take. lia.
Qed.

(** What sstp_route_get sends for an IPv4 or IPv6 destination, and what
    it keeps. *)
Lemma get_keeps c dst out w r c' route' w' :
  dst_valid dst →
  sstp_route_get getpid send if_indextoname c dst out w = Done (r, c', route', w') →
  ctx_sock c' = ctx_sock c ∧ ctx_seq c' = wrap_i32 (ctx_seq c + 1)
  ∧ ∃ req, io_sent w' = io_sent w ++ [req]
      ∧ nlmsg_type req = RTM_GETROUTE
      ∧ nlmsg_seq req = to_u32 (wrap_i32 (ctx_seq c + 1)).
Proof.
  intros Hd Hrun.
  destruct (get_request_ok getpid c dst Hd)
    as (c1 & Hr & Hb & _ & _ & _ & Hq & _ & Hk & Hrest).
  destruct (nlmsg_header_fields RTM_GETROUTE NLM_F_REQUEST
              (wrap_i32 (ctx_seq c + 1)) getpid) as (Hty & _ & Hsq & _).
  pose proof (attrs_space_nonneg [(RTA_DST, sa_addr dst)]) as Hnn.
  assert (attrs_space [(RTA_DST, sa_addr dst)] ≤ 20) as Hsp.
  { rewrite attrs_space_cons. cbn [snd].
    pose proof (RTA_SPACE_bounds (Z.of_nat (length (sa_addr dst)))).
    change (attrs_space []) with 0. destruct Hd as [[_ Hl]|[_ Hl]]; rewrite Hl in *; dlia. }
  destruct Hb as (Hl & Hn & _). unfold sizeof_nlmsghdr, sizeof_rtmsg in Hn.
  unfold sstp_route_get in Hrun. rewrite Hr, run_bind_Done in Hrun.
  apply run_bind_inv in Hrun as ([[len c2] w2] & Ht & Hrun).
  pose proof (talk_sent getpid send _ _ _ _ _ _ _ Ht) as Hsent.
  apply talk_keeps in Ht as [Hk2 Hq2].
  assert (c' = c2 ∧ w' = w2) as [-> ->].
  { repeat case_match; try (by injection Hrun as _ <- _ <-).
    apply run_bind_inv in Hrun as (r' & _ & Hrun). by injection Hrun as _ <- _ <-. }
  split; [congruence|]. split; [congruence|].
  eexists. split; [exact Hsent|].
  rewrite Hn, wrap_i32_small by lia.
  destruct (header_take (Z.to_nat (16 + 12 + attrs_space [(RTA_DST, sa_addr dst)]))
              (ctx_buf c1)) as [-> ->]; [lia|].
  split.
  - transitivity (nlmsg_type (nlmsg_header RTM_GETROUTE NLM_F_REQUEST
                                (wrap_i32 (ctx_seq c + 1)) getpid)); [|exact Hty].
    apply get_u16_bytewise. intros j Hj. apply Hrest; lia.
  - rewrite <- Hsq. apply get_u32_bytewise. intros j Hj. apply Hrest; lia.
Qed.

(** What sstp_route_replace and sstp_route_delete send for a route whose
    fields have their room, and what they keep. *)
Lemma build_and_talk_keeps c route cmd flags w r c' w' :
  route_sized route → 0 ≤ rt_blen route ≤ 16 →
  ('(len, c1) ← sstp_route_newmsg getpid c route cmd flags;
   if len <? 0 then Done (-1, c1, w)
   else
     '(len, c2, w2) ← sstp_route_talk getpid send c1 (ctx_buf c1) len w;
     if len <? 0 then Done (-1, c2, w2) else Done (0, c2, w2))
  = Done (r, c', w') →
  ctx_sock c' = ctx_sock c ∧ ctx_seq c' = wrap_i32 (ctx_seq c + 1)
  ∧ ∃ req, io_sent w' = io_sent w ++ [req]
      ∧ nlmsg_type req = to_u16 cmd
      ∧ nlmsg_seq req = to_u32 (wrap_i32 (ctx_seq c + 1)).
Proof.
  intros Hsz Hbl Hrun.
  destruct (newmsg_sized getpid c route cmd flags Hsz Hbl) as (c1 & Hn & Hb & Hsp).
  pose proof (attrs_space_nonneg (route_attrs route)) as Hnn.
  destruct (newmsg_fields getpid _ _ _ _ _ _ Hn)
    as (Hty & _ & Hsq & _ & _ & _ & _ & _ & _ & _ & _ & _ & _ & Hq & Hk & _).
  rewrite Hn, run_bind_Done in Hrun.
  destruct (Z.ltb_spec (28 + attrs_space (route_attrs route)) 0); [lia|].
  apply run_bind_inv in Hrun as ([[len c2] w2] & Ht & Hrun).
  pose proof (talk_sent getpid send _ _ _ _ _ _ _ Ht) as Hsent.
  apply talk_keeps in Ht as [Hk2 Hq2].
  assert (c' = c2 ∧ w' = w2) as [-> ->]
    by (destruct (len <? 0); by injection Hrun as _ <- <-).
  split; [congruence|]. split; [congruence|].
  eexists. split; [exact Hsent|].
  destruct (header_take (Z.to_nat (28 + attrs_space (route_attrs route))) (ctx_buf c1))
    as [-> ->]; [lia|]. done.
Qed.

End SessionKept.

Section UnitTestFacts.

Variable getpid : Z.
Variable send : list Z → Z.
Variable if_indextoname : Z → option string.
Variable calloc_ok : bool.
Variable socket : gset Z → Z.
Variable getuid : Z.

(** The session of main between sstp_route_init and sstp_route_done:
    one more block, which holds a session on the descriptor [fd], and
    one more open descriptor. *)
Lemma main_done_releases (s0 s : os) a c fd ret w out :
  os_heap s0 !! a = None → fd ∉ os_fds s0 → 0 < fd → ctx_sock c = fd →
  os_heap s = <[a := c]> (os_heap s0) → os_fds s = {[fd]} ∪ os_fds s0 →
  os_closed s = os_closed s0 →
  main_done ret (Some a) s w out
  = Done (ret, mk_os (os_heap s0) (os_fds s0) (os_closed s0 ++ [fd]), w, out).
Proof.
  intros Ha Hfd Hpos Hk Hh Hf Hc. unfold main_done.
  rewrite (done_live s a c); [|by rewrite Hh, lookup_insert_eq|lia].
  rewrite run_bind_Done, Hh, Hf, Hc, Hk.
  assert (delete a (<[a := c]> (os_heap s0)) = os_heap s0) as ->
    by (rewrite delete_insert_eq; by apply delete_id).
  assert (({[fd]} ∪ os_fds s0) ∖ {[fd]} = os_fds s0) as ->; [|done].
  rewrite difference_union_distr_l_L, difference_diag_L, union_empty_l_L.
  apply difference_disjoint_L. by apply disjoint_singleton_r.
Qed.

(** The paths of main after a successful sstp_route_init. *)
Lemma main_after_init route0 (s0 s1 : os) a fd w ret s' w' out :
  os_heap s0 !! a = None →
  os_heap s1 = <[a := set_sock ctx_zero fd]> (os_heap s0) →
  os_fds s1 = {[fd]} ∪ os_fds s0 → os_closed s1 = os_closed s0 →
  sstp_route_init calloc_ok socket None s0 = (0, Some a, s1) →
  main getpid send if_indextoname calloc_ok socket getuid route0 s0 w
  = Done (ret, s', w', out) →
  (fd ∉ os_fds s0 → 0 < fd →
   s' = mk_os (os_heap s0) (os_fds s0) (os_closed s0 ++ [fd]))
  ∧ ∃ reqs, io_sent w' = io_sent w ++ reqs
      ∧ (ret = EXIT_SUCCESS →
         nlmsg_type <$> reqs
         = (if getuid =? 0 then [RTM_GETROUTE; RTM_NEWROUTE; RTM_DELROUTE]
            else [RTM_GETROUTE])
         ∧ nlmsg_seq <$> reqs = (if getuid =? 0 then [1; 2; 3] else [1])
         ∧ length out = length reqs).
Proof.
  intros Ha Hh Hf Hc Hinit Hrun. unfold main in Hrun. rewrite Hinit in Hrun.
  change (negb (0 =? 0)) with false in Hrun. cbv iota in Hrun.
  unfold session in Hrun. cbn [checked] in Hrun. rewrite run_bind_Done in Hrun.
  rewrite Hh, lookup_insert_eq in Hrun. cbn [checked] in Hrun.
  rewrite !run_bind_Done in Hrun.
  apply run_bind_inv in Hrun as ([[[r c] route] w1] & Hget & Hrun).
  assert (dst_valid (mk_sockaddr AF_INET [4; 4; 2; 2])) as Hd by (by left).
  destruct (get_keeps getpid send if_indextoname _ _ _ _ _ _ _ _ Hd Hget)
    as (Hk1 & Hq1 & req1 & Hs1 & Ht1 & Hn1).
  cbn [ctx_sock ctx_seq set_sock ctx_zero] in Hk1, Hq1, Hn1.
  assert (∀ x c' s x' w0 o,
            ctx_sock c' = fd → os_heap s = <[a := c']> (os_heap s0) →
            os_fds s = {[fd]} ∪ os_fds s0 → os_closed s = os_closed s0 →
            main_done x (Some a) s w0 o = Done (ret, s', w', x') →
            x = ret
            ∧ (fd ∉ os_fds s0 → 0 < fd →
               s' = mk_os (os_heap s0) (os_fds s0) (os_closed s0 ++ [fd]))
            ∧ w0 = w' ∧ o = x') as Hend.
  { intros x c' s x' w0 o Hk' Hh' Hf' Hc' Hdone.
    assert (x = ret ∧ w0 = w' ∧ o = x') as (-> & -> & ->).
    { unfold main_done in Hdone. apply run_bind_inv in Hdone as (s2 & _ & Hdone).
      by injection Hdone as -> _ -> ->. }
    repeat split. intros Hfd Hpos.
    rewrite (main_done_releases s0 s a c' fd) in Hdone by done.
    by injection Hdone as ->. }
  assert (∀ c' c'' s, os_heap s = <[a := c'']> (os_heap s0) →
            os_heap (os_update a c' s) = <[a := c']> (os_heap s0)
            ∧ os_fds (os_update a c' s) = os_fds s
            ∧ os_closed (os_update a c' s) = os_closed s) as Hup.
  { intros c' c'' s Hs. cbn [os_update os_heap os_fds os_closed].
    by rewrite Hs, insert_insert_eq. }
  destruct (Hup c _ s1 Hh) as (Hh2 & Hf2 & Hc2). rewrite Hf, Hc in *.
  destruct (Z.eqb_spec r 0) as [->|Hr]; cbn [negb] in Hrun.
  2:{ apply (Hend _ c) in Hrun as (<- & Hs' & <- & <-); try done.
      split; [done|]. exists [req1]. split; [done|]. intros [=]. }
  destruct (get_result_shape getpid send if_indextoname _ _ _ _ _ _ _ Hget)
    as (_ & Hshape & Hsz & _).
  assert (0 ≤ rt_blen route ≤ 16) as Hbl by (destruct Hshape as [[_ ->]|[_ ->]]; lia).
  destruct (Z.eqb_spec getuid 0) as [Hroot|Huser].
  2:{ apply (Hend _ c) in Hrun as (<- & Hs' & <- & <-); try done.
      split; [done|]. exists [req1]. split; [done|]. intros _.
      cbn [fmap list_fmap]. by rewrite Ht1, Hn1. }
  apply run_bind_inv in Hrun as ([[r2 c2] w2] & Hrep & Hrun).
  destruct (build_and_talk_keeps getpid send _ _ _ _ _ _ _ _ Hsz Hbl Hrep)
    as (Hk2 & Hq2 & req2 & Hs2 & Ht2 & Hn2).
  destruct (Hup c2 _ _ Hh2) as (Hh3 & Hf3 & Hc3). rewrite Hf2, Hc2 in *.
  destruct (Z.eqb_spec r2 0) as [->|Hr2]; cbn [negb] in Hrun.
  2:{ apply (Hend _ c2) in Hrun as (<- & Hs' & <- & <-); try done; [|congruence].
      split; [done|]. exists [req1; req2].
      split; [by rewrite Hs2, Hs1, <- app_assoc|]. intros [=]. }
  apply run_bind_inv in Hrun as ([[r3 c3] w3] & Hdel & Hrun).
  destruct (build_and_talk_keeps getpid send _ _ _ _ _ _ _ _ Hsz Hbl Hdel)
    as (Hk3 & Hq3 & req3 & Hs3 & Ht3 & Hn3).
  destruct (Hup c3 _ _ Hh3) as (Hh4 & Hf4 & Hc4). rewrite Hf3, Hc3 in *.
  assert (io_sent w3 = io_sent w ++ [req1; req2; req3]) as Hsent
    by (by rewrite Hs3, Hs2, Hs1, <- !app_assoc).
  destruct (Z.eqb_spec r3 0) as [->|Hr3]; cbn [negb] in Hrun.
  2:{ apply (Hend _ c3) in Hrun as (<- & Hs' & <- & <-); try done; [|congruence].
      split; [done|]. exists [req1; req2; req3]. split; [done|]. intros [=]. }
  apply (Hend _ c3) in Hrun as (<- & Hs' & <- & <-); try done; [|congruence].
  split; [done|]. exists [req1; req2; req3]. split; [done|]. intros _.
  cbn [fmap list_fmap]. rewrite Ht1, Ht2, Ht3, Hn1, Hn2, Hn3, Hq2, Hq1. done.
Qed.

(** X20.  main of the netlink build releases its session on every path:
    whatever the kernel answers and whichever operation fails, when main
    returns, the heap and the open descriptors are as they were before,
    provided socket hands out a descriptor that was not open and is not
    0.  close has been called once, on the value that socket returned, if
    calloc gave memory, and not at all otherwise. *)
Theorem main_releases_session route0 s w ret s' w' out :
  main getpid send if_indextoname calloc_ok socket getuid route0 s w
  = Done (ret, s', w', out) →
  socket (os_fds s) ≠ 0 → socket (os_fds s) ∉ os_fds s →
  os_heap s' = os_heap s ∧ os_fds s' = os_fds s
  ∧ os_closed s' = os_closed s ++ (if calloc_ok then [socket (os_fds s)] else []).
Proof.
  intros Hrun Hnz Hnew.
  destruct (sstp_route_init calloc_ok socket None s) as [[r ctx] s1] eqn:Hinit.
  pose proof (init_cases calloc_ok socket _ _ _ _ _ Hinit) as Hcases. cbv zeta in Hcases.
  destruct Hcases as [(-> & -> & Hh & Hfail)|(-> & Hc & Hfd & a & -> & Ha & Hh & Hf & Hcl)].
  - unfold main in Hrun. rewrite Hinit in Hrun.
    change (negb (-1 =? 0)) with true in Hrun. cbv iota in Hrun.
    unfold main_done in Hrun. cbn [sstp_route_done] in Hrun.
    rewrite run_bind_Done in Hrun. injection Hrun as _ <- _ _.
    split; [done|].
    destruct Hfail as [(-> & ->)|(-> & Hneg & -> & ->)]; [by rewrite app_nil_r|].
    split; [|done]. apply difference_disjoint_L. by apply disjoint_singleton_r.
  - destruct (main_after_init route0 s s1 a (socket (os_fds s)) w ret s' w' out)
      as (Hs' & _); try done. rewrite Hs' by (done || lia). by rewrite Hc.
Qed.

(** X21.  When main of the netlink build returns EXIT_SUCCESS it has
    sent one request, RTM_GETROUTE with the sequence number 1, if the
    user is not root, and three requests, RTM_GETROUTE, RTM_NEWROUTE and
    RTM_DELROUTE with the sequence numbers 1, 2 and 3 in this order, if
    the user is root; it has printed one report per request.  Routes are
    never changed for a user other than root. *)
Theorem main_success_exchanges route0 s w s' w' out :
  main getpid send if_indextoname calloc_ok socket getuid route0 s w
  = Done (EXIT_SUCCESS, s', w', out) →
  ∃ reqs, io_sent w' = io_sent w ++ reqs
    ∧ nlmsg_type <$> reqs
      = (if getuid =? 0 then [RTM_GETROUTE; RTM_NEWROUTE; RTM_DELROUTE]
         else [RTM_GETROUTE])
    ∧ nlmsg_seq <$> reqs = (if getuid =? 0 then [1; 2; 3] else [1])
    ∧ length out = length reqs.
Proof.
  intros Hrun.
  destruct (sstp_route_init calloc_ok socket None s) as [[r ctx] s1] eqn:Hinit.
  pose proof (init_cases calloc_ok socket _ _ _ _ _ Hinit) as Hcases. cbv zeta in Hcases.
  destruct Hcases as [(-> & -> & Hh & Hfail)|(-> & Hc & Hfd & a & -> & Ha & Hh & Hf & Hcl)].
  - unfold main in Hrun. rewrite Hinit in Hrun.
    change (negb (-1 =? 0)) with true in Hrun. cbv iota in Hrun.
    unfold main_done in Hrun. cbn [sstp_route_done] in Hrun.
    rewrite run_bind_Done in Hrun. by injection Hrun.
  - destruct (main_after_init route0 s s1 a (socket (os_fds s)) w EXIT_SUCCESS s' w' out)
      as (_ & reqs & Hsent & Hok); try done.
    exists reqs. split; [done|]. by apply Hok.
Qed.

End UnitTestFacts.

(** ** The further properties at the sample data *)

Lemma ex_route_valid : route_valid ex_route.
Proof.
  unfold route_valid, bytes_ok, is_byte. cbn.
  repeat split; try lia; try (by left); repeat constructor; lia.
Defined.

Lemma recv_retries_transient_witness :
  sstp_route_recv ex_pid ex_ctx_pending
    (mk_io 0 ((RecvFail <$> [EINTR; EAGAIN]) ++ [RecvData ex_reply]) [])
  = sstp_route_recv ex_pid ex_ctx_pending (mk_io EAGAIN [RecvData ex_reply] []).
Proof.
  refine (recv_retries_transient ex_pid ex_ctx_pending 0 [] [EINTR; EAGAIN]
            [RecvData ex_reply] _ _).
  - vm_compute. reflexivity.
  - apply Forall_cons. split; [right; reflexivity|].
    apply Forall_cons. split; [left; reflexivity|exact (Forall_nil_2 _)].
Defined.

Lemma recv_fatal_reads_witness :
  sstp_route_recv ex_pid ex_ctx (mk_io 0 [RecvData ex_truncated; RecvData ex_reply] [])
  = Done (-1, recv_ctx (set_len ex_ctx 0) ex_truncated,
          mk_io 0 [RecvData ex_reply] []).
Proof.
  refine (proj2 (proj2 (recv_fatal_reads ex_pid ex_ctx 0 [] [RecvData ex_reply] _))
            ex_truncated _).
  - reflexivity.
  - unfold msg_ok. vm_compute. intros [_ H]. apply H. reflexivity.
Defined.


Lemma replace_delete_incomplete_send_witness :
  (∃ c1 req,
     sstp_route_replace ex_pid ex_send_short ex_ctx ex_route (mk_io 0 [] [])
     = Done (if ex_send_short req <? 0 then -1 else 0, c1,
             mk_io (if ex_send_short req <? 0 then - ex_send_short req else 0) []
               ([] ++ [req]))
     ∧ Z.of_nat (length req) = 28 + attrs_space (route_attrs ex_route)
     ∧ ctx_seq c1 = wrap_i32 (ctx_seq ex_ctx + 1))
  ∧ (∃ c1 req,
       sstp_route_replace ex_pid ex_send_ebadf ex_ctx ex_route (mk_io 0 [] [])
       = Done (-1, c1, mk_io 9 [] ([] ++ [req]))
       ∧ Z.of_nat (length req) = 28 + attrs_space (route_attrs ex_route)
       ∧ ctx_seq c1 = wrap_i32 (ctx_seq ex_ctx + 1)).
Proof.
  split.
  - refine (proj1 (replace_delete_incomplete_send ex_pid ex_send_short ex_ctx ex_route
                     (mk_io 0 [] []) ex_route_valid _)).
    intros d. unfold ex_send_short. lia.
  - refine (proj1 (replace_delete_incomplete_send ex_pid ex_send_ebadf ex_ctx ex_route
                     (mk_io 0 [] []) ex_route_valid _)).
    intros d. unfold ex_send_ebadf. lia.
Defined.

Lemma replace_delete_acknowledged_witness :
  (∃ c' errno' req,
     sstp_route_replace ex_pid ex_send ex_ctx ex_route
       (mk_io 0 ([RecvFail EINTR] ++ RecvData ex_ack :: []) [])
     = Done (0, c', mk_io errno' [] ([] ++ [req]))
     ∧ ctx_seq c' = 2)
  ∧ (∃ c' req,
       sstp_route_replace ex_pid ex_send ex_ctx ex_route
         (mk_io 0 ([] ++ RecvData ex_header_error :: []) [])
       = Done (-1, c', mk_io (wrap_i32 (- get_i32 req NLMSG_DATA)) [] ([] ++ [req]))
       ∧ 0 < get_i32 req NLMSG_DATA).
Proof.
  split.
  - destruct (proj1 (proj1 (replace_delete_acknowledged ex_pid ex_send ex_ctx 0 []
                       [RecvFail EINTR] ex_ack [] ex_route
                       ltac:(intros d; reflexivity) ex_route_valid
                       ltac:(apply Forall_cons; split;
                             [right; reflexivity|exact (Forall_nil_2 _)])
                       ltac:(unfold msg_ok; vm_compute; split; discriminate)
                       ltac:(vm_compute; reflexivity) ltac:(vm_compute; reflexivity))
                     ltac:(right; unfold error_frame; vm_compute;
                           repeat split; discriminate)))
      as (c' & errno' & req & H & _ & Hq & _).
    exists c', errno', req. split; [exact H|exact Hq].
  - destruct (proj1 (proj2 (replace_delete_acknowledged ex_pid ex_send ex_ctx 0 []
                       [] ex_header_error [] ex_route
                       ltac:(intros d; reflexivity) ex_route_valid
                       (Forall_nil_2 _)
                       ltac:(unfold msg_ok; vm_compute; split; discriminate)
                       ltac:(vm_compute; reflexivity) ltac:(vm_compute; reflexivity))
                     eq_refl eq_refl eq_refl))
      as (c' & req & H & _ & Hpos).
    exists c', req. split; [exact H|exact Hpos].
Defined.

Lemma newmsg_header_and_route_message_witness :
  ∃ n c', sstp_route_newmsg ex_pid ex_ctx ex_route RTM_NEWROUTE
            (Z.lor NLM_F_CREATE NLM_F_REPLACE) = Done (n, c')
    ∧ nlmsg_type (ctx_buf c') = to_u16 RTM_NEWROUTE
    ∧ nlmsg_seq (ctx_buf c') = to_u32 (wrap_i32 (ctx_seq ex_ctx + 1))
    ∧ rtm_dst_len (ctx_buf c') = to_u8 (Z.shiftl 4 3).
Proof.
  assert (∃ n c', sstp_route_newmsg ex_pid ex_ctx ex_route RTM_NEWROUTE
                    (Z.lor NLM_F_CREATE NLM_F_REPLACE) = Done (n, c'))
    as (n & c' & H) by (do 2 eexists; vm_compute; reflexivity).
  exists n, c'. split; [exact H|].
  destruct (newmsg_header_and_route_message ex_pid ex_ctx ex_route RTM_NEWROUTE
              (Z.lor NLM_F_CREATE NLM_F_REPLACE) n c' H)
    as (Ht & _ & Hs & _ & _ & _ & _ & _ & Hd & _).
  split; [exact Ht|]. split; [exact Hs|exact Hd].
Defined.

Lemma addattr_appends_when_room_witness :
  let buf := nlmsg_header RTM_GETROUTE NLM_F_REQUEST 2 ex_pid in
  ∃ buf', sstp_route_addattr buf RTA_DST 4 [4; 4; 2; 2] = Done buf'
    ∧ length buf' = Z.to_nat sizeof_buf
    ∧ nlmsg_len buf' = nlmsg_len buf + RTA_SPACE 4
    ∧ attr_at buf' (nlmsg_len buf) = (to_u16 RTA_DST, take (Z.to_nat 4) [4; 4; 2; 2])
    ∧ same_on buf' buf 4 (nlmsg_len buf)
    ∧ same_on buf' buf (nlmsg_len buf + 4 + 4) sizeof_buf.
Proof.
  intros buf.
  pose proof (addattr_appends_when_room buf RTA_DST 4 [4; 4; 2; 2]
                ltac:(vm_compute; reflexivity) ltac:(vm_compute; discriminate)
                ltac:(vm_compute; reflexivity)) as H.
  cbv zeta in H. rewrite bool_decide_eq_true_2 in H; [exact H|].
  vm_compute. repeat split; discriminate.
Defined.

Lemma rta_walk_stops_at_malformed_witness :
  attr_at ex_response_trailing
    <$> rta_offsets ex_response_trailing 28 (attrs_space ex_attrs + 8)
  = ex_attrs.
Proof.
  refine (rta_walk_stops_at_malformed ex_response_trailing 28 ex_attrs 8 _ _ _).
  - vm_compute. repeat split.
  - lia.
  - vm_compute. reflexivity.
Defined.

Lemma get_route_feeds_newmsg_witness :
  ∃ c' route' w',
    sstp_route_get ex_pid ex_send ex_no_ifname ex_ctx ex_dst ex_route
      (mk_io 0 [RecvData ex_response] []) = Done (0, c', route', w')
    ∧ route_sized route'
    ∧ ∃ c1, sstp_route_newmsg ex_pid c' route' RTM_NEWROUTE
              (Z.lor NLM_F_CREATE NLM_F_REPLACE)
            = Done (28 + attrs_space (route_attrs route'), c1)
        ∧ parse_attrs (ctx_buf c1) = route_attrs route'.
Proof.
  assert (∃ c' route' w',
            sstp_route_get ex_pid ex_send ex_no_ifname ex_ctx ex_dst ex_route
              (mk_io 0 [RecvData ex_response] []) = Done (0, c', route', w'))
    as (c' & route' & w' & H) by (do 3 eexists; vm_compute; reflexivity).
  exists c', route', w'. split; [exact H|].
  destruct (get_route_feeds_newmsg ex_pid ex_send ex_no_ifname ex_ctx ex_dst ex_route
              _ c' route' w' H) as (_ & _ & Hsz & _ & Hnew).
  split; [exact Hsz|]. exact (Hnew c' RTM_NEWROUTE (Z.lor NLM_F_CREATE NLM_F_REPLACE)).
Defined.

Lemma get_attribute_order_irrelevant_witness :
  ∃ route' c1 w1 c2 w2,
    sstp_route_get ex_pid ex_send ex_no_ifname ex_ctx ex_dst ex_route
      (mk_io 0 ([] ++ RecvData ex_response :: []) []) = Done (0, c1, route', w1)
    ∧ sstp_route_get ex_pid ex_send ex_no_ifname ex_ctx ex_dst ex_route
        (mk_io 0 ([] ++ RecvData ex_response_swapped :: []) []) = Done (0, c2, route', w2).
Proof.
  refine (get_attribute_order_irrelevant ex_pid ex_send ex_no_ifname ex_ctx ex_dst
            ex_route 0 [] [] ex_response ex_response_swapped []
            _ _ _ _ _ _ _ _ _ _).
  - intros d. reflexivity.
  - left. split; reflexivity.
  - exact (Forall_nil_2 _).
  - unfold route_response, msg_ok, no_error. vm_compute.
    repeat split; try discriminate. left. discriminate.
  - unfold route_response, msg_ok, no_error. vm_compute.
    repeat split; try discriminate. left. discriminate.
  - reflexivity.
  - left. reflexivity.
  - vm_compute. apply perm_swap.
  - vm_compute. repeat (apply NoDup_cons; split;
      [rewrite ?not_elem_of_cons; repeat split; try discriminate; apply not_elem_of_nil|]).
    apply NoDup_nil_2.
  - vm_compute. repeat constructor; vm_compute; intros; try discriminate;
      repeat match goal with H : _ ∨ _ |- _ => destruct H end; try discriminate; lia.
Defined.


Lemma init_outcomes_witness :
  ∃ ret pctx' s',
    sstp_route_init true (λ _, -1) (Some 7%nat) ex_os = (ret, pctx', s')
    ∧ ret = -1 ∧ pctx' = Some 7%nat ∧ os_heap s' = os_heap ex_os.
Proof.
  assert (∃ ret pctx' s',
            sstp_route_init true (λ _, -1) (Some 7%nat) ex_os = (ret, pctx', s'))
    as (ret & pctx' & s' & H) by (do 3 eexists; reflexivity).
  exists ret, pctx', s'. split; [exact H|].
  destruct (init_outcomes true (λ _, -1) (Some 7%nat) ex_os ret pctx' s' H)
    as [(Hr & Hp & Hh & _)|(_ & _ & Hfd & _)].
  - split; [exact Hr|]. split; [exact Hp|exact Hh].
  - exfalso. revert Hfd. cbn. lia.
Defined.

Lemma descriptor_zero_is_never_closed_witness :
  ∃ a s1, sstp_route_init true (λ _, 0) None ex_os = (0, Some a, s1)
    ∧ sstp_route_done (Some a) s1
      = Done (mk_os (os_heap ex_os) ({[0]} ∪ os_fds ex_os) (os_closed ex_os)).
Proof.
  exact (descriptor_zero_is_never_closed true (λ _, 0) None ex_os eq_refl eq_refl).
Defined.

Lemma other_sessions_untouched_witness :
  ∃ s', sstp_route_init true (λ _, 5) None ex_os_session = (0, Some 1%nat, s')
    ∧ os_heap s' !! 0%nat = os_heap ex_os_session !! 0%nat.
Proof.
  assert (∃ s', sstp_route_init true (λ _, 5) None ex_os_session = (0, Some 1%nat, s'))
    as (s' & H) by (eexists; vm_compute; reflexivity).
  exists s'. split; [exact H|].
  refine (proj1 (other_sessions_untouched true (λ _, 5) None ex_os_session 0%nat)
            _ _ _ H _).
  exists ex_ctx. vm_compute. reflexivity.
Defined.

Lemma shell_get_reads_first_line_witness :
  let '(ret, route', cmds) :=
    Shell.sstp_route_get ex_popen ex_inet_ntop 512 ex_dst (Shell.mk_route "") in
  (length cmds ≤ 1)%nat
  ∧ (Shell.sstp_ipaddr ex_inet_ntop ex_dst Shell.INET6_ADDRSTRLEN = None → cmds = [])
  ∧ (ret ≠ Shell.Value 0 → route' = Shell.mk_route "")
  ∧ (ret = Shell.Value 0 →
       ∃ ip out,
         Shell.sstp_ipaddr ex_inet_ntop ex_dst Shell.INET6_ADDRSTRLEN = Some ip
         ∧ cmds = [Shell.snprintf 255 ("ip route get " +:+ ip)]
         ∧ ex_popen (Shell.snprintf 255 ("ip route get " +:+ ip)) = Some out
         ∧ String.prefix (Shell.ipcmd route') out = true
         ∧ Z.of_nat (String.length (Shell.ipcmd route')) ≤ 512 - 1
         ∧ (∀ i, String.get i (Shell.ipcmd route') = Some "010"%char →
                 S i = String.length (Shell.ipcmd route'))
         ∧ (Z.of_nat (String.length (Shell.ipcmd route')) < 512 - 1 →
            Shell.ipcmd route' = out
            ∨ String.get (String.length (Shell.ipcmd route') - 1) (Shell.ipcmd route')
              = Some "010"%char)).
Proof.
  exact (shell_get_reads_first_line ex_popen ex_inet_ntop 512 ex_dst (Shell.mk_route "")
           ltac:(lia)).
Defined.

Lemma main_releases_session_witness :
  ∃ ret s' w' out,
    main ex_pid ex_send ex_no_ifname true (λ _, 3) 1000 ex_route ex_os
      (mk_io 0 [RecvData ex_get_error_1] []) = Done (ret, s', w', out)
    ∧ os_heap s' = os_heap ex_os ∧ os_fds s' = os_fds ex_os
    ∧ os_closed s' = os_closed ex_os ++ [3].
Proof.
  assert (∃ ret s' w' out,
            main ex_pid ex_send ex_no_ifname true (λ _, 3) 1000 ex_route ex_os
              (mk_io 0 [RecvData ex_get_error_1] []) = Done (ret, s', w', out))
    as (ret & s' & w' & out & H) by (do 4 eexists; vm_compute; reflexivity).
  exists ret, s', w', out. split; [exact H|].
  exact (main_releases_session ex_pid ex_send ex_no_ifname true (λ _, 3) 1000
           ex_route ex_os _ ret s' w' out H
           ltac:(cbn; lia) ltac:(cbn; apply not_elem_of_empty)).
Defined.

Lemma main_success_exchanges_witness :
  ∃ s' w' out reqs,
    main ex_pid ex_send ex_no_ifname true (λ _, 3) 0 ex_route ex_os
      (mk_io 0 [RecvData ex_reply; RecvData ex_ack; RecvData ex_ack3] [])
    = Done (EXIT_SUCCESS, s', w', out)
    ∧ io_sent w' = [] ++ reqs
    ∧ nlmsg_type <$> reqs = [RTM_GETROUTE; RTM_NEWROUTE; RTM_DELROUTE]
    ∧ nlmsg_seq <$> reqs = [1; 2; 3].
Proof.
  assert (∃ s' w' out,
            main ex_pid ex_send ex_no_ifname true (λ _, 3) 0 ex_route ex_os
              (mk_io 0 [RecvData ex_reply; RecvData ex_ack; RecvData ex_ack3] [])
            = Done (EXIT_SUCCESS, s', w', out))
    as (s' & w' & out & H) by (do 3 eexists; vm_compute; reflexivity).
  destruct (main_success_exchanges ex_pid ex_send ex_no_ifname true (λ _, 3) 0
              ex_route ex_os _ s' w' out H) as (reqs & Hs & Ht & Hq & _).
  exists s', w', out, reqs. split; [exact H|]. split; [exact Hs|].
  split; [exact Ht|exact Hq].
Defined.

Lemma shell_main_root_uses_missing_value_witness :
  ShellTest.main ex_popen ex_inet_ntop 512 0 (Shell.mk_route "") = Undefined.
Proof.
  exact (shell_main_root_uses_missing_value ex_popen ex_inet_ntop 512 0
           (Shell.mk_route "") eq_refl).
Defined.

Lemma get_oversized_attribute_is_undefined_witness :
  sstp_route_get ex_pid ex_send ex_no_ifname ex_ctx ex_dst ex_route
    (mk_io 0 ([] ++ RecvData ex_response_oversized :: []) []) = Undefined.
Proof.
  refine (get_oversized_attribute_is_undefined ex_pid ex_send ex_no_ifname ex_ctx ex_dst
            ex_route 0 [] [] ex_response_oversized [] [] RTA_GATEWAY (replicate 20 7) []
            _ _ _ _ _ _ _ _).
  - intros d. reflexivity.
  - left. split; reflexivity.
  - exact (Forall_nil_2 _).
  - unfold route_response, msg_ok, no_error. vm_compute.
    repeat split; try discriminate. left. discriminate.
  - left. reflexivity.
  - vm_compute. reflexivity.
  - exact (Forall_nil_2 _).
  - left. split; [left; reflexivity|]. vm_compute. lia.
Defined.

Lemma get_header_only_response_witness :
  ∃ c' sent',
    sstp_route_get ex_pid ex_send ex_no_ifname ex_ctx ex_dst ex_route
      (mk_io 0 (RecvData ex_header_only :: []) [])
    = Done (0, c', route_init (sa_family ex_dst), mk_io 0 [] sent').
Proof.
  refine (get_header_only_response ex_pid ex_send ex_no_ifname ex_ctx ex_dst ex_route
            0 [] ex_header_only [] _ _ _ _ _ _ _).
  - intros d. reflexivity.
  - left. split; reflexivity.
  - reflexivity.
  - reflexivity.
  - vm_compute. discriminate.
  - reflexivity.
  - reflexivity.
Defined.
